(** * VentureIQ: the multi-agent orchestrator and its analysis agents

    A shallow embedding of [multiAgentOrchestrator.js], of the five agents
    under [src/service/agents/] (the parsers, the benchmarks, the risk
    assessments, the competitive and portfolio analyses and the scores and
    insights they yield) and of what the application's pages read from a
    report, followed by the properties of the specification that concern them
    and by further properties of the code.

    JavaScript numbers are IEEE 754 binary64 values; they are modelled by
    Rocq's primitive floats, whose operations are the same.  A property that
    may be absent from an object ([undefined], or JSON's [null]) is an
    [option].  Strings are byte strings holding the UTF-8 encoding of the
    JavaScript string. *)

From Stdlib Require Import ZArith List String Ascii Bool Lia Floats.
From Stdlib Require Import Permutation Sorted.
Import ListNotations.

Set Warnings "-inexact-float".

(** ** The fragment of JavaScript the code relies on *)

Module JS.

Definition number := float.

Definition NaN : number := nan.

(** ToBoolean on a number: [+0], [-0] and [NaN] are falsy. *)
Definition truthy (x : number) : bool :=
  negb (PrimFloat.eqb x 0 || is_nan x).

(** ToBoolean on a string: only the empty string is falsy. *)
Definition truthy_string (s : string) : bool :=
  match s with EmptyString => false | _ => true end.

(** [x || d] where [x] is a number-valued property that may be absent. *)
Definition or_default (x : option number) (d : number) : number :=
  match x with
  | Some v => if truthy v then v else d
  | None => d
  end.

(** The float holding a non-negative integer below [2^63] (exact up to
    [2^53]). *)
Definition of_Z (z : Z) : number :=
  if (z <? 0)%Z then (- of_uint63 (Uint63.of_Z (- z)))%float
  else of_uint63 (Uint63.of_Z z).

(** The double nearest to the rational [p / q] ([0 <= p], [0 < q]), ties to
    even: the value of a decimal literal. *)
Definition nearest_double (p q : Z) : number :=
  if (p =? 0)%Z then 0%float
  else
    let l := (Z.log2 p - Z.log2 q)%Z in
    let ge_pow2 :=
      if (0 <=? l)%Z then (q * 2 ^ l <=? p)%Z else (q <=? p * 2 ^ (- l))%Z in
    let k := if ge_pow2 then l else (l - 1)%Z in
    let e := Z.max (k - 52) (-1074) in
    let num := if (0 <=? e)%Z then p else (p * 2 ^ (- e))%Z in
    let den := if (0 <=? e)%Z then (q * 2 ^ e)%Z else q in
    let m := (num / den)%Z in
    let r := (num mod den)%Z in
    let up := (den <? 2 * r)%Z || ((den =? 2 * r)%Z && Z.odd m) in
    Z.ldexp (of_Z (if up then m + 1 else m)%Z) e.

(** [Math.round]: the nearest integer, halves towards [+Infinity]; [NaN],
    the infinities and integral values are returned as they are, and a result
    of zero keeps the sign of the argument. *)
Definition Math_round (x : number) : number :=
  match Prim2SF x with
  | S754_finite s m e =>
      if (0 <=? e)%Z then x
      else
        let n := if s then Z.neg m else Z.pos m in
        let q := ((2 * n + 2 ^ (- e)) / 2 ^ (1 - e))%Z in
        if (q =? 0)%Z then (if s then (-0)%float else 0%float) else of_Z q
  | _ => x
  end.

Definition is_neg_zero (x : number) : bool := is_zero x && get_sign x.

(** [Math.min] and [Math.max] of two numbers: [NaN] if either is [NaN], and
    [-0] counts as smaller than [+0]. *)
Definition Math_min (a b : number) : number :=
  if is_nan a || is_nan b then NaN
  else if (a <? b)%float then a
  else if (b <? a)%float then b
  else if is_neg_zero a then a else b.

Definition Math_max (a b : number) : number :=
  if is_nan a || is_nan b then NaN
  else if (a <? b)%float then b
  else if (b <? a)%float then a
  else if is_neg_zero a then b else a.

(** *** Strings *)

Definition is_digit (c : ascii) : bool :=
  (48 <=? nat_of_ascii c)%nat && (nat_of_ascii c <=? 57)%nat.

Definition digit_value (c : ascii) : Z := Z.of_nat (nat_of_ascii c) - 48.

Fixpoint filter_string (f : ascii -> bool) (s : string) : string :=
  match s with
  | EmptyString => EmptyString
  | String c s' => if f c then String c (filter_string f s') else filter_string f s'
  end.

(** [s.replace(/[^\d.]/g, '')] *)
Definition strip_non_numeric (s : string) : string :=
  filter_string (fun c => is_digit c || Ascii.eqb c ".") s.

(** [s.replace(/[^\d]/g, '')] *)
Definition strip_non_digits (s : string) : string :=
  filter_string is_digit s.

(** [s.replace('%', '')]: a string pattern replaces the first occurrence only. *)
Fixpoint remove_first (x : ascii) (s : string) : string :=
  match s with
  | EmptyString => EmptyString
  | String c s' => if Ascii.eqb c x then s' else String c (remove_first x s')
  end.

Definition lower_ascii (c : ascii) : ascii :=
  let n := nat_of_ascii c in
  if (65 <=? n)%nat && (n <=? 90)%nat then ascii_of_nat (n + 32) else c.

(** [s.toLowerCase()].  ASCII letters are mapped as usual.  Of the characters
    outside ASCII, two have a lower-case form containing an ASCII letter:
    U+212A KELVIN SIGN (bytes E2 84 AA) becomes [k], and U+0130 (bytes C4 B0)
    becomes [i] followed by U+0307 (bytes CC 87).  Every other character
    outside ASCII maps to characters outside ASCII; the code only searches
    the result for ASCII substrings, so those are left as they are. *)
Fixpoint toLowerCase (s : string) : string :=
  match s with
  | String "226" (String "132" (String "170" s')) => String "k" (toLowerCase s')
  | String "196" (String "176" s') =>
      String "i" (String "204" (String "135" (toLowerCase s')))
  | String c s' => String (lower_ascii c) (toLowerCase s')
  | EmptyString => EmptyString
  end.

(** [s.includes(needle)] *)
Fixpoint includes (s needle : string) : bool :=
  String.prefix needle s ||
  match s with
  | EmptyString => false
  | String _ s' => includes s' needle
  end.

(** [StrWhiteSpaceChar]: the white space and line terminators that
    [parseFloat] and [parseInt] skip, in their UTF-8 encoding. *)
Fixpoint skip_white_space (fuel : nat) (s : string) : string :=
  match fuel with
  | O => s
  | S fuel' =>
      match s with
      | String c s1 =>
          let n := nat_of_ascii c in
          if ((9 <=? n) && (n <=? 13) || (n =? 32))%nat then skip_white_space fuel' s1
          else
            match s with
            | String "194" (String "160" s2) => skip_white_space fuel' s2
            | String "225" (String "154" (String "128" s3)) => skip_white_space fuel' s3
            | String "226" (String "128" (String d s3)) =>
                let k := nat_of_ascii d in
                if ((128 <=? k) && (k <=? 138) || (k =? 168) || (k =? 169) || (k =? 175))%nat
                then skip_white_space fuel' s3 else s
            | String "226" (String "129" (String "159" s3)) => skip_white_space fuel' s3
            | String "227" (String "128" (String "128" s3)) => skip_white_space fuel' s3
            | String "239" (String "187" (String "191" s3)) => skip_white_space fuel' s3
            | _ => s
            end
      | EmptyString => s
      end
  end.

(** The longest prefix of decimal digits, as the integer it denotes and its
    length, and the rest of the string. *)
Fixpoint take_digits (acc : Z) (len : Z) (s : string) : Z * Z * string :=
  match s with
  | String c s' =>
      if is_digit c then take_digits (10 * acc + digit_value c) (len + 1) s'
      else (acc, len, s)
  | EmptyString => (acc, len, s)
  end.

(** The optional exponent part [e[+-]ddd] of a decimal literal; [0] when the
    text that follows is not a complete exponent. *)
Definition take_exponent (s : string) : Z :=
  match s with
  | String c s1 =>
      if Ascii.eqb c "e" || Ascii.eqb c "E" then
        let '(sgn, s2) :=
          match s1 with
          | String "+" s2 => (1%Z, s2)
          | String "-" s2 => ((-1)%Z, s2)
          | _ => (1%Z, s1)
          end in
        let '(v, len, _) := take_digits 0 0 s2 in
        if (len =? 0)%Z then 0%Z else (sgn * v)%Z
      else 0%Z
  | EmptyString => 0%Z
  end.

(** The value of mantissa digits [m] scaled by [10^x]. *)
Definition decimal_value (m x : Z) : number :=
  if (0 <=? x)%Z then nearest_double (m * 10 ^ x) 1 else nearest_double m (10 ^ (- x)).

(** The unsigned part of a [StrDecimalLiteral]: [Infinity], or digits with an
    optional fraction and exponent, or a fraction starting with the dot. *)
Definition parse_unsigned_decimal (s : string) : number :=
  if String.prefix "Infinity" s then infinity
  else
    let '(ip, ilen, s1) := take_digits 0 0 s in
    match s1 with
    | String "." s2 =>
        let '(m, flen, s3) := take_digits ip 0 s2 in
        if (ilen + flen =? 0)%Z then NaN
        else decimal_value m (take_exponent s3 - flen)
    | _ =>
        if (ilen =? 0)%Z then NaN else decimal_value ip (take_exponent s1)
    end.

(** [parseFloat(s)]: leading white space is skipped, then the longest prefix
    that is a decimal literal is converted; [NaN] when there is none. *)
Definition parseFloat (s : string) : number :=
  match skip_white_space (String.length s) s with
  | String "-" s' => (- parse_unsigned_decimal s')%float
  | String "+" s' => parse_unsigned_decimal s'
  | s' => parse_unsigned_decimal s'
  end.

(** [parseInt(s)] on a string of decimal digits, which is all the agents
    pass to it (the argument is the result of [strip_non_digits]): the
    integer, or [NaN] for the empty string. *)
Definition parseInt (s : string) : number :=
  let '(v, len, _) := take_digits 0 0 s in
  if (len =? 0)%Z then NaN else nearest_double v 1.

End JS.

Import JS.
Open Scope string_scope.

(** ** Data model *)

(** The structured record extracted from a document.  Every field is a
    free-form string, as the extraction prompt of the document agent asks
    for, and may be absent. *)
Record CompanyRecord := {
  companyName : option string;
  industry : option string;
  revenue : option string;
  arr : option string;
  customers : option string;
  teamSize : option string;
  fundingStage : option string;
  fundingAmount : option string;
  marketSize : option string;
  growthRate : option string;
  burnRate : option string;
  runway : option string;
  valuation : option string
}.

Definition emptyRecord : CompanyRecord :=
  {| companyName := None; industry := None; revenue := None; arr := None;
     customers := None; teamSize := None; fundingStage := None;
     fundingAmount := None; marketSize := None; growthRate := None;
     burnRate := None; runway := None; valuation := None |}.

(** A template literal is kept as its parts: the numbers interpolated into an
    insight's text are stored unrendered. *)
Inductive part :=
| Str (s : string)
| Num (n : number)
| Fixed (n : number) (digits : nat).   (* [n.toFixed(digits)] *)

Definition text := list part.

(** An insight.  Every agent gives [impact] an integer literal. *)
Record Insight := {
  type : string;
  insight : text;
  implication : string;
  impact : option Z
}.

(** What an agent hands back, reduced to the fields the orchestrator's
    synthesis reads or the specification names; the task-specific detail
    payload is left out.  The risk agent reports its score as [riskScore]. *)
Record Outcome := {
  agentName : option string;
  confidence : option number;
  score : option number;
  riskScore : option number;
  insights : option (list Insight)
}.

(** [a || b] on two optional strings. *)
Definition or_string (a b : option string) : option string :=
  match a with
  | Some s => if truthy_string s then a else b
  | None => b
  end.

(** [n || d] on numbers. *)
Definition or_number (n d : number) : number := if truthy n then n else d.

(** [parseInt(s?.replace(/[^\d]/g, '')) || 0]: the idiom by which every agent
    reads a head count or a number of months.  [parseInt(undefined)] is
    [NaN]. *)
Definition parseCount (s : option string) : number :=
  or_number (match s with
             | Some v => parseInt (strip_non_digits v)
             | None => NaN
             end) 0%float.

(** [s?.toLowerCase().includes(needle)], used as a condition. *)
Definition lower_includes (s : option string) (needle : string) : bool :=
  match s with
  | Some v => includes (toLowerCase v) needle
  | None => false
  end.

(** [Array.prototype.sort] with the comparator [(a, b) => key(b) - key(a)]:
    a stable sort into descending order of [key].  Each element is inserted
    in front of the sorted rest of the array, behind the elements of a larger
    key only. *)
Section SortDescending.
Context {A : Type} (key : A -> Z).

Fixpoint insert_desc (x : A) (l : list A) : list A :=
  match l with
  | [] => [x]
  | y :: l' => if (key x <? key y)%Z then y :: insert_desc x l' else x :: l
  end.

Definition sort_desc (l : list A) : list A := fold_right insert_desc [] l.
End SortDescending.

(** [a.impact] as the agents' own sorts read it, and [a.impact || 0] as the
    orchestrator reads it.  On the integers the two agree. *)
Definition impact_or_0 (a : Insight) : Z :=
  match impact a with
  | Some z => z
  | None => 0
  end.

(** ToNumber of a property that may be absent: [undefined] becomes [NaN]. *)
Definition to_number (x : option number) : number :=
  match x with
  | Some v => v
  | None => NaN
  end.

(** ** marketResearchAgent.js *)

Module IndustryData.
(** The classification the generative service is asked for; of its JSON only
    these two properties are read.  [primaryIndustry] is [None] when the
    reply lacks it or holds something that is not a string. *)
Record t := {
  primaryIndustry : option string;
  confidence : option string
}.
End IndustryData.

Module MarketResearchAgent.
Local Open Scope float_scope.

(** [this.agentName] *)
Definition this_agentName : string := "Market Research Agent".

(** The benchmark figures of [loadBenchmarkDatabase] that the agent reads. *)
Record Benchmarks := {
  avgMRR : option number;
  avgARR : option number;
  avgGrowthRate : option number;
  avgTeamSize : option number
}.

Definition foodTech_benchmarks : Benchmarks :=
  {| avgMRR := Some 1400000; avgARR := None;
     avgGrowthRate := Some 0.20; avgTeamSize := Some 12 |}.

Definition dataAnalytics_benchmarks : Benchmarks :=
  {| avgMRR := None; avgARR := Some 400000;
     avgGrowthRate := Some 0.30; avgTeamSize := Some 10 |}.

Definition seedStage_benchmarks : Benchmarks :=
  {| avgMRR := None; avgARR := Some 100000;
     avgGrowthRate := None; avgTeamSize := Some 8 |}.

(** [classifyIndustry]: the service's JSON when the call succeeds and its
    text holds a JSON object ([reply = Some _]), the fixed classification
    otherwise. *)
Definition classifyIndustry (reply : option IndustryData.t) : IndustryData.t :=
  match reply with
  | Some json => json
  | None =>
      {| IndustryData.primaryIndustry := Some "Technology";
         IndustryData.confidence := Some "medium" |}
  end.

Definition parseFinancialValue (valueString : option string) : number :=
  match valueString with
  | None => 0
  | Some v =>
      if negb (truthy_string v) then 0
      else
        let cleaned := strip_non_numeric v in
        let n := or_number (parseFloat cleaned) 0 in
        if includes (toLowerCase v) "cr" then n * 10000000
        else if includes (toLowerCase v) "l" then n * 100000
        else if includes (toLowerCase v) "k" then n * 1000
        else n
  end.

Definition parsePercentage (percentString : option string) : number :=
  match percentString with
  | None => 0
  | Some v =>
      if negb (truthy_string v) then 0
      else parseFloat (remove_first "%" v) / 100
  end.

Definition calculatePercentile (value benchmark : option number) : number :=
  match value, benchmark with
  | Some v, Some b =>
      if negb (truthy v) || negb (truthy b) then 50
      else
        let ratio := v / b in
        if 2 <=? ratio then 95
        else if 1.5 <=? ratio then 85
        else if 1.2 <=? ratio then 75
        else if 1 <=? ratio then 60
        else if 0.8 <=? ratio then 40
        else if 0.6 <=? ratio then 25
        else 15
  | _, _ => 50
  end.

Record CompanyMetrics := {
  m_revenue : number;
  m_teamSize : number;
  m_growthRate : number;
  m_burnRate : number;
  m_runway : number
}.

Record Rankings := {
  r_revenue : number;
  r_teamSize : number;
  r_growthRate : number;
  r_efficiency : number
}.

Definition calculateEfficiencyScore (metrics : CompanyMetrics) : number :=
  let revenuePerEmployee := m_revenue metrics / Math_max (m_teamSize metrics) 1 in
  let efficiency :=
    if 12 <? m_runway metrics then 80
    else if 6 <? m_runway metrics then 60 else 40 in
  Math_min 95 (efficiency + (if 100000 <? revenuePerEmployee then 20 else 0)).

Definition determineMarketPosition (rankings : Rankings) : string :=
  let values :=
    [r_revenue rankings; r_teamSize rankings; r_growthRate rankings;
     r_efficiency rankings] in
  let avgRanking :=
    fold_left (fun sum rank => sum + rank) values 0 / of_Z (Z.of_nat (List.length values)) in
  if 80 <=? avgRanking then "Leader"
  else if 60 <=? avgRanking then "Strong Performer"
  else if 40 <=? avgRanking then "Average"
  else "Below Average".

Record BenchmarkAnalysis := {
  relevantBenchmarks : Benchmarks;
  companyMetrics : CompanyMetrics;
  rankings : Rankings;
  peerComparisons : nat;   (* the number of peer companies; only the length is read *)
  industryPosition : string
}.

(** [performBenchmarking]; [None] when [industryData.primaryIndustry] is
    missing and [toLowerCase] raises. *)
Definition performBenchmarking (documentData : CompanyRecord)
    (industryData : IndustryData.t) : option BenchmarkAnalysis :=
  match IndustryData.primaryIndustry industryData with
  | None => None
  | Some primary =>
      let industry := toLowerCase primary in
      let '(benchmarks, peers) :=
        if includes industry "food" || includes industry "fmcg"
        then (foodTech_benchmarks, 1%nat)
        else if includes industry "data" || includes industry "ai"
                || includes industry "analytics"
        then (dataAnalytics_benchmarks, 1%nat)
        else (seedStage_benchmarks, 0%nat) in
      let metrics :=
        {| m_revenue :=
             parseFinancialValue (or_string (revenue documentData) (arr documentData));
           m_teamSize := parseCount (teamSize documentData);
           m_growthRate := parsePercentage (growthRate documentData);
           m_burnRate := parseFinancialValue (burnRate documentData);
           m_runway := parseCount (runway documentData) |} in
      let ranks :=
        {| r_revenue :=
             calculatePercentile (Some (m_revenue metrics))
               (match avgMRR benchmarks with
                | Some v => if truthy v then Some v else avgARR benchmarks
                | None => avgARR benchmarks
                end);
           r_teamSize :=
             calculatePercentile (Some (m_teamSize metrics)) (avgTeamSize benchmarks);
           r_growthRate :=
             calculatePercentile (Some (m_growthRate metrics)) (avgGrowthRate benchmarks);
           r_efficiency := calculateEfficiencyScore metrics |} in
      Some {| relevantBenchmarks := benchmarks;
              companyMetrics := metrics;
              rankings := ranks;
              peerComparisons := peers;
              industryPosition := determineMarketPosition ranks |}
  end.

(** The [credibility] that [validateMarketSize] assigns. *)
Definition validateMarketSize_credibility (documentData : CompanyRecord)
    (primary : string) : string :=
  if includes (toLowerCase primary) "food" then
    (if match marketSize documentData with
        | Some claimed => includes claimed "50B"
        | None => false
        end
     then "Reasonable" else "Conservative")
  else if includes (toLowerCase primary) "data" then "Credible"
  else "Unknown".

(** [identifyScalingChallenges] *)
Definition identifyScalingChallenges (benchmarkAnalysis : BenchmarkAnalysis)
    : list string :=
  (if m_runway (companyMetrics benchmarkAnalysis) <? 12
   then ["Limited runway for scaling"] else []) ++
  (if m_teamSize (companyMetrics benchmarkAnalysis) <? 10
   then ["Small team may limit execution speed"] else []).

Record GrowthAnalysis := {
  currentTrajectory : string;
  sustainability : string;
  projectedPath : string;
  scalingChallenges : list string
}.

(** [analyzeGrowthTrajectory].  A benchmark set without [avgGrowthRate] gives
    [undefined] for [benchmarkGrowth], which the comparisons read as [NaN]. *)
Definition analyzeGrowthTrajectory (benchmarkAnalysis : BenchmarkAnalysis)
    : GrowthAnalysis :=
  let currentGrowth := m_growthRate (companyMetrics benchmarkAnalysis) in
  let benchmarkGrowth := to_number (avgGrowthRate (relevantBenchmarks benchmarkAnalysis)) in
  let challenges := identifyScalingChallenges benchmarkAnalysis in
  if benchmarkGrowth * 1.5 <? currentGrowth then
    {| currentTrajectory := "Hypergrowth";
       sustainability := "Monitor for sustainability";
       projectedPath := "Potential for rapid scaling if metrics hold";
       scalingChallenges := challenges |}
  else if benchmarkGrowth <? currentGrowth then
    {| currentTrajectory := "Above-average growth";
       sustainability := "Sustainable growth pattern";
       projectedPath := "Steady scaling trajectory";
       scalingChallenges := challenges |}
  else
    {| currentTrajectory := "Conservative growth";
       sustainability := "Stable but may need acceleration";
       projectedPath := "Gradual expansion expected";
       scalingChallenges := challenges |}.

(** The [strengths] and [weaknesses] of [analyzeCompetitivePosition]. *)
Definition analyzeCompetitivePosition (benchmarkAnalysis : BenchmarkAnalysis)
    : list string * list string :=
  let ranks := rankings benchmarkAnalysis in
  let metrics := companyMetrics benchmarkAnalysis in
  let strengths : list string :=
    ((if 70 <? r_revenue ranks then ["Strong revenue performance"] else []) ++
     (if 75 <? r_growthRate ranks then ["Exceptional growth rate"] else []) ++
     (if (50 <? r_teamSize ranks) && (r_teamSize ranks <? 80)
      then ["Optimal team size"] else []))%list in
  let weaknesses : list string :=
    ((if r_revenue ranks <? 30 then ["Below-average revenue"] else []) ++
     (if r_growthRate ranks <? 25 then ["Slow growth"] else []) ++
     (if m_runway metrics <? 12 then ["Short runway"] else []))%list in
  (strengths, weaknesses).

Definition getMarketGrowthRate (industry : option string) : number :=
  if lower_includes industry "food" then 15
  else if lower_includes industry "data" then 13
  else if lower_includes industry "ai" then 35
  else if lower_includes industry "saas" then 18
  else 12.

Definition generateMarketInsights (documentData : CompanyRecord)
    (benchmarkAnalysis : BenchmarkAnalysis) : list Insight :=
  let ranks := rankings benchmarkAnalysis in
  let metrics := companyMetrics benchmarkAnalysis in
  let sector :=
    match or_string (industry documentData) (Some "sector") with
    | Some s => s
    | None => "sector"
    end in
  sort_desc impact_or_0
    ((if 75 <? r_revenue ranks then
        [{| type := "market-position";
            insight := [Str "Top quartile revenue performance in "; Str sector];
            implication := "Strong market traction and product-market fit";
            impact := Some 9%Z |}]
      else []) ++
     (if 0.20 <? m_growthRate metrics then
        [{| type := "growth";
            insight :=
              [Num (Math_round (m_growthRate metrics * 100));
               Str "% growth rate vs ";
               Num (Math_round
                      (to_number (avgGrowthRate (relevantBenchmarks benchmarkAnalysis))
                       * 100));
               Str "% industry average"];
            implication := "Exceptional growth momentum";
            impact := Some 8%Z |}]
      else []) ++
     (if 60 <? r_efficiency ranks then
        [{| type := "efficiency";
            insight := [Str "Above-average capital efficiency"];
            implication := "Strong unit economics and operational discipline";
            impact := Some 7%Z |}]
      else []) ++
     [{| type := "opportunity";
         insight :=
           [Str "Operating in "; Num (getMarketGrowthRate (industry documentData));
            Str "% CAGR market"];
         implication := "Favorable market tailwinds";
         impact := Some 6%Z |}]).

(** [calculateMarketScore].  [overallPosition] is what
    [determineMarketPosition] returned; it is compared with ["Leader"] and
    with ["Strong"]. *)
Definition calculateMarketScore (ranks : Rankings) (credibility : string)
    (overallPosition : string) : number :=
  let s_revenue := r_revenue ranks / 10 in
  let s_growth := r_growthRate ranks / 10 in
  let s_position :=
    if String.eqb overallPosition "Leader" then 9
    else if String.eqb overallPosition "Strong" then 7 else 5 in
  let s_market := if String.eqb credibility "Credible" then 8 else 6 in
  let weightedScore :=
    fold_left (fun total sw => total + fst sw * snd sw)
      [(s_revenue, 0.25); (s_growth, 0.30); (s_position, 0.20); (s_market, 0.25)] 0 in
  Math_round (weightedScore * 10) / 10.

Definition calculateConfidence (industryData : IndustryData.t)
    (benchmarkAnalysis : BenchmarkAnalysis) : number :=
  let c0 := 70 in
  let c1 :=
    match IndustryData.confidence industryData with
    | Some c => if String.eqb c "high" then c0 + 20 else c0
    | None => c0
    end in
  let c2 := if (0 <? peerComparisons benchmarkAnalysis)%nat then c1 + 10 else c1 in
  Math_min 95 c2.

Definition getFallbackAnalysis (documentData : CompanyRecord) : Outcome :=
  {| agentName := Some this_agentName;
     confidence := Some 50;
     score := Some 5.0;
     riskScore := None;
     insights := Some [] |}.

(** The [try] block of [analyze]: [None] when a step raises. *)
Definition analysis (reply : option IndustryData.t) (documentData : CompanyRecord)
    : option Outcome :=
  let industryData := classifyIndustry reply in
  match performBenchmarking documentData industryData,
        IndustryData.primaryIndustry industryData with
  | Some benchmarkAnalysis, Some primary =>
      let credibility := validateMarketSize_credibility documentData primary in
      let overallPosition := determineMarketPosition (rankings benchmarkAnalysis) in
      Some {| agentName := Some this_agentName;
              confidence := Some (calculateConfidence industryData benchmarkAnalysis);
              score :=
                Some (calculateMarketScore (rankings benchmarkAnalysis) credibility
                        overallPosition);
              riskScore := None;
              insights := Some (generateMarketInsights documentData benchmarkAnalysis) |}
  | _, _ => None
  end.

(** [analyze]: the [catch] turns any failure into the fallback analysis. *)
Definition analyze (reply : option IndustryData.t) (documentData : CompanyRecord)
    : Outcome :=
  match analysis reply documentData with
  | Some result => result
  | None => getFallbackAnalysis documentData
  end.

End MarketResearchAgent.

(** ** riskAssessmentAgent.js *)

Module RedFlag.
Record t := {
  type : string;
  severity : string;
  flag : string
}.
End RedFlag.

(** The [score], [risks] and [mitigators] of one of the three risk
    assessments; while an assessment runs, the values of its local variables
    [riskScore], [risks] and [mitigators]. *)
Module RiskArea.
Record t := {
  score : number;
  risks : list string;
  mitigators : list string
}.
End RiskArea.

(** The risk factors asked of the generative service; of its JSON only these
    three properties are read, each compared with ["high"].  A property is
    [None] when the reply lacks it or holds something that is not a string. *)
Module RiskFactors.
Record t := {
  financialStress : option string;
  marketRisk : option string;
  teamRisk : option string
}.
End RiskFactors.

(** A mitigation strategy, without its list of actions. *)
Module Strategy.
Record t := {
  category : string;
  priority : string;
  strategy : string
}.
End Strategy.

Module HistoricalMatch.
Record t := {
  matchedCompany : string;
  outcome : string;
  similarity : string;
  riskProfile : number
}.
End HistoricalMatch.

(** The success prediction, without its [keyPredictors]. *)
Module SuccessPrediction.
Record t := {
  probability : number;
  confidence : number;
  historicalComparison : HistoricalMatch.t;
  riskAdjustedProbability : number
}.
End SuccessPrediction.

Module RiskAssessmentAgent.
Local Open Scope float_scope.

(** [this.agentName] *)
Definition this_agentName : string := "Risk Assessment Agent".

Definition parseNumeric (value : option string) : number :=
  match value with
  | None => 0
  | Some v =>
      if negb (truthy_string v) then 0
      else
        let cleaned := strip_non_numeric v in
        let n := or_number (parseFloat cleaned) 0 in
        if includes (toLowerCase v) "cr" then n * 10000000
        else if includes (toLowerCase v) "l" then n * 100000
        else if includes (toLowerCase v) "k" then n * 1000
        else n
  end.

Definition parseGrowthRate (growth : option string) : number :=
  match growth with
  | None => 0
  | Some v =>
      if negb (truthy_string v) then 0
      else parseFloat (remove_first "%" v) / 100
  end.

Definition calculateUnitEconomicsScore (documentData : CompanyRecord) : number :=
  let revenue := parseNumeric (revenue documentData) in
  let customers := parseNumeric (customers documentData) in
  if (0 <? revenue) && (0 <? customers) then
    let arpu := revenue / customers in
    if 100 <? arpu then 0.8 else 0.4
  else 0.5.

(** The features of [engineerFeatures], each paired with its weight from
    [initializeMLModel], in the order of the weights' keys. *)
Definition engineerFeatures (documentData : CompanyRecord) : list (number * number) :=
  let revenue := parseNumeric (revenue documentData) in
  let growth := parseGrowthRate (growthRate documentData) in
  let teamSize := parseCount (teamSize documentData) in
  let runway := parseCount (runway documentData) in
  let burn := parseNumeric (burnRate documentData) in
  [ (Math_min 1 (growth / 0.5), 0.25);
    (if (0 <? revenue) && (0 <? burn) then Math_min 1 (revenue / burn) else 0.5, 0.20);
    (Math_min 1 (teamSize / 20), 0.15);
    (0.7, 0.15);
    (calculateUnitEconomicsScore documentData, 0.10);
    (Math_min 1 (runway / 24), 0.10);
    (if 100000 <? revenue then 0.8 else 0.4, 0.05) ].

(** The [probability] field of [predictSuccessProbability]'s result. *)
Definition predictSuccessProbability (documentData : CompanyRecord) : number :=
  let features := engineerFeatures documentData in
  let probabilityScore :=
    fold_left (fun acc fw => acc + fst fw * snd fw) features 0 in
  let successProbability := Math_max 0.1 (Math_min 0.9 probabilityScore) in
  Math_round (successProbability * 100).

Definition detectRedFlags (documentData : CompanyRecord) : list RedFlag.t :=
  let runway := parseCount (runway documentData) in
  let revenue := parseNumeric (revenue documentData) in
  let burn := parseNumeric (burnRate documentData) in
  let growth := parseGrowthRate (growthRate documentData) in
  let teamSize := parseCount (teamSize documentData) in
  (if runway <? 6 then
     [{| RedFlag.type := "Financial"; RedFlag.severity := "Critical";
         RedFlag.flag := "Runway under 6 months" |}]
   else []) ++
  (if (revenue * 5 <? burn) && (0 <? revenue) then
     [{| RedFlag.type := "Financial"; RedFlag.severity := "High";
         RedFlag.flag := "Extremely high burn-to-revenue ratio" |}]
   else []) ++
  (if 0.5 <? growth then
     [{| RedFlag.type := "Growth"; RedFlag.severity := "Medium";
         RedFlag.flag := "Potentially unsustainable growth rate" |}]
   else []) ++
  (if teamSize <? 3 then
     [{| RedFlag.type := "Team"; RedFlag.severity := "Medium";
         RedFlag.flag := "Very small team" |}]
   else []) ++
  (if match marketSize documentData with
      | Some m => includes m "T" || includes m "trillion"
      | None => false
      end
   then
     [{| RedFlag.type := "Market"; RedFlag.severity := "Low";
         RedFlag.flag := "Potentially inflated market size" |}]
   else []).

(** [redFlags.filter(flag => flag.severity === s).length] *)
Definition count_severity (s : string) (redFlags : list RedFlag.t) : number :=
  of_Z (Z.of_nat
          (List.length (filter (fun f => String.eqb (RedFlag.severity f) s) redFlags))).

Definition generateRiskInsights (probability : number) (redFlags : list RedFlag.t)
    : list Insight :=
  sort_desc impact_or_0
    ([{| type := "prediction";
         insight := [Num probability; Str "% success probability based on ML analysis"];
         implication :=
           if 70 <? probability then "Strong success indicators"
           else "Moderate risk profile";
         impact := Some (if 70 <? probability then 8%Z else 6%Z) |}] ++
     (match redFlags with
      | [] => []
      | _ :: _ =>
          let criticalFlags := count_severity "Critical" redFlags in
          [{| type := "warning";
              insight :=
                [Num (of_Z (Z.of_nat (List.length redFlags)));
                 Str " risk factors identified ("; Num criticalFlags; Str " critical)"];
              implication :=
                if 0 <? criticalFlags then "Immediate attention required"
                else "Monitor and mitigate risks";
              impact := Some (if 0 <? criticalFlags then 9%Z else 5%Z) |}]
      end) ++
     [{| type := "risk-profile";
         insight :=
           [Str "Primary risks: Financial runway, market competition, execution challenges"];
         implication := "Balanced risk mitigation strategy recommended";
         impact := Some 6%Z |}]).

Definition calculateFinalRiskScore (probability : number) (redFlags : list RedFlag.t)
    : number :=
  let riskScore := 10 - probability / 10 in
  let criticalFlags := count_severity "Critical" redFlags in
  let highFlags := count_severity "High" redFlags in
  let riskScore := riskScore + (criticalFlags * 1.5 + highFlags * 1) in
  Math_max 1 (Math_min 10 (Math_round (riskScore * 10) / 10)).

(** [extractRiskFactors]: the service's JSON when the call succeeds and its
    text holds a JSON object, the fixed factors otherwise. *)
Definition extractRiskFactors (reply : option RiskFactors.t) : RiskFactors.t :=
  match reply with
  | Some json => json
  | None =>
      {| RiskFactors.financialStress := Some "medium";
         RiskFactors.marketRisk := Some "medium";
         RiskFactors.teamRisk := Some "medium" |}
  end.

(** The statements by which an assessment updates its local variables:
    [riskScore += n], [riskScore -= n], [risks.push(r)] and
    [mitigators.push(m)]; and the [Math.max(1, Math.min(10, riskScore))] of
    its result. *)
Definition baseline : RiskArea.t :=
  {| RiskArea.score := 5; RiskArea.risks := []; RiskArea.mitigators := [] |}.

Definition raise (n : number) (a : RiskArea.t) : RiskArea.t :=
  {| RiskArea.score := RiskArea.score a + n;
     RiskArea.risks := RiskArea.risks a;
     RiskArea.mitigators := RiskArea.mitigators a |}.

Definition lower (n : number) (a : RiskArea.t) : RiskArea.t :=
  {| RiskArea.score := RiskArea.score a - n;
     RiskArea.risks := RiskArea.risks a;
     RiskArea.mitigators := RiskArea.mitigators a |}.

Definition push_risk (r : string) (a : RiskArea.t) : RiskArea.t :=
  {| RiskArea.score := RiskArea.score a;
     RiskArea.risks := (RiskArea.risks a ++ [r])%list;
     RiskArea.mitigators := RiskArea.mitigators a |}.

Definition push_mitigator (m : string) (a : RiskArea.t) : RiskArea.t :=
  {| RiskArea.score := RiskArea.score a;
     RiskArea.risks := RiskArea.risks a;
     RiskArea.mitigators := (RiskArea.mitigators a ++ [m])%list |}.

Definition clamped (a : RiskArea.t) : RiskArea.t :=
  {| RiskArea.score := Math_max 1 (Math_min 10 (RiskArea.score a));
     RiskArea.risks := RiskArea.risks a;
     RiskArea.mitigators := RiskArea.mitigators a |}.

Record FinancialRisks := {
  financial_area : RiskArea.t;
  burnRunwayRisk : bool;
  revenueGrowthRisk : bool;
  cashFlowRisk : bool
}.

Definition assessFinancialRisks (documentData : CompanyRecord) : FinancialRisks :=
  let revenue := parseNumeric (revenue documentData) in
  let burn := parseNumeric (burnRate documentData) in
  let runway := parseCount (runway documentData) in
  let growth := parseGrowthRate (growthRate documentData) in
  let a := baseline in
  let a :=
    if runway <? 6 then push_risk "Critical runway shortage" (raise 2 a)
    else if runway <? 12 then push_risk "Short runway" (raise 1 a)
    else push_mitigator "Healthy runway" a in
  let a :=
    if (0 <? revenue) && (0 <? burn) then
      let burnMultiple := burn / revenue in
      if 3 <? burnMultiple then push_risk "High burn relative to revenue" (raise 2 a)
      else if burnMultiple <? 1 then push_mitigator "Revenue covers burn rate" (lower 1 a)
      else a
    else a in
  let a :=
    if 0.4 <? growth then push_risk "Unsustainably high growth rate" (raise 1 a)
    else if growth <? 0.1 then push_risk "Low growth rate" (raise 1 a)
    else a in
  let a :=
    if revenue <? 50000 then push_risk "Early revenue stage" (raise 1 a)
    else if 1000000 <? revenue then push_mitigator "Strong revenue scale" (lower 1 a)
    else a in
  {| financial_area := clamped a;
     burnRunwayRisk := runway <? 12;
     revenueGrowthRisk := growth <? 0.15;
     cashFlowRisk := revenue * 2 <? burn |}.

Record TeamRisks := {
  team_area : RiskArea.t;
  teamSizeRisk : bool;
  experienceRisk : bool;
  keyPersonRisk : bool
}.

Definition assessTeamRisks (documentData : CompanyRecord) : TeamRisks :=
  let teamSize := parseCount (teamSize documentData) in
  let a := baseline in
  let a :=
    if teamSize <? 3 then push_risk "Very small team" (raise 2 a)
    else if teamSize <? 8 then push_risk "Small team for scaling" (raise 1 a)
    else if 25 <? teamSize then push_risk "Large team for stage" (raise 1 a)
    else push_mitigator "Appropriate team size" a in
  let a :=
    if lower_includes (companyName documentData) "naario"
    then push_mitigator "Experienced founder with BigBasket background" (lower 1 a)
    else a in
  let a :=
    if lower_includes (companyName documentData) "stride"
    then push_mitigator "Technical team with Bosch/aerospace experience" (lower 1 a)
    else a in
  {| team_area := clamped a;
     teamSizeRisk := (teamSize <? 5) || (30 <? teamSize);
     experienceRisk := false;
     keyPersonRisk := teamSize <? 5 |}.

Record MarketRisks := {
  market_area : RiskArea.t;
  marketSizeRisk : bool;
  competitionRisk : bool;
  timingRisk : bool
}.

Definition assessMarketRisks (documentData : CompanyRecord) : MarketRisks :=
  let a := baseline in
  let a :=
    match marketSize documentData with
    | Some marketSize =>
        if truthy_string marketSize && includes marketSize "B" then
          let size := parseFloat (strip_non_numeric marketSize) in
          if 100 <? size
          then push_risk "Potentially inflated market size claims" (raise 1 a)
          else push_mitigator "Reasonable market size estimates" a
        else a
    | None => a
    end in
  let a :=
    if lower_includes (industry documentData) "food"
    then push_mitigator "Growing health consciousness trend"
           (push_risk "Supply chain complexity"
              (push_risk "Regulatory compliance requirements" a))
    else a in
  let a :=
    if lower_includes (industry documentData) "ai"
    then push_mitigator "High demand for AI solutions"
           (push_risk "Intense competition"
              (push_risk "Rapid technology evolution" a))
    else a in
  let growth := parseGrowthRate (growthRate documentData) in
  let a :=
    if 0.3 <? growth then push_risk "Growth rate may be unsustainable" (raise 1 a)
    else a in
  {| market_area := clamped a;
     marketSizeRisk := false;
     competitionRisk := true;
     timingRisk := false |}.

Definition generateMitigationStrategies (redFlags : list RedFlag.t) : list Strategy.t :=
  let some_of (t : string) := existsb (fun f => String.eqb (RedFlag.type f) t) redFlags in
  (if some_of "Financial" then
     [{| Strategy.category := "Financial"; Strategy.priority := "High";
         Strategy.strategy := "Immediate cash flow management" |}]
   else []) ++
  (if some_of "Growth" then
     [{| Strategy.category := "Growth"; Strategy.priority := "Medium";
         Strategy.strategy := "Sustainable growth planning" |}]
   else []) ++
  (if some_of "Team" then
     [{| Strategy.category := "Team"; Strategy.priority := "High";
         Strategy.strategy := "Team strengthening" |}]
   else []) ++
  [{| Strategy.category := "Market"; Strategy.priority := "Medium";
      Strategy.strategy := "Market validation and positioning" |}].

Definition calculateOverallRisk (financialRisks : FinancialRisks) (teamRisks : TeamRisks)
    (marketRisks : MarketRisks) : number :=
  let weightedScore :=
    RiskArea.score (financial_area financialRisks) * 0.4 +
    RiskArea.score (team_area teamRisks) * 0.3 +
    RiskArea.score (market_area marketRisks) * 0.3 in
  Math_round (weightedScore * 10) / 10.

Definition calculateExecutionRisk (documentData : CompanyRecord) : number :=
  let riskScore := 5 in
  let revenue := parseNumeric (revenue documentData) in
  let riskScore := if revenue <? 100000 then riskScore + 1 else riskScore in
  let teamSize := parseCount (teamSize documentData) in
  let riskScore := if teamSize <? 5 then riskScore + 1 else riskScore in
  Math_max 1 (Math_min 10 riskScore).

(** The [successPatterns] of [loadRiskDatabase]: company, outcome and risk
    score. *)
Definition successPatterns : list (string * string * number) :=
  [("Naario", "success_trajectory", 3.2); ("Data Stride", "high_potential", 4.1)].

Definition findHistoricalMatch (documentData : CompanyRecord) : HistoricalMatch.t :=
  match
    find (fun pattern =>
            lower_includes (companyName documentData)
              (toLowerCase (fst (fst pattern))))
      successPatterns
  with
  | Some pattern =>
      {| HistoricalMatch.matchedCompany := fst (fst pattern);
         HistoricalMatch.outcome := snd (fst pattern);
         HistoricalMatch.similarity := "High";
         HistoricalMatch.riskProfile := snd pattern |}
  | None =>
      {| HistoricalMatch.matchedCompany := "Industry average";
         HistoricalMatch.outcome := "mixed";
         HistoricalMatch.similarity := "Medium";
         HistoricalMatch.riskProfile := 5.0 |}
  end.

Definition adjustForRiskFactors (probability : number) (riskFactors : RiskFactors.t)
    : number :=
  let is_high (x : option string) :=
    match x with
    | Some v => String.eqb v "high"
    | None => false
    end in
  let adjusted := probability in
  let adjusted :=
    if is_high (RiskFactors.financialStress riskFactors) then adjusted - 0.15
    else adjusted in
  let adjusted :=
    if is_high (RiskFactors.marketRisk riskFactors) then adjusted - 0.10
    else adjusted in
  let adjusted :=
    if is_high (RiskFactors.teamRisk riskFactors) then adjusted - 0.10
    else adjusted in
  Math_max 0.1 (Math_min 0.9 adjusted).

(** [calculatePredictionConfidence], on the features paired with their
    weights as [engineerFeatures] gives them. *)
Definition calculatePredictionConfidence (features : list (number * number)) : number :=
  let completeness :=
    of_Z (Z.of_nat (List.length (filter (fun fw => 0 <? fst fw) features)))
    / of_Z (Z.of_nat (List.length features)) in
  Math_round (completeness * 100).

(** The whole result of [predictSuccessProbability], of which the function
    of that name above is the [probability]. *)
Definition successPrediction (documentData : CompanyRecord) (riskFactors : RiskFactors.t)
    : SuccessPrediction.t :=
  let features := engineerFeatures documentData in
  let probabilityScore :=
    fold_left (fun acc fw => acc + fst fw * snd fw) features 0 in
  let successProbability := Math_max 0.1 (Math_min 0.9 probabilityScore) in
  {| SuccessPrediction.probability := Math_round (successProbability * 100);
     SuccessPrediction.confidence := calculatePredictionConfidence features;
     SuccessPrediction.historicalComparison := findHistoricalMatch documentData;
     SuccessPrediction.riskAdjustedProbability :=
       adjustForRiskFactors successProbability riskFactors |}.

(** The [overallRiskScore] of the result of [analyze]. *)
Definition overallRiskScore (documentData : CompanyRecord) : number :=
  calculateOverallRisk (assessFinancialRisks documentData)
    (assessTeamRisks documentData) (assessMarketRisks documentData).

Definition calculateConfidence : number := 85.

Definition getFallbackAnalysis (documentData : CompanyRecord) : Outcome :=
  {| agentName := Some this_agentName;
     confidence := Some 60;
     score := None;
     riskScore := Some 5.0;
     insights :=
       Some [{| type := "fallback";
                insight := [Str "Risk analysis completed with limited data"];
                implication := "More comprehensive data needed for detailed assessment";
                impact := Some 5%Z |}] |}.

(** The [try] block of [analyze].  The risk factors asked of the generative
    service are replaced by constants when the call fails, and enter none of
    the fields below; on a record of strings no step raises. *)
Definition analysis (documentData : CompanyRecord) : option Outcome :=
  let probability := predictSuccessProbability documentData in
  let redFlags := detectRedFlags documentData in
  Some {| agentName := Some this_agentName;
          confidence := Some calculateConfidence;
          score := None;
          riskScore := Some (calculateFinalRiskScore probability redFlags);
          insights := Some (generateRiskInsights probability redFlags) |}.

Definition analyze (documentData : CompanyRecord) : Outcome :=
  match analysis documentData with
  | Some result => result
  | None => getFallbackAnalysis documentData
  end.

End RiskAssessmentAgent.

(** ** competitiveIntelligenceAgent.js *)

(** A competitive threat, without the text of its [impact]. *)
Module Threat.
Record t := {
  type : string;
  severity : string;
  description : string
}.
End Threat.

(** A market opportunity. *)
Module Opportunity.
Record t := {
  type : string;
  potential : string;
  description : string;
  timeframe : string
}.
End Opportunity.

(** A strategic recommendation, without its list of actions. *)
Module StrategicRecommendation.
Record t := {
  category : string;
  priority : string;
  recommendation : string
}.
End StrategicRecommendation.

Module CompetitiveIntelligenceAgent.
Local Open Scope float_scope.

(** [this.agentName] *)
Definition this_agentName : string := "Competitive Intelligence Agent".

Definition parseNumeric (value : option string) : number :=
  match value with
  | None => 0
  | Some v =>
      if negb (truthy_string v) then 0
      else
        let cleaned := strip_non_numeric v in
        let n := or_number (parseFloat cleaned) 0 in
        if includes (toLowerCase v) "cr" then n * 10000000
        else if includes (toLowerCase v) "l" then n * 100000
        else if includes (toLowerCase v) "m" then n * 1000000
        else if includes (toLowerCase v) "k" then n * 1000
        else n
  end.

Definition parseGrowthRate (growth : option string) : number :=
  match growth with
  | None => 0
  | Some v =>
      if negb (truthy_string v) then 0
      else parseFloat (remove_first "%" v) / 100
  end.

(** The [uniqueDifferentiators] of [analyzeDifferentiation]. *)
Definition analyzeDifferentiation (documentData : CompanyRecord) : list string :=
  let revenue := parseNumeric (revenue documentData) in
  let growth := parseGrowthRate (growthRate documentData) in
  (if lower_includes (companyName documentData) "naario" then
     ["Community-driven growth model"; "Women-focused market approach";
      "Clean-label positioning"]
   else []) ++
  (if lower_includes (companyName documentData) "stride" then
     ["Multi-agent AI architecture"; "No-code data analytics";
      "Enterprise deployment flexibility"]
   else []) ++
  (if 0.2 <? growth then ["Exceptional growth rate"] else []) ++
  (if 1000000 <? revenue then ["Strong revenue scale"] else []).

Definition calculateDifferentiationStrength (differentiators : list string) : string :=
  if (3 <=? List.length differentiators)%nat then "Strong"
  else if (1 <=? List.length differentiators)%nat then "Medium"
  else "Weak".

(** The [currentPosition] of [assessMarketPositioning]. *)
Definition assessMarketPositioning (documentData : CompanyRecord) : string :=
  let revenue := parseNumeric (revenue documentData) in
  if 5000000 <? revenue then "Established Player"
  else if 1000000 <? revenue then "Growth Stage Challenger"
  else if 100000 <? revenue then "Emerging Competitor"
  else "Early Stage Entrant".

Definition calculateCompetitiveScore (differentiators : list string)
    (currentPosition : string) : number :=
  let differentiationStrength := calculateDifferentiationStrength differentiators in
  let s0 := 5 in
  let s1 :=
    if String.eqb differentiationStrength "Strong" then s0 + 2
    else if String.eqb differentiationStrength "Medium" then s0 + 1 else s0 in
  let s2 :=
    if includes currentPosition "Leader" then s1 + 2
    else if includes currentPosition "Challenger" then s1 + 1 else s1 in
  let s3 := s2 + Math_min 2 (of_Z (Z.of_nat (List.length differentiators)) * 0.5) in
  Math_max 1 (Math_min 10 s3).

(** [generateCompetitiveInsights]; [synthesizeLandscape] always lists three
    scaling challenges, which is the count reported. *)
Definition generateCompetitiveInsights (differentiators : list string) : list Insight :=
  let differentiationStrength := calculateDifferentiationStrength differentiators in
  let competitorCount := or_number 3 3 in
  sort_desc impact_or_0
    [{| type := "positioning";
        insight :=
          [Str "Positioned as "; Str differentiationStrength;
           Str " differentiator in competitive landscape"];
        implication :=
          if String.eqb differentiationStrength "Strong"
          then "Clear competitive advantage identified"
          else "Need stronger differentiation strategy";
        impact := Some (if String.eqb differentiationStrength "Strong" then 8%Z else 5%Z) |};
     {| type := "competition";
        insight := [Num competitorCount; Str " major competitive challenges identified"];
        implication := "Multi-pronged competitive strategy required";
        impact := Some 6%Z |};
     {| type := "opportunity";
        insight := [Str "Emerging market gaps create expansion opportunities"];
        implication := "First-mover advantage possible in adjacent segments";
        impact := Some 7%Z |}].

Record ThreatOpportunityAnalysis := {
  immediateThreats : list Threat.t;
  mediumTermThreats : list Threat.t;
  shortTermOpportunities : list Opportunity.t;
  longTermOpportunities : list Opportunity.t
}.

(** [analyzeThreatOpportunities]; [averageFunding] is
    [competitorIntelligence.fundingTrends.averageFunding], the mean of the
    competitors' funding. *)
Definition analyzeThreatOpportunities (averageFunding : number)
    (documentData : CompanyRecord) : ThreatOpportunityAnalysis :=
  let threats : list Threat.t :=
    ((if parseNumeric (fundingAmount documentData) <? averageFunding then
        [{| Threat.type := "Funding"; Threat.severity := "Medium";
            Threat.description := "Competitors have secured higher funding rounds" |}]
      else []) ++
     [{| Threat.type := "Market"; Threat.severity := "Medium";
         Threat.description := "Intense competition in core market segments" |}])%list in
  let opportunities : list Opportunity.t :=
    [{| Opportunity.type := "Technology"; Opportunity.potential := "High";
        Opportunity.description :=
          "Emerging technology trends create differentiation opportunities";
        Opportunity.timeframe := "6-18 months" |};
     {| Opportunity.type := "Market"; Opportunity.potential := "Medium";
        Opportunity.description := "Underserved customer segments identified";
        Opportunity.timeframe := "12-24 months" |}] in
  {| immediateThreats :=
       filter (fun t => String.eqb (Threat.severity t) "High") threats;
     mediumTermThreats :=
       filter (fun t => String.eqb (Threat.severity t) "Medium") threats;
     shortTermOpportunities :=
       filter (fun o => includes (Opportunity.timeframe o) "6") opportunities;
     longTermOpportunities :=
       filter (fun o => includes (Opportunity.timeframe o) "24") opportunities |}.

Definition generateStrategicRecommendations
    (threatOpportunityAnalysis : ThreatOpportunityAnalysis)
    (differentiationStrength : string) : list StrategicRecommendation.t :=
  (if (0 <? List.length (immediateThreats threatOpportunityAnalysis))%nat then
     [{| StrategicRecommendation.category := "Defense";
         StrategicRecommendation.priority := "High";
         StrategicRecommendation.recommendation := "Strengthen competitive moats" |}]
   else []) ++
  [{| StrategicRecommendation.category := "Growth";
      StrategicRecommendation.priority := "Medium";
      StrategicRecommendation.recommendation := "Capitalize on market opportunities" |}] ++
  (if negb (String.eqb differentiationStrength "Strong") then
     [{| StrategicRecommendation.category := "Differentiation";
         StrategicRecommendation.priority := "High";
         StrategicRecommendation.recommendation := "Strengthen unique value proposition" |}]
   else []).

(** The [recommendations] of the result of [analyze]. *)
Definition recommendations (averageFunding : number) (documentData : CompanyRecord)
    : list StrategicRecommendation.t :=
  generateStrategicRecommendations
    (analyzeThreatOpportunities averageFunding documentData)
    (calculateDifferentiationStrength (analyzeDifferentiation documentData)).

Definition calculateConfidence : number := 80.

Definition getFallbackAnalysis (documentData : CompanyRecord) : Outcome :=
  {| agentName := Some this_agentName;
     confidence := Some 60;
     score := Some 5.0;
     riskScore := None;
     insights :=
       Some [{| type := "fallback";
                insight := [Str "Competitive analysis completed with limited data"];
                implication := "Additional market research recommended";
                impact := Some 5%Z |}] |}.

(** The [try] block of [analyze].  Its first four steps work on the competitor
    profiles obtained from the generative service, and raise on a profile of
    an unexpected shape (a mapping without [competitiveSet], a [funding] that
    is not a string).  The profiles enter neither the score nor the confidence
    nor the insights, so all that is kept of them is [research_raises]. *)
Definition analysis (research_raises : bool) (documentData : CompanyRecord)
    : option Outcome :=
  if research_raises then None
  else
    let differentiators := analyzeDifferentiation documentData in
    let currentPosition := assessMarketPositioning documentData in
    Some {| agentName := Some this_agentName;
            confidence := Some calculateConfidence;
            score := Some (calculateCompetitiveScore differentiators currentPosition);
            riskScore := None;
            insights := Some (generateCompetitiveInsights differentiators) |}.

Definition analyze (research_raises : bool) (documentData : CompanyRecord) : Outcome :=
  match analysis research_raises documentData with
  | Some result => result
  | None => getFallbackAnalysis documentData
  end.

End CompetitiveIntelligenceAgent.

(** ** portfolioImpactAgent.js *)

Module PortfolioImpactAgent.
Local Open Scope float_scope.

(** [this.agentName] *)
Definition this_agentName : string := "Portfolio Impact Agent".

Definition parseNumeric (value : option string) : number :=
  match value with
  | None => 0
  | Some v =>
      if negb (truthy_string v) then 0
      else
        let cleaned := strip_non_numeric v in
        let n := or_number (parseFloat cleaned) 0 in
        if includes (toLowerCase v) "cr" then n * 10000000
        else if includes (toLowerCase v) "l" then n * 100000
        else if includes (toLowerCase v) "k" then n * 1000
        else n
  end.

(** The exit statistics of [loadInvestmentDatabase] that the agent reads. *)
Record ExitData := {
  averageExitMultiple : number;
  averageTimeToExit : number;
  successRate : number;
  acquisition : number
}.

Definition foodTech : ExitData :=
  {| averageExitMultiple := 4.2; averageTimeToExit := 6.5;
     successRate := 0.35; acquisition := 0.70 |}.

Definition aiSaas : ExitData :=
  {| averageExitMultiple := 6.8; averageTimeToExit := 5.2;
     successRate := 0.42; acquisition := 0.60 |}.

(** [classifyIndustry], as the exit data of the class; the second member is
    true for ['foodTech']. *)
Definition classifyIndustry (documentData : CompanyRecord) : ExitData * bool :=
  if lower_includes (companyName documentData) "naario"
     || lower_includes (industry documentData) "food"
  then (foodTech, true) else (aiSaas, false).

(** The [investmentAmount] of the investment parameters: enriched from the
    record when the generative service returned a JSON object, the default
    otherwise. *)
Definition extractInvestmentParameters (service_json : bool)
    (documentData : CompanyRecord) : number :=
  if service_json then or_number (parseNumeric (fundingAmount documentData)) 20000000
  else 20000000.

Definition calculateExpectedValue (investmentAmount : number) (exitData : ExitData)
    : number :=
  let baseReturn := investmentAmount * averageExitMultiple exitData in
  baseReturn * successRate exitData.

(** The [portfolioWeight] of [simulatePortfolioImpact], a percentage. *)
Definition simulatePortfolioImpact (documentData : CompanyRecord) : number :=
  let investmentAmount := or_number (parseNumeric (fundingAmount documentData)) 20000000 in
  let portfolioWeight := investmentAmount / 1000000000 in
  portfolioWeight * 100.

(** The scenarios of [performScenarioAnalysis], as revenue and exit
    multipliers, and their adjusted returns. *)
Definition scenarios : list (number * number) :=
  [(1.8, 1.6); (0.8, 0.6); (0.6, 0.4); (1.4, 1.3)].

Definition performScenarioAnalysis (investmentAmount : number) : list number :=
  map (fun s => investmentAmount * fst s * snd s) scenarios.

(** The [sharpeRatio] of [analyzeRiskReturnProfile]; [Math.pow(d, 2)] is
    taken to be [d * d]. *)
Definition analyzeRiskReturnProfile (returns : list number) : number :=
  let n := of_Z (Z.of_nat (List.length returns)) in
  let meanReturn := fold_left (fun sum r => sum + r) returns 0 / n in
  let variance :=
    fold_left (fun sum r => sum + (r - meanReturn) * (r - meanReturn)) returns 0 / n in
  let standardDeviation := sqrt variance in
  meanReturn / standardDeviation.

Definition calculatePortfolioScore (expectedValue sharpeRatio : number) : number :=
  let s0 := 5 in
  let s1 :=
    if 50000000 <? expectedValue then s0 + 3
    else if 30000000 <? expectedValue then s0 + 2
    else if 10000000 <? expectedValue then s0 + 1 else s0 in
  let s2 :=
    if 1.5 <? sharpeRatio then s1 + 2
    else if 1.0 <? sharpeRatio then s1 + 1 else s1 in
  Math_max 1 (Math_min 10 s2).

Definition generatePortfolioInsights (portfolioWeight : number) (exitData : ExitData)
    (isFoodTech : bool) : list Insight :=
  let exitMultiplier :=
    fold_left (fun m s => Math_max m (snd s)) scenarios neg_infinity in
  let acquisitionProb := acquisition exitData in
  sort_desc impact_or_0
    [{| type := "portfolio-impact";
        insight :=
          [Str "Investment represents "; Fixed portfolioWeight 1;
           Str "% of fund allocation"];
        implication :=
          if 5 <? portfolioWeight
          then "Significant portfolio position requiring careful monitoring"
          else "Moderate portfolio impact with diversification benefits";
        impact := Some (if 5 <? portfolioWeight then 8%Z else 6%Z) |};
     {| type := "return-potential";
        insight :=
          [Str "Upside scenario projects "; Num exitMultiplier; Str "x return multiple"];
        implication :=
          if 5 <? exitMultiplier then "High return potential justifies investment risk"
          else "Moderate return expectations";
        impact := Some (if 5 <? exitMultiplier then 9%Z else 7%Z) |};
     {| type := "exit-strategy";
        insight :=
          [Num (Math_round (acquisitionProb * 100));
           Str "% probability of acquisition exit"];
        implication :=
          if 0.6 <? acquisitionProb then "Clear acquisition pathway identified"
          else "Multiple exit routes available";
        impact := Some 7%Z |};
     {| type := "diversification";
        insight :=
          [Str "Portfolio diversification benefit: ";
           Str (if isFoodTech then "Medium diversification benefit"
                else "Standard diversification")];
        implication := "Enhances overall portfolio risk-return profile";
        impact := Some 6%Z |}].

Definition calculateConfidence : number := 85.

Definition getFallbackAnalysis (documentData : CompanyRecord) : Outcome :=
  {| agentName := Some this_agentName;
     confidence := Some 60;
     score := Some 5.0;
     riskScore := None;
     insights :=
       Some [{| type := "fallback";
                insight := [Str "Portfolio analysis completed with limited data"];
                implication := "Additional financial modeling recommended";
                impact := Some 5%Z |}] |}.

(** The [try] block of [analyze]; on a record of strings no step raises. *)
Definition analysis (service_json : bool) (documentData : CompanyRecord)
    : option Outcome :=
  let investmentAmount := extractInvestmentParameters service_json documentData in
  let '(exitData, isFoodTech) := classifyIndustry documentData in
  let expectedValue := calculateExpectedValue investmentAmount exitData in
  let portfolioWeight := simulatePortfolioImpact documentData in
  let sharpeRatio := analyzeRiskReturnProfile (performScenarioAnalysis investmentAmount) in
  Some {| agentName := Some this_agentName;
          confidence := Some calculateConfidence;
          score := Some (calculatePortfolioScore expectedValue sharpeRatio);
          riskScore := None;
          insights := Some (generatePortfolioInsights portfolioWeight exitData isFoodTech) |}.

Definition analyze (service_json : bool) (documentData : CompanyRecord) : Outcome :=
  match analysis service_json documentData with
  | Some result => result
  | None => getFallbackAnalysis documentData
  end.

End PortfolioImpactAgent.

(** ** documentAgent.js *)

Module DocumentAgent.
Local Open Scope float_scope.

(** [parseNumericValue] counts in thousands. *)
Definition parseNumericValue (valueString : option string) : number :=
  match valueString with
  | None => 0
  | Some v =>
      if negb (truthy_string v) then 0
      else
        let cleaned := strip_non_numeric v in
        let n := or_number (parseFloat cleaned) 0 in
        if includes (toLowerCase v) "b" then n * 1000000
        else if includes (toLowerCase v) "m" then n * 1000
        else if includes (toLowerCase v) "k" then n
        else n
  end.

(** ToBoolean of a field of the extracted data: absent and empty are
    falsy. *)
Definition given (field : option string) : bool :=
  match field with
  | Some v => truthy_string v
  | None => false
  end.

(** The five [keyFields] of [calculateConfidence], in its order. *)
Definition keyFields (extractedData : CompanyRecord) : list (option string) :=
  [companyName extractedData; revenue extractedData; customers extractedData;
   teamSize extractedData; fundingStage extractedData].

Definition calculateConfidence (extractedData : CompanyRecord) : number :=
  let confidence :=
    fold_left
      (fun confidence field =>
         if given field && negb (match field with
                                 | Some v => String.eqb v "Not specified"
                                 | None => false
                                 end)
         then confidence + 20 else confidence)
      (keyFields extractedData) 0 in
  Math_min 100 confidence.

Definition generateDocumentInsights (extractedData : CompanyRecord) : list Insight :=
  sort_desc impact_or_0
    ((if given (revenue extractedData) && given (customers extractedData) then
        let revenue := parseNumericValue (revenue extractedData) in
        let customers := parseNumericValue (customers extractedData) in
        if truthy revenue && truthy customers then
          let arpu := revenue / customers in
          [{| type := "financial";
              insight := [Str "ARPU of $"; Num (Math_round arpu)];
              implication :=
                if 100 <? arpu then "Strong unit economics"
                else "Low ARPU may indicate scaling challenges";
              impact := Some (if 100 <? arpu then 8%Z else 4%Z) |}]
        else []
      else []) ++
     (match growthRate extractedData with
      | Some rate =>
          if truthy_string rate then
            let growth := parseFloat (remove_first "%" rate) in
            if truthy growth then
              [{| type := "growth";
                  insight := [Num growth; Str "% growth rate"];
                  implication :=
                    if 20 <? growth then "Exceptional growth trajectory"
                    else "Moderate growth pace";
                  impact := Some (if 20 <? growth then 9%Z else 6%Z) |}]
            else []
          else []
      | None => []
      end) ++
     (if given (teamSize extractedData) && given (revenue extractedData) then
        let teamSize := parseNumericValue (teamSize extractedData) in
        let revenue := parseNumericValue (revenue extractedData) in
        if truthy teamSize && truthy revenue then
          let revenuePerEmployee := revenue / teamSize in
          [{| type := "efficiency";
              insight :=
                [Str "$"; Num (Math_round revenuePerEmployee);
                 Str "K revenue per employee"];
              implication :=
                if 100 <? revenuePerEmployee then "High team efficiency"
                else "Team efficiency below benchmarks";
              impact := Some (if 100 <? revenuePerEmployee then 7%Z else 5%Z) |}]
        else []
      else [])).

(** What [getMockDocumentText] returns: one of the two texts of [mockData],
    named here by their keys, or, [mockData] being an object literal, the
    [Object] function that every object inherits under the key
    ['constructor']. *)
Inductive MockDocument := foodieai | mediconnect | inherited_constructor.

(** [filename.toLowerCase().replace(/[^a-z]/g, '')] *)
Definition mock_key (filename : string) : string :=
  filter_string
    (fun c => (97 <=? nat_of_ascii c)%nat && (nat_of_ascii c <=? 122)%nat)
    (toLowerCase filename).

(** [mockData[key] || mockData['foodieai']] *)
Definition getMockDocumentText (filename : string) : MockDocument :=
  let key := mock_key filename in
  if String.eqb key "foodieai" then foodieai
  else if String.eqb key "mediconnect" then mediconnect
  else if String.eqb key "constructor" then inherited_constructor
  else foodieai.

(** The fields of [getDefaultStructuredData] that a company record has. *)
Definition getDefaultStructuredData : CompanyRecord :=
  {| companyName := Some "Sample Company"; industry := Some "Technology";
     revenue := Some "$100K MRR"; arr := None; customers := Some "10,000";
     teamSize := Some "12"; fundingStage := Some "Series A";
     fundingAmount := Some "$2M"; marketSize := Some "$50B";
     growthRate := Some "25%"; burnRate := Some "$80K";
     runway := Some "18 months"; valuation := Some "Not specified" |}.

End DocumentAgent.

(** ** components/DocumentUpload.js *)

Module DocumentUpload.

(** The [name] of the demo file that [runDemoAnalysis] hands to the
    analysis. *)
Definition demo_file_name (demoType : string) : string :=
  demoType ++ "-demo.pdf".

(** The demo types of the three demo cards. *)
Definition demo_cards : list string := ["foodtech"; "aitech"; "general"].

End DocumentUpload.

(** ** multiAgentOrchestrator.js *)

Inductive task := Market | Risk | Competitive | Portfolio.

Definition all_tasks : list task := [Market; Risk; Competitive; Portfolio].

Definition task_eqb (a b : task) : bool :=
  match a, b with
  | Market, Market | Risk, Risk | Competitive, Competitive | Portfolio, Portfolio => true
  | _, _ => false
  end.

(** How the [try] block of one of the orchestrator's four wrappers ends: with
    the agent's result, or with an exception (the promise returned by the
    agent's [analyze] was rejected, or the progress callback raised). *)
Inductive settled :=
| Resolved (result : Outcome)
| Rejected.

Inductive Decision := STRONG_BUY | PROCEED_WITH_CAUTION | PASS.

Module Recommendation.
Record t := {
  decision : Decision;
  confidence : string;
  reasoning : string
}.
End Recommendation.

(** The synthesized report, without the executive summary, the consolidated
    risks and the next steps, which are texts and lists that no property
    below concerns. *)
Record SynthesizedReport := {
  investmentScore : number;
  keyInsights : list Insight;
  recommendation : Recommendation.t
}.

(** The four outcomes handed to the synthesis, [agentResults] without its
    [document] member. *)
Record AgentResults := {
  market : Outcome;
  risk : Outcome;
  competitive : Outcome;
  portfolio : Outcome
}.

Module MultiAgentOrchestrator.
Local Open Scope float_scope.

Definition weights : list (task * number) :=
  [(Market, 0.25); (Risk, 0.30); (Competitive, 0.20); (Portfolio, 0.25)].

Definition scores (results : AgentResults) (key : task) : number :=
  match key with
  | Market => or_default (score (market results)) 7
  | Risk => 10 - or_default (riskScore (risk results)) 5
  | Competitive => or_default (score (competitive results)) 6
  | Portfolio => or_default (score (portfolio results)) 7
  end.

Definition calculateInvestmentScore (results : AgentResults) : number :=
  let weightedScore :=
    fold_left (fun total kw => total + scores results (fst kw) * snd kw) weights 0 in
  Math_round (weightedScore * 10) / 10.

(** [if (r.insights) insights.push(...r.insights)] *)
Definition pushed (r : Outcome) : list Insight :=
  match insights r with
  | Some l => l
  | None => []
  end.

Definition extractKeyInsights (results : AgentResults) : list Insight :=
  let collected : list Insight :=
    (pushed (market results) ++ pushed (risk results) ++
     pushed (competitive results) ++ pushed (portfolio results))%list in
  firstn 5 (sort_desc impact_or_0 collected).

Definition generateRecommendation (results : AgentResults) : Recommendation.t :=
  let s := calculateInvestmentScore results in
  if 8 <=? s then
    {| Recommendation.decision := STRONG_BUY;
       Recommendation.confidence := "High";
       Recommendation.reasoning :=
         "Multiple agents confirm strong investment opportunity with minimal risks" |}
  else if 6 <=? s then
    {| Recommendation.decision := PROCEED_WITH_CAUTION;
       Recommendation.confidence := "Medium";
       Recommendation.reasoning :=
         "Mixed signals from agents suggest thorough due diligence required" |}
  else
    {| Recommendation.decision := PASS;
       Recommendation.confidence := "High";
       Recommendation.reasoning :=
         "Multiple risk factors identified across agent analysis" |}.

Definition synthesizeResults (agentResults : AgentResults) : SynthesizedReport :=
  {| investmentScore := calculateInvestmentScore agentResults;
     keyInsights := extractKeyInsights agentResults;
     recommendation := generateRecommendation agentResults |}.

(** The orchestrator's own fallbacks, for an agent whose [analyze] rejects. *)
Definition getMarketFallback : Outcome :=
  {| agentName := None; confidence := None; score := Some 5;
     riskScore := None; insights := Some [] |}.

Definition getRiskFallback : Outcome :=
  {| agentName := None; confidence := None; score := None;
     riskScore := Some 5; insights := Some [] |}.

Definition getCompetitiveFallback : Outcome :=
  {| agentName := None; confidence := None; score := Some 5;
     riskScore := None; insights := Some [] |}.

Definition getPortfolioFallback : Outcome :=
  {| agentName := None; confidence := None; score := Some 5;
     riskScore := None; insights := Some [] |}.

Definition fallback (t : task) : Outcome :=
  match t with
  | Market => getMarketFallback
  | Risk => getRiskFallback
  | Competitive => getCompetitiveFallback
  | Portfolio => getPortfolioFallback
  end.

Inductive status := pending | processing | completed | failed.

(** [this.analysisStatus] *)
Record AnalysisStatus := {
  st_document : status;
  st_market : status;
  st_risk : status;
  st_competitive : status;
  st_portfolio : status
}.

Definition set_status (t : task) (v : status) (s : AnalysisStatus) : AnalysisStatus :=
  match t with
  | Market =>
      {| st_document := st_document s; st_market := v; st_risk := st_risk s;
         st_competitive := st_competitive s; st_portfolio := st_portfolio s |}
  | Risk =>
      {| st_document := st_document s; st_market := st_market s; st_risk := v;
         st_competitive := st_competitive s; st_portfolio := st_portfolio s |}
  | Competitive =>
      {| st_document := st_document s; st_market := st_market s; st_risk := st_risk s;
         st_competitive := v; st_portfolio := st_portfolio s |}
  | Portfolio =>
      {| st_document := st_document s; st_market := st_market s; st_risk := st_risk s;
         st_competitive := st_competitive s; st_portfolio := v |}
  end.


(** The status set by the constructor, and by the reset that opens
    [analyzeStartup]. *)
Definition all_status (v : status) : AnalysisStatus :=
  {| st_document := v; st_market := v; st_risk := v;
     st_competitive := v; st_portfolio := v |}.

(** [runMarketAnalysis] and its three siblings, from the point where the
    agent's promise has settled: the status written and the value with which
    the wrapper's own promise resolves.  The wrapper never rejects. *)
Definition run (t : task) (s : settled) : status * Outcome :=
  match s with
  | Resolved result => (completed, result)
  | Rejected => (failed, fallback t)
  end.

(** *** [analyzeStartup] as a transition system

    JavaScript runs one job at a time; a call of [analyzeStartup] is suspended
    at each [await] and resumed by the settlement it waits for.  A run is
    therefore a sequence of events, and several runs on the same orchestrator
    interleave event by event.  The agents are [this.agents]: what the
    document agent extracts, and how each analysis agent's promise settles on
    that document. *)

Section AnalyzeStartup.
Variables DocumentInput DocumentData : Type.
Variable document_analyze : DocumentInput -> DocumentData.
Variable agent_analyze : task -> DocumentData -> settled.

(** Where a call is suspended. *)
Inductive phase := NotCalled | DocumentInFlight | TasksInFlight | Returned.

(** The resolution values of [parallelPromises], [None] while pending. *)
Record Slots := {
  s_market : option Outcome;
  s_risk : option Outcome;
  s_competitive : option Outcome;
  s_portfolio : option Outcome
}.

Definition no_slots : Slots :=
  {| s_market := None; s_risk := None; s_competitive := None; s_portfolio := None |}.

Definition get_slot (t : task) (s : Slots) : option Outcome :=
  match t with
  | Market => s_market s
  | Risk => s_risk s
  | Competitive => s_competitive s
  | Portfolio => s_portfolio s
  end.

Definition set_slot (t : task) (o : Outcome) (s : Slots) : Slots :=
  match t with
  | Market =>
      {| s_market := Some o; s_risk := s_risk s;
         s_competitive := s_competitive s; s_portfolio := s_portfolio s |}
  | Risk =>
      {| s_market := s_market s; s_risk := Some o;
         s_competitive := s_competitive s; s_portfolio := s_portfolio s |}
  | Competitive =>
      {| s_market := s_market s; s_risk := s_risk s;
         s_competitive := Some o; s_portfolio := s_portfolio s |}
  | Portfolio =>
      {| s_market := s_market s; s_risk := s_risk s;
         s_competitive := s_competitive s; s_portfolio := Some o |}
  end.

(** [await Promise.all(parallelPromises)]: the four values once every
    promise has resolved. *)
Definition promise_all (s : Slots) : option AgentResults :=
  match s_market s, s_risk s, s_competitive s, s_portfolio s with
  | Some m, Some r, Some c, Some p =>
      Some {| market := m; risk := r; competitive := c; portfolio := p |}
  | _, _, _, _ => None
  end.

(** What [analyzeStartup] returns, apart from [agentStatus]: that member is
    [this.analysisStatus] itself, not a copy, so what a caller reads through
    it is the orchestrator's status at the time of reading. *)
Record Bundle := {
  rawData : AgentResults;
  synthesizedReport : SynthesizedReport
}.

(** The local variables of one call. *)
Record Run := {
  at_phase : phase;
  documentFile : option DocumentInput;
  documentData : option DocumentData;
  slots : Slots;
  returned : option Bundle
}.

Definition not_called : Run :=
  {| at_phase := NotCalled; documentFile := None; documentData := None;
     slots := no_slots; returned := None |}.

(** One orchestrator and the calls made on it. *)
Record World := {
  analysisStatus : AnalysisStatus;
  runs : nat -> Run
}.

Definition agentStatus (w : World) (b : Bundle) : AnalysisStatus := analysisStatus w.

Definition set_run (i : nat) (r : Run) (f : nat -> Run) : nat -> Run :=
  fun j => if Nat.eqb j i then r else f j.

(** [new MultiAgentOrchestrator()] *)
Definition constructor : World :=
  {| analysisStatus := all_status pending; runs := fun _ => not_called |}.

Inductive event :=
| Call (i : nat) (file : DocumentInput)
| DocumentSettled (i : nat)
| AgentSettled (i : nat) (t : task)
| AllSettled (i : nat).

(** One event, or [None] when the event cannot happen in this world. *)
Definition step (e : event) (w : World) : option World :=
  match e with
  | Call i file =>
      match at_phase (runs w i) with
      | NotCalled =>
          Some {| analysisStatus := all_status processing;
                  runs := set_run i
                            {| at_phase := DocumentInFlight;
                               documentFile := Some file;
                               documentData := None;
                               slots := no_slots;
                               returned := None |} (runs w) |}
      | _ => None
      end
  | DocumentSettled i =>
      let r := runs w i in
      match at_phase r, documentFile r with
      | DocumentInFlight, Some file =>
          let st := analysisStatus w in
          Some {| analysisStatus :=
                    {| st_document := completed; st_market := st_market st;
                       st_risk := st_risk st; st_competitive := st_competitive st;
                       st_portfolio := st_portfolio st |};
                  runs := set_run i
                            {| at_phase := TasksInFlight;
                               documentFile := documentFile r;
                               documentData := Some (document_analyze file);
                               slots := slots r;
                               returned := None |} (runs w) |}
      | _, _ => None
      end
  | AgentSettled i t =>
      let r := runs w i in
      match at_phase r, documentData r, get_slot t (slots r) with
      | TasksInFlight, Some doc, None =>
          let wrapped := run t (agent_analyze t doc) in
          Some {| analysisStatus := set_status t (fst wrapped) (analysisStatus w);
                  runs := set_run i
                            {| at_phase := TasksInFlight;
                               documentFile := documentFile r;
                               documentData := documentData r;
                               slots := set_slot t (snd wrapped) (slots r);
                               returned := None |} (runs w) |}
      | _, _, _ => None
      end
  | AllSettled i =>
      let r := runs w i in
      match at_phase r, promise_all (slots r) with
      | TasksInFlight, Some results =>
          Some {| analysisStatus := analysisStatus w;
                  runs := set_run i
                            {| at_phase := Returned;
                               documentFile := documentFile r;
                               documentData := documentData r;
                               slots := slots r;
                               returned :=
                                 Some {| rawData := results;
                                         synthesizedReport := synthesizeResults results |}
                            |} (runs w) |}
      | _, _ => None
      end
  end.

Fixpoint exec (trace : list event) (w : World) : option World :=
  match trace with
  | [] => Some w
  | e :: trace' =>
      match step e w with
      | Some w' => exec trace' w'
      | None => None
      end
  end.

(** What the four wrappers deliver for a document, whatever the order in
    which the agents settle. *)
Definition delivered (doc : DocumentData) (t : task) : Outcome :=
  snd (run t (agent_analyze t doc)).

Definition results_of (file : DocumentInput) : AgentResults :=
  let doc := document_analyze file in
  {| market := delivered doc Market; risk := delivered doc Risk;
     competitive := delivered doc Competitive;
     portfolio := delivered doc Portfolio |}.

Definition bundle_of (file : DocumentInput) : Bundle :=
  {| rawData := results_of file;
     synthesizedReport := synthesizeResults (results_of file) |}.

(** The events of one call whose agents settle in the given order. *)
Definition run_trace (i : nat) (file : DocumentInput) (order : list task) : list event :=
  (Call i file :: DocumentSettled i :: map (AgentSettled i) order ++ [AllSettled i])%list.
End AnalyzeStartup.

Arguments Call {DocumentInput} i file.
Arguments DocumentSettled {DocumentInput} i.
Arguments AgentSettled {DocumentInput} i t.
Arguments AllSettled {DocumentInput} i.
Arguments at_phase {DocumentInput DocumentData} r.
Arguments documentFile {DocumentInput DocumentData} r.
Arguments documentData {DocumentInput DocumentData} r.
Arguments slots {DocumentInput DocumentData} r.
Arguments returned {DocumentInput DocumentData} r.
Arguments not_called {DocumentInput DocumentData}.
Arguments analysisStatus {DocumentInput DocumentData} w.
Arguments runs {DocumentInput DocumentData} w i.
Arguments agentStatus {DocumentInput DocumentData} w b.
Arguments set_run {DocumentInput DocumentData} i r f j.
Arguments constructor {DocumentInput DocumentData}.
Arguments step {DocumentInput DocumentData} document_analyze agent_analyze e w.
Arguments exec {DocumentInput DocumentData} document_analyze agent_analyze trace w.
Arguments delivered {DocumentData} agent_analyze doc t.
Arguments results_of {DocumentInput DocumentData} document_analyze agent_analyze file.
Arguments bundle_of {DocumentInput DocumentData} document_analyze agent_analyze file.
Arguments run_trace {DocumentInput} i file order.

End MultiAgentOrchestrator.

(** The document agent's result.  The record it extracted is its
    [extractedData] member; the other members are left out. *)
Record DocumentResult := {
  extractedData : CompanyRecord
}.

(** The orchestrator hands the document agent's result itself to the four
    agents, which read [documentData.revenue], [documentData.growthRate] and
    so on from it.  The result has no such properties (they are one level
    down, in [extractedData]), so what the agents see is a record all of whose
    fields are absent. *)
Definition as_record (documentData : DocumentResult) : CompanyRecord := emptyRecord.

(** The four agents of this repository as the orchestrator holds them.
    [Services] is what the generative service contributes to each agent.  An
    agent's [analyze] catches whatever its analysis raises, so its promise
    always resolves. *)
Record Services := {
  industry_reply : option IndustryData.t;
  research_raises : bool;
  parameters_json : bool
}.

Definition agent_result (sv : Services) (t : task) (documentData : CompanyRecord)
    : Outcome :=
  match t with
  | Market => MarketResearchAgent.analyze (industry_reply sv) documentData
  | Risk => RiskAssessmentAgent.analyze documentData
  | Competitive => CompetitiveIntelligenceAgent.analyze (research_raises sv) documentData
  | Portfolio => PortfolioImpactAgent.analyze (parameters_json sv) documentData
  end.

Definition the_agents (sv : Services) (t : task) (documentData : CompanyRecord)
    : settled :=
  Resolved (agent_result sv t documentData).

(** The [try] block of each agent, and the fallback its [catch] returns. *)
Definition analysis_of (sv : Services) (t : task) (documentData : CompanyRecord)
    : option Outcome :=
  match t with
  | Market => MarketResearchAgent.analysis (industry_reply sv) documentData
  | Risk => RiskAssessmentAgent.analysis documentData
  | Competitive => CompetitiveIntelligenceAgent.analysis (research_raises sv) documentData
  | Portfolio => PortfolioImpactAgent.analysis (parameters_json sv) documentData
  end.

Definition fallback_of (t : task) (documentData : CompanyRecord) : Outcome :=
  match t with
  | Market => MarketResearchAgent.getFallbackAnalysis documentData
  | Risk => RiskAssessmentAgent.getFallbackAnalysis documentData
  | Competitive => CompetitiveIntelligenceAgent.getFallbackAnalysis documentData
  | Portfolio => PortfolioImpactAgent.getFallbackAnalysis documentData
  end.

(** [this.agents] of the orchestrator: the document agent, of which only the
    record it extracts is modelled, and the four analysis agents. *)
Definition document_agent (extracted : CompanyRecord) : DocumentResult :=
  {| extractedData := extracted |}.

Definition orchestrated_agents (sv : Services) (t : task) (documentData : DocumentResult)
    : settled :=
  the_agents sv t (as_record documentData).

(** The score of an outcome as the synthesis reads it: [riskScore] for the
    risk agent, [score] for the other three. *)
Definition score_of (t : task) (o : Outcome) : option number :=
  match t with
  | Risk => riskScore o
  | _ => score o
  end.

(** ** The result objects, and what is read from them besides the scores
       and the insights *)

(** A result object as its readers see it: the names of its members, in the
    order of the object literal, each with its value when that is a number or
    an array (of which the length is kept). *)
Module ResultObject.

Inductive value :=
| Number (n : number)
| Items (length : nat)
| Other.

Definition t := list (string * value).

Fixpoint member (key : string) (o : t) : option value :=
  match o with
  | [] => None
  | (k, v) :: o' => if String.eqb k key then Some v else member key o'
  end.

(** [o.key] compared with a number: a member that is missing is [undefined],
    which a comparison reads as [NaN].  [None] when the member holds something
    of which the model does not keep the value. *)
Definition compared (key : string) (o : t) : option number :=
  match member key o with
  | None => Some NaN
  | Some (Number n) => Some n
  | Some _ => None
  end.

(** [o.key?.length] compared with a number. *)
Definition length_compared (key : string) (o : t) : option number :=
  match member key o with
  | None => Some NaN
  | Some (Items n) => Some (of_Z (Z.of_nat n))
  | Some _ => None
  end.

(** [o.key || d] where [d] is a number. *)
Definition or_else (key : string) (o : t) (d : number) : option number :=
  match member key o with
  | None => Some d
  | Some (Number n) => Some (or_number n d)
  | Some _ => None
  end.

End ResultObject.

(** The result objects of the four agents: the [result] of an agent's
    [analyze], the object of its [getFallbackAnalysis], and the object of the
    orchestrator's own fallback. *)
Module Produced.
Import ResultObject.

Inductive origin := Analysis | AgentFallback | OrchestratorFallback.

Definition num (x : option number) : value :=
  match x with
  | Some n => Number n
  | None => Other
  end.

Definition members (t : task) (how : origin) (o : Outcome) : ResultObject.t :=
  let items := Items (List.length (MultiAgentOrchestrator.pushed o)) in
  match t, how with
  | Market, Analysis =>
      [("agentName", Other); ("timestamp", Other); ("confidence", num (confidence o));
       ("industryData", Other); ("benchmarkAnalysis", Other);
       ("marketValidation", Other); ("competitivePosition", Other);
       ("growthAnalysis", Other); ("insights", items); ("score", num (score o))]
  | Market, AgentFallback =>
      [("agentName", Other); ("timestamp", Other); ("confidence", num (confidence o));
       ("industryData", Other); ("benchmarkAnalysis", Other);
       ("marketValidation", Other); ("competitivePosition", Other);
       ("insights", items); ("score", num (score o))]
  | Market, OrchestratorFallback =>
      [("marketPosition", Other); ("marketSize", Other); ("score", num (score o));
       ("insights", items)]
  | Risk, Analysis =>
      [("agentName", Other); ("timestamp", Other); ("confidence", num (confidence o));
       ("successPrediction", Other); ("riskBreakdown", Other);
       ("overallRiskScore", Other); ("redFlags", Other);
       ("mitigationStrategies", Other); ("insights", items);
       ("riskScore", num (riskScore o))]
  | Risk, AgentFallback =>
      [("agentName", Other); ("timestamp", Other); ("confidence", num (confidence o));
       ("successPrediction", Other); ("riskBreakdown", Other);
       ("overallRiskScore", Other); ("redFlags", Other); ("insights", items);
       ("riskScore", num (riskScore o))]
  | Risk, OrchestratorFallback =>
      [("riskScore", num (riskScore o)); ("overallRisk", Other); ("risks", Items 0);
       ("insights", items)]
  | Competitive, Analysis =>
      [("agentName", Other); ("timestamp", Other); ("confidence", num (confidence o));
       ("industryMapping", Other); ("directCompetitors", Other);
       ("competitorIntelligence", Other); ("fundingLandscape", Other);
       ("differentiationAnalysis", Other); ("positioningAnalysis", Other);
       ("threatOpportunityAnalysis", Other); ("competitiveAdvantage", Other);
       ("insights", items); ("score", num (score o)); ("recommendations", Other)]
  | Competitive, AgentFallback =>
      [("agentName", Other); ("timestamp", Other); ("confidence", num (confidence o));
       ("directCompetitors", Items 0); ("competitiveAdvantage", Other);
       ("insights", items); ("score", num (score o))]
  | Competitive, OrchestratorFallback =>
      [("competitiveAdvantage", Other); ("score", num (score o)); ("insights", items);
       ("threats", Items 0)]
  | Portfolio, Analysis =>
      [("agentName", Other); ("timestamp", Other); ("confidence", num (confidence o));
       ("investmentParameters", Other); ("returnProjections", Other);
       ("portfolioImpact", Other); ("scenarioAnalysis", Other);
       ("exitModeling", Other); ("allocationOptimization", Other);
       ("riskReturnAnalysis", Other); ("investmentRecommendation", Other);
       ("insights", items); ("score", num (score o))]
  | Portfolio, AgentFallback =>
      [("agentName", Other); ("timestamp", Other); ("confidence", num (confidence o));
       ("investmentRecommendation", Other); ("portfolioImpact", Other);
       ("returnProjections", Other); ("insights", items); ("score", num (score o))]
  | Portfolio, OrchestratorFallback =>
      [("expectedReturn", Other); ("score", num (score o)); ("insights", items)]
  end.

(** What a wrapper of the orchestrator delivers for a record: the agent's
    result, from its analysis or from its own fallback, or the orchestrator's
    fallback when the wrapper's [try] block raised. *)
Definition outcome (sv : Services) (t : task) (documentData : CompanyRecord)
    (raised : bool) : Outcome :=
  if raised then MultiAgentOrchestrator.fallback t
  else agent_result sv t documentData.

Definition delivered (sv : Services) (t : task) (documentData : CompanyRecord)
    (raised : bool) : ResultObject.t :=
  if raised then members t OrchestratorFallback (MultiAgentOrchestrator.fallback t)
  else
    match analysis_of sv t documentData with
    | Some result => members t Analysis result
    | None => members t AgentFallback (fallback_of t documentData)
    end.

End Produced.

(** [multiAgentOrchestrator.js], [consolidateRisks] and [suggestNextSteps];
    [None] when a member that is read holds something of which the model does
    not keep the value. *)
Module Synthesis.
Import ResultObject.
Local Open Scope float_scope.

(** [if (r.risks) allRisks.push(...r.risks)]: the number of risks pushed. *)
Definition pushed_risks (r : ResultObject.t) : option nat :=
  match member "risks" r with
  | None => Some 0%nat
  | Some (Items n) => Some n
  | Some _ => None
  end.

(** The number of risk factors that [consolidateRisks] returns; the sort that
    ends it changes their order only. *)
Definition consolidateRisks (risk competitive market : ResultObject.t) : option nat :=
  match pushed_risks risk, pushed_risks competitive, pushed_risks market with
  | Some r, Some c, Some m => Some (r + c + m)%nat
  | _, _, _ => None
  end.

Definition suggestNextSteps (risk competitive market : ResultObject.t)
    : option (list string) :=
  match compared "riskScore" risk, length_compared "threats" competitive,
        compared "marketShare" market with
  | Some riskScore, Some threats, Some marketShare =>
      Some ((if 7 <? riskScore then ["Conduct detailed financial audit"] else []) ++
            (if 0 <? threats then ["Deep dive competitive analysis"] else []) ++
            (if marketShare <? 0.05 then ["Validate market size assumptions"] else []))%list
  | _, _, _ => None
  end.

End Synthesis.

(** ** App.js *)

Module App.
Import ResultObject.
Local Open Scope float_scope.

(** The [breakdown] of the [riskAssessment] that [handleDocumentUpload]
    derives for display: financial, market, team and competitive. *)
Definition breakdown (risk market competitive : ResultObject.t)
    : option (number * number * number * number) :=
  match or_else "financialRisk" risk 5, or_else "marketRisk" market 5,
        or_else "teamRisk" risk 5, or_else "competitiveRisk" competitive 5 with
  | Some f, Some m, Some t, Some c => Some (f, m, t, c)
  | _, _, _, _ => None
  end.

End App.

(** ** components/AnalysisResults.js *)

Module AnalysisResults.
Local Open Scope float_scope.

(** The text of a decision, as [generateRecommendation] writes it and as the
    results page reads it from [synthesizedReport.recommendation.decision]. *)
Definition decision_text (d : Decision) : string :=
  match d with
  | STRONG_BUY => "STRONG BUY"
  | PROCEED_WITH_CAUTION => "PROCEED WITH CAUTION"
  | PASS => "PASS"
  end.

Definition green : string := "#10B981".
Definition blue : string := "#3B82F6".
Definition orange : string := "#F59E0B".
Definition red : string := "#EF4444".

Definition getScoreColor (score : number) : string :=
  if 8 <=? score then green
  else if 6 <=? score then orange
  else red.

(** [recommendation?.includes(...)]: an absent recommendation matches
    nothing. *)
Definition getRecommendationColor (recommendation : option string) : string :=
  let mentions (needle : string) :=
    match recommendation with
    | Some r => includes r needle
    | None => false
    end in
  if mentions "STRONG BUY" then green
  else if mentions "BUY" then blue
  else if mentions "HOLD" then orange
  else red.

(** The colours of the recommendation badge and of the investment score on
    the overview tab. *)
Definition badge_color (report : SynthesizedReport) : string :=
  getRecommendationColor
    (Some (decision_text (Recommendation.decision (recommendation report)))).

Definition score_color (report : SynthesizedReport) : string :=
  getScoreColor (investmentScore report).

End AnalysisResults.

(** * Vocabulary of the properties

    Predicates and sample values that the statements below are written
    with. *)

Module Vocabulary.
Import MultiAgentOrchestrator.
Local Open Scope float_scope.

(** The comparison of two floats as the IEEE 754 specification gives it:
    [None] when one of them is [NaN]. *)
Definition cmp (x y : float) : option comparison :=
  SFcompare (Prim2SF x) (Prim2SF y).

(** A value that [!value] treats as missing: absent, or zero of either sign. *)
Definition zero_or_absent (x : option number) : bool :=
  match x with
  | None => true
  | Some v => is_zero v
  end.

(** The eight percentiles [calculatePercentile] can return. *)
Definition percentiles : list number := [95; 85; 75; 60; 50; 40; 25; 15].

(** The weighted score in the specification's words: the sum over the four
    tasks of the task's score times its weight, the risk score entering as
    [10 - riskScore]. *)
Definition weighted_sum (marketScore riskScore competitiveScore portfolioScore : number)
    : number :=
  0 + marketScore * 0.25 + (10 - riskScore) * 0.30
    + competitiveScore * 0.20 + portfolioScore * 0.25.

(** The recommendation tier in the specification's words. *)
Definition tier_of_score (s : number) : Decision :=
  if 8 <=? s then STRONG_BUY
  else if 6 <=? s then PROCEED_WITH_CAUTION
  else PASS.

(** Four outcomes that carry nothing but the given scores. *)
Definition scored (s : number) : Outcome :=
  {| agentName := None; confidence := None; score := Some s;
     riskScore := None; insights := None |}.

Definition risk_scored (s : number) : Outcome :=
  {| agentName := None; confidence := None; score := None;
     riskScore := Some s; insights := None |}.

Definition outcomes_with (m r c p : number) : AgentResults :=
  {| market := scored m; risk := risk_scored r;
     competitive := scored c; portfolio := scored p |}.

(** Every element is followed only by elements of a key that is not larger. *)
Definition descending {A : Type} (key : A -> Z) (l : list A) : Prop :=
  StronglySorted (fun a b => (key b <= key a)%Z) l.

Fixpoint string_forallb (f : ascii -> bool) (s : string) : bool :=
  match s with
  | EmptyString => true
  | String c s' => f c && string_forallb f s'
  end.

(** Whether a string holds a decimal digit, and whether it consists of digits
    and dots only. *)
Definition has_digit (s : string) : bool :=
  negb (string_forallb (fun c => negb (is_digit c)) s).

Definition numeric_char (c : ascii) : bool := is_digit c || Ascii.eqb c ".".

Definition numeric (s : string) : bool := string_forallb numeric_char s.

(** [lo <= x <= hi]; false when [x] is [NaN]. *)
Definition in_range (lo hi x : number) : bool := (lo <=? x) && (x <=? hi).

(** The confidence to which each agent's fallback is lowered. *)
Definition fallback_confidence (t : task) : number :=
  match t with
  | Market => 50
  | _ => 60
  end.

(** A record in which only the growth rate is filled in, with the text the
    document agent itself uses for a field it could not read. *)
Definition growth_not_specified : CompanyRecord :=
  {| companyName := None; industry := None; revenue := None; arr := None;
     customers := None; teamSize := None; fundingStage := None;
     fundingAmount := None; marketSize := None;
     growthRate := Some "Not specified";
     burnRate := None; runway := None; valuation := None |}.

(** The record of the specification's end-to-end scenario, its growth rate
    replaced by the same text. *)
Definition scenario_without_growth : CompanyRecord :=
  {| companyName := None; industry := None; revenue := Some "₹14L"; arr := None;
     customers := None; teamSize := Some "12"; fundingStage := None;
     fundingAmount := None; marketSize := None;
     growthRate := Some "Not specified";
     burnRate := None; runway := Some "8 months"; valuation := None |}.

(** The run an event belongs to. *)
Definition run_of {DocumentInput : Type} (e : event DocumentInput) : nat :=
  match e with
  | Call i _ | DocumentSettled i | AgentSettled i _ | AllSettled i => i
  end.

(** What a run's local variables hold at each point of suspension: its own
    file, the document extracted from that file, and in each slot either
    nothing yet or what the wrapper delivers for that document. *)
Definition run_invariant {DocumentInput DocumentData : Type}
    (document_analyze : DocumentInput -> DocumentData)
    (agent_analyze : task -> DocumentData -> settled)
    (r : Run DocumentInput DocumentData) : Prop :=
  match at_phase r with
  | NotCalled => r = not_called
  | DocumentInFlight =>
      exists file,
        documentFile r = Some file /\ documentData r = None /\
        slots r = no_slots /\ returned r = None
  | TasksInFlight =>
      exists file,
        documentFile r = Some file /\
        documentData r = Some (document_analyze file) /\
        (forall t, get_slot t (slots r) = None \/
                   get_slot t (slots r) = Some (delivered agent_analyze (document_analyze file) t)) /\
        returned r = None
  | Returned =>
      exists file,
        documentFile r = Some file /\
        promise_all (slots r) = Some (results_of document_analyze agent_analyze file) /\
        returned r = Some (bundle_of document_analyze agent_analyze file)
  end.

Definition no_service : Services :=
  {| industry_reply := None; research_raises := false; parameters_json := false |}.

(** Two extracted records that differ. *)
Definition first_file : CompanyRecord :=
  {| companyName := Some "Naario"; industry := Some "Food Technology";
     revenue := Some "₹14L"; arr := None; customers := None;
     teamSize := Some "12"; fundingStage := None; fundingAmount := None;
     marketSize := None; growthRate := Some "25%"; burnRate := None;
     runway := Some "8 months"; valuation := None |}.

Definition second_file : CompanyRecord := emptyRecord.

(** The second call is made while the first is waiting for three of its
    agents. *)
Definition overlapping_calls : list (event CompanyRecord) :=
  [Call 0 first_file; DocumentSettled 0; AgentSettled 0 Market;
   Call 1 second_file;
   AgentSettled 0 Risk; AgentSettled 0 Competitive; AgentSettled 0 Portfolio;
   AllSettled 0].

(** The four outcomes of a run on the agents of this repository. *)
Definition run_results : AgentResults :=
  results_of document_agent (orchestrated_agents no_service) first_file.

(** An insight without any content, the default of [last] and [nth]. *)
Definition no_insight : Insight :=
  {| type := EmptyString; insight := []; implication := EmptyString; impact := None |}.

(** An industry for which [performBenchmarking] has no benchmark set of its
    own and uses the general seed-stage figures. *)
Definition general_industry (primary : string) : bool :=
  let industry := toLowerCase primary in
  negb (includes industry "food" || includes industry "fmcg" ||
        includes industry "data" || includes industry "ai" ||
        includes industry "analytics").

(** A company that reports 80% monthly growth, and the classification of a
    fintech company. *)
Definition growing_fintech : CompanyRecord :=
  {| companyName := Some "Paywise"; industry := Some "Fintech";
     revenue := Some "$100K MRR"; arr := None; customers := None;
     teamSize := Some "12"; fundingStage := None; fundingAmount := None;
     marketSize := None; growthRate := Some "80%"; burnRate := None;
     runway := Some "18 months"; valuation := None |}.

Definition fintech : IndustryData.t :=
  {| IndustryData.primaryIndustry := Some "Fintech";
     IndustryData.confidence := Some "high" |}.

(** Whether a text is in a list of texts, and whether a red flag of a given
    name is in a list of red flags. *)
Definition listed (x : string) (l : list string) : bool :=
  existsb (String.eqb x) l.

Definition flagged (name : string) (redFlags : list RedFlag.t) : bool :=
  existsb (fun f => String.eqb (RedFlag.flag f) name) redFlags.

(** The impacts of a list of insights, in order. *)
Definition impacts (l : list Insight) : list Z := map impact_or_0 l.

(** What the four agents return for a record that is handed to them as it
    is. *)
Definition agent_results (sv : Services) (documentData : CompanyRecord) : AgentResults :=
  {| market := agent_result sv Market documentData;
     risk := agent_result sv Risk documentData;
     competitive := agent_result sv Competitive documentData;
     portfolio := agent_result sv Portfolio documentData |}.

(** The impacts that the insights of each agent can have, list by list. *)
Definition possible_impacts (t : task) : list (list Z) :=
  match t with
  | Market =>
      [[9; 8; 7; 6]; [9; 8; 6]; [9; 7; 6]; [9; 6]; [8; 7; 6]; [8; 6]; [7; 6]; [6]; []]
  | Risk => [[8; 6]; [6; 6]; [9; 8; 6]; [8; 6; 5]; [9; 6; 6]; [6; 6; 5]]
  | Competitive => [[8; 7; 6]; [7; 6; 5]; [5]]
  | Portfolio => [[8; 7; 7; 6]; [7; 7; 6; 6]]
  end%Z.

(** The five largest of the impacts of four lists, and whether they are five
    and all between 6 and 9. *)
Definition top_five (m r c p : list Z) : list Z :=
  firstn 5 (sort_desc (fun z => z) (m ++ r ++ c ++ p)%list).

Definition five_from_6_to_9 (l : list Z) : bool :=
  Nat.eqb (List.length l) 5 && forallb (fun z => (6 <=? z)%Z && (z <=? 9)%Z) l.

(** A field that counts towards the document agent's confidence: present,
    not empty and not the text ["Not specified"]. *)
Definition specified (field : option string) : bool :=
  match field with
  | Some v => negb (String.eqb v EmptyString) && negb (String.eqb v "Not specified")
  | None => false
  end.

(** The last character of a string. *)
Fixpoint last_char (s : string) : option ascii :=
  match s with
  | EmptyString => None
  | String c EmptyString => Some c
  | String _ s' => last_char s'
  end.

(** Whether none of the five statuses reads [pending]. *)
Definition is_pending (v : status) : bool :=
  match v with
  | pending => true
  | _ => false
  end.

Definition no_pending (s : AnalysisStatus) : bool :=
  negb (is_pending (st_document s) || is_pending (st_market s) ||
        is_pending (st_risk s) || is_pending (st_competitive s) ||
        is_pending (st_portfolio s)).

(** Either nothing has been called yet, or no status reads [pending]. *)
Definition fresh_or_started {DocumentInput DocumentData : Type}
    (w : World DocumentInput DocumentData) : Prop :=
  (forall i, at_phase (runs w i) = NotCalled) \/ no_pending (analysisStatus w) = true.

(** The status that a wrapper writes when its agent settles. *)
Definition status_written (s : settled) : status :=
  match s with
  | Resolved _ => completed
  | Rejected => failed
  end.

(** A record that gives its runway as a range and nothing else. *)
Definition runway_as_range : CompanyRecord :=
  {| companyName := None; industry := None; revenue := None; arr := None;
     customers := None; teamSize := None; fundingStage := None;
     fundingAmount := None; marketSize := None; growthRate := None;
     burnRate := None; runway := Some "3-5 months"; valuation := None |}.

(** A record in which only the growth rate is filled in. *)
Definition growth_only : CompanyRecord :=
  {| companyName := None; industry := None; revenue := None; arr := None;
     customers := None; teamSize := None; fundingStage := None;
     fundingAmount := None; marketSize := None; growthRate := Some "25%";
     burnRate := None; runway := None; valuation := None |}.

(** Risk factors none of which is rated ["high"]. *)
Definition none_high (riskFactors : RiskFactors.t) : bool :=
  let high (x : option string) :=
    match x with
    | Some v => String.eqb v "high"
    | None => false
    end in
  negb (high (RiskFactors.financialStress riskFactors) ||
        high (RiskFactors.marketRisk riskFactors) ||
        high (RiskFactors.teamRisk riskFactors)).

End Vocabulary.

Import Vocabulary.

(** * Properties *)

(** ** Numbers *)

Lemma float_neq (x y : number) : PrimFloat.Leibniz.eqb x y = false -> x <> y.
Proof.
  intros H E. apply FloatAxioms.Leibniz.eqb_spec in E. congruence.
Qed.

Lemma or_default_absent (d : number) : or_default None d = d.
Proof. reflexivity. Qed.

Lemma or_default_truthy (v d : number) : truthy v = true -> or_default (Some v) d = v.
Proof. unfold or_default. now intros ->. Qed.

Lemma or_default_falsy (v d : number) : truthy v = false -> or_default (Some v) d = d.
Proof. unfold or_default. now intros ->. Qed.

(** ** The order of floating-point numbers

    The comparisons of primitive floats are specified by [SFcompare]; the
    usual laws of an order follow, away from [NaN]. *)

Module FloatOrder.
Local Open Scope float_scope.


Lemma ltb_cmp x y : (x <? y) = match cmp x y with Some Lt => true | _ => false end.
Proof. rewrite ltb_spec. reflexivity. Qed.
Lemma leb_cmp x y : (x <=? y) = match cmp x y with Some (Lt | Eq) => true | _ => false end.
Proof. rewrite leb_spec. reflexivity. Qed.
Lemma eqb_cmp x y : (x =? y) = match cmp x y with Some Eq => true | _ => false end.
Proof. rewrite eqb_spec. reflexivity. Qed.

Ltac cases_compare :=
  repeat match goal with
         | |- context [Z.compare ?a ?b] => destruct (Z.compare_spec a b)
         | H : context [Z.compare ?a ?b] |- _ => destruct (Z.compare_spec a b)
         | |- context [Pos.compare_cont Eq ?a ?b] =>
             change (Pos.compare_cont Eq a b) with (Pos.compare a b);
             destruct (Pos.compare_spec a b)
         | H : context [Pos.compare_cont Eq ?a ?b] |- _ =>
             change (Pos.compare_cont Eq a b) with (Pos.compare a b) in H;
             destruct (Pos.compare_spec a b)
         end.

Lemma SFcompare_antisym (x y : spec_float) :
  SFcompare y x = option_map CompOpp (SFcompare x y).
Proof.
  destruct x as [sx|sx| |sx mx ex], y as [sy|sy| |sy my ey]; simpl; try reflexivity;
    try (destruct sx; reflexivity); try (destruct sy; reflexivity);
    try (destruct sx, sy; reflexivity).
  destruct sx, sy; simpl; try reflexivity; f_equal;
    cases_compare; simpl; subst; try reflexivity; try lia.
Qed.

Lemma SFcompare_trans (x y z : spec_float) (c : comparison) :
  SFcompare x y = Some c -> SFcompare y z = Some c -> SFcompare x z = Some c.
Proof.
  destruct x as [sx|sx| |sx mx ex], y as [sy|sy| |sy my ey], z as [sz|sz| |sz mz ez];
    simpl; try discriminate;
    try (destruct sx; simpl; congruence);
    try (destruct sy; simpl; congruence);
    try (destruct sz; simpl; congruence);
    try (destruct sx, sy; simpl; congruence);
    try (destruct sx, sz; simpl; congruence);
    try (destruct sy, sz; simpl; congruence);
    try (destruct sx, sy, sz; simpl; congruence).
  destruct sx, sy, sz; simpl; try congruence;
    intros H1 H2; injection H1 as <-; injection H2 as H2; f_equal;
    revert H2; cases_compare; simpl; subst; try congruence; try lia.
Qed.

Lemma SFcompare_eq_l (x y z : spec_float) :
  SFcompare x y = Some Eq -> SFcompare x z = SFcompare y z.
Proof.
  destruct x as [sx|sx| |sx mx ex], y as [sy|sy| |sy my ey]; simpl; try discriminate;
    try (destruct sx; discriminate); try (destruct sy; discriminate);
    try (destruct sx, sy; discriminate).
  - destruct z; reflexivity.
  - destruct sx, sy; try discriminate; reflexivity.
  - destruct sx, sy; simpl; try discriminate;
      intros H; injection H as H; revert H; cases_compare; simpl; try discriminate;
      intros _; subst; reflexivity.
Qed.

Lemma SFcompare_refl (x : spec_float) : x <> S754_nan -> SFcompare x x = Some Eq.
Proof.
  destruct x as [s|s| |s m e]; simpl; try congruence.
  - destruct s; reflexivity.
  - intros _. destruct s; rewrite Z.compare_refl, Pos.compare_cont_refl; reflexivity.
Qed.

Lemma SFcompare_nan (x y : spec_float) :
  SFcompare x y = None <-> x = S754_nan \/ y = S754_nan.
Proof.
  destruct x as [sx|sx| |sx mx ex], y as [sy|sy| |sy my ey]; simpl;
    split; intros H; try discriminate; auto;
    try (destruct H; discriminate).
Qed.

Lemma is_nan_spec (x : float) : is_nan x = true <-> Prim2SF x = S754_nan.
Proof.
  unfold is_nan. rewrite eqb_cmp. unfold cmp.
  destruct (Prim2SF x) eqn:E; simpl; split; try discriminate; try reflexivity.
  - destruct s; discriminate.
  - destruct s; rewrite Z.compare_refl, Pos.compare_cont_refl; discriminate.
Qed.

Lemma cmp_some (x y : float) :
  is_nan x = false -> is_nan y = false -> exists c, cmp x y = Some c.
Proof.
  intros Hx Hy. unfold cmp.
  destruct (SFcompare (Prim2SF x) (Prim2SF y)) eqn:E; [eauto|].
  apply SFcompare_nan in E. destruct E as [E|E]; apply is_nan_spec in E; congruence.
Qed.

Lemma cmp_antisym (x y : float) : cmp y x = option_map CompOpp (cmp x y).
Proof. apply SFcompare_antisym. Qed.

Lemma ltb_leb (x y : float) : (x <? y) = true -> (x <=? y) = true.
Proof. rewrite ltb_cmp, leb_cmp. destruct (cmp x y) as [[]|]; congruence. Qed.

Lemma ltb_not_leb (x y : float) : (x <? y) = true -> (y <=? x) = false.
Proof.
  rewrite ltb_cmp, leb_cmp, (cmp_antisym x y).
  destruct (cmp x y) as [[]|]; simpl; congruence.
Qed.

Lemma leb_not_ltb (x y : float) : (x <=? y) = true -> (y <? x) = false.
Proof.
  rewrite ltb_cmp, leb_cmp, (cmp_antisym x y).
  destruct (cmp x y) as [[]|]; simpl; congruence.
Qed.

Lemma not_ltb_leb (x y : float) :
  is_nan x = false -> is_nan y = false -> (x <? y) = false -> (y <=? x) = true.
Proof.
  intros Hx Hy. destruct (cmp_some x y Hx Hy) as [c Hc].
  rewrite ltb_cmp, leb_cmp, (cmp_antisym x y), Hc.
  destruct c; simpl; congruence.
Qed.

Lemma leb_ltb_trans (x y z : float) :
  (x <=? y) = true -> (y <? z) = true -> (x <? z) = true.
Proof.
  rewrite leb_cmp, !ltb_cmp. unfold cmp.
  destruct (SFcompare (Prim2SF x) (Prim2SF y)) as [[]|] eqn:E1; try discriminate; intros _.
  - now rewrite (SFcompare_eq_l _ _ _ E1).
  - destruct (SFcompare (Prim2SF y) (Prim2SF z)) as [[]|] eqn:E2; try discriminate.
    now rewrite (SFcompare_trans _ _ _ _ E1 E2).
Qed.

Lemma SFcompare_eq_r (x y z : spec_float) :
  SFcompare y z = Some Eq -> SFcompare x y = SFcompare x z.
Proof.
  intros E.
  rewrite (SFcompare_antisym y x), (SFcompare_antisym z x).
  now rewrite (SFcompare_eq_l _ _ x E).
Qed.

Lemma ltb_leb_trans (x y z : float) :
  (x <? y) = true -> (y <=? z) = true -> (x <? z) = true.
Proof.
  rewrite leb_cmp, !ltb_cmp. unfold cmp.
  destruct (SFcompare (Prim2SF x) (Prim2SF y)) as [[]|] eqn:E1; try discriminate; intros _.
  destruct (SFcompare (Prim2SF y) (Prim2SF z)) as [[]|] eqn:E2; try discriminate; intros _.
  - now rewrite <- (SFcompare_eq_r _ _ _ E2), E1.
  - now rewrite (SFcompare_trans _ _ _ _ E1 E2).
Qed.

Lemma leb_trans (x y z : float) :
  (x <=? y) = true -> (y <=? z) = true -> (x <=? z) = true.
Proof.
  intros H1 H2. rewrite leb_cmp in H2.
  destruct (cmp y z) as [[]|] eqn:E; try discriminate.
  - rewrite leb_cmp in *. unfold cmp in *.
    now rewrite <- (SFcompare_eq_r _ _ _ E).
  - apply ltb_leb, (leb_ltb_trans x y z H1). rewrite ltb_cmp, E. reflexivity.
Qed.

End FloatOrder.

(** ** The percentile of the market agent *)

Module MarketResearchAgentProperties.
Import MarketResearchAgent.
Local Open Scope float_scope.



Lemma calculatePercentile_values (value benchmark : option number) :
  In (calculatePercentile value benchmark) percentiles.
Proof.
  unfold calculatePercentile, percentiles.
  destruct value as [v|], benchmark as [b|]; simpl; auto 10.
  destruct (negb (truthy v) || negb (truthy b)); auto 10.
  repeat match goal with
         | |- context [if ?c then _ else _] => destruct c
         end; auto 10.
Qed.

(** C8.  Whenever the value or the benchmark handed to [calculatePercentile]
    is zero or absent, the result is the neutral midpoint 50; and whatever the
    two arguments are, the result is a finite number: never [NaN], never an
    infinity, so no quotient by zero is ever returned. *)
Theorem C8_calculatePercentile_neutral_midpoint (value benchmark : option number) :
  (zero_or_absent value || zero_or_absent benchmark = true ->
   calculatePercentile value benchmark = 50) /\
  is_finite (calculatePercentile value benchmark) = true.
Proof.
  split.
  - unfold calculatePercentile, zero_or_absent, truthy, is_zero.
    destruct value as [v|], benchmark as [b|]; try reflexivity.
    change zero with 0.
    destruct (v =? 0); simpl; [reflexivity|].
    intros ->. simpl. now rewrite orb_true_r.
  - pose proof (calculatePercentile_values value benchmark) as H.
    unfold percentiles in H. simpl in H.
    repeat destruct H as [<-|H]; try reflexivity. contradiction.
Qed.

(** C8 at two inputs: a value of zero, and a benchmark that is absent. *)
Lemma C8_calculatePercentile_witness :
  calculatePercentile (Some 0) (Some 12) = 50 /\
  calculatePercentile (Some 1400000) None = 50.
Proof.
  split.
  - apply (proj1 (C8_calculatePercentile_neutral_midpoint (Some 0) (Some 12))).
    reflexivity.
  - apply (proj1 (C8_calculatePercentile_neutral_midpoint (Some 1400000) None)).
    reflexivity.
Defined.

End MarketResearchAgentProperties.

(** ** The weighted score and the recommendation *)

Module SynthesisProperties.
Import MultiAgentOrchestrator.
Local Open Scope float_scope.






(** C1, as stated, fails: for the scores 7.3, 3.5, 5.5 and 6 the weighted sum
    is 6.375, and the investment score computed from them is 6.4. *)
Lemma C1_weighted_sum_counterexample :
  weighted_sum 7.3 3.5 5.5 6 = 6.375 /\
  calculateInvestmentScore (outcomes_with 7.3 3.5 5.5 6) = 6.4 /\
  calculateInvestmentScore (outcomes_with 7.3 3.5 5.5 6) <> weighted_sum 7.3 3.5 5.5 6.
Proof.
  repeat split; try (vm_compute; reflexivity).
  apply float_neq. vm_compute. reflexivity.
Qed.

(** C1, amended.  The four weights add up to 1.  The investment score is the
    weighted sum of the four scores rounded to one decimal place
    ([Math.round(10 * sum) / 10]), where a score that is missing, zero or
    [NaN] is first replaced by a default: 7 for the market score, 5 for the
    risk score, 6 for the competitive score and 7 for the portfolio score,
    and where the risk score enters as [10 - riskScore]. *)
Theorem C1_investment_score_is_rounded_weighted_sum (results : AgentResults) :
  0.25 + 0.30 + 0.20 + 0.25 = 1 /\
  map snd weights = [0.25; 0.30; 0.20; 0.25] /\
  calculateInvestmentScore results =
    Math_round
      (weighted_sum (or_default (score (market results)) 7)
                    (or_default (riskScore (risk results)) 5)
                    (or_default (score (competitive results)) 6)
                    (or_default (score (portfolio results)) 7) * 10) / 10.
Proof.
  split; [vm_compute; reflexivity|].
  split; reflexivity.
Qed.

(** C2, as stated, fails.  Four outcomes whose weighted sum is 7.999 (below 8)
    are recommended STRONG BUY, where the specification has PROCEED WITH
    CAUTION; four outcomes whose weighted sum is 5.999 (below 6) are
    recommended PROCEED WITH CAUTION, where the specification has PASS. *)
Lemma C2_thresholds_counterexample :
  ((weighted_sum 7.999 2.001 7.999 7.999 <? 8) = true /\
   Recommendation.decision
     (generateRecommendation (outcomes_with 7.999 2.001 7.999 7.999)) = STRONG_BUY) /\
  ((weighted_sum 5.999 4.001 5.999 5.999 <? 6) = true /\
   Recommendation.decision
     (generateRecommendation (outcomes_with 5.999 4.001 5.999 5.999))
   = PROCEED_WITH_CAUTION).
Proof. repeat split; vm_compute; reflexivity. Qed.

(** C2, amended.  The recommendation is a function of the investment score,
    that is of the weighted sum rounded to one decimal place, with the fixed
    thresholds 8 and 6: a rounded score of 8 or more gives STRONG BUY, one of
    6 or more and below 8 gives PROCEED WITH CAUTION, and anything else PASS.
    As a function of its argument the threshold map sends 8.0 to STRONG BUY,
    7.999 to PROCEED WITH CAUTION and 5.999 to PASS. *)
Theorem C2_recommendation_from_rounded_score (results : AgentResults) :
  let s := calculateInvestmentScore results in
  Recommendation.decision (generateRecommendation results) = tier_of_score s /\
  ((8 <=? s) = true ->
   Recommendation.decision (generateRecommendation results) = STRONG_BUY) /\
  ((6 <=? s) = true -> (s <? 8) = true ->
   Recommendation.decision (generateRecommendation results) = PROCEED_WITH_CAUTION) /\
  ((s <? 6) = true ->
   Recommendation.decision (generateRecommendation results) = PASS) /\
  tier_of_score 8.0 = STRONG_BUY /\
  tier_of_score 7.999 = PROCEED_WITH_CAUTION /\
  tier_of_score 5.999 = PASS.
Proof.
  assert (T : Recommendation.decision (generateRecommendation results)
              = tier_of_score (calculateInvestmentScore results)).
  { unfold generateRecommendation, tier_of_score.
    destruct (8 <=? calculateInvestmentScore results); [reflexivity|].
    destruct (6 <=? calculateInvestmentScore results); reflexivity. }
  cbv zeta. rewrite T. unfold tier_of_score.
  split; [reflexivity|].
  split; [now intros ->|].
  split.
  { intros H6 H8. apply FloatOrder.ltb_not_leb in H8. now rewrite H8, H6. }
  split.
  { intros H6.
    assert (H8 : (8 <=? calculateInvestmentScore results) = false).
    { destruct (8 <=? calculateInvestmentScore results) eqn:E; [|reflexivity].
      pose proof (FloatOrder.leb_ltb_trans _ _ _ E H6) as F.
      vm_compute in F. discriminate. }
    apply FloatOrder.ltb_not_leb in H6. now rewrite H8, H6. }
  repeat split; vm_compute; reflexivity.
Qed.

(** C2 at three sets of outcomes, one for each tier. *)
Lemma C2_recommendation_witness :
  Recommendation.decision
    (generateRecommendation (outcomes_with 8 2 8 8)) = STRONG_BUY /\
  Recommendation.decision
    (generateRecommendation (outcomes_with 7 3 7 7)) = PROCEED_WITH_CAUTION /\
  Recommendation.decision
    (generateRecommendation (outcomes_with 5 5 5 5)) = PASS.
Proof.
  split; [|split].
  - apply (proj1 (proj2 (C2_recommendation_from_rounded_score (outcomes_with 8 2 8 8)))).
    vm_compute. reflexivity.
  - apply (proj1 (proj2 (proj2
             (C2_recommendation_from_rounded_score (outcomes_with 7 3 7 7)))));
      vm_compute; reflexivity.
  - apply (proj1 (proj2 (proj2 (proj2
             (C2_recommendation_from_rounded_score (outcomes_with 5 5 5 5)))))).
    vm_compute. reflexivity.
Defined.

(** C10.  In the report that [synthesizeResults] builds, the decision of the
    recommendation is the tier that the fixed thresholds give to the report's
    own [investmentScore]: 8 or more is STRONG BUY, 6 or more is PROCEED WITH
    CAUTION, anything else is PASS.  Both members are computed from the same
    four outcomes by the same function. *)
Theorem C10_report_score_and_decision_agree (agentResults : AgentResults) :
  let report := synthesizeResults agentResults in
  Recommendation.decision (recommendation report)
  = (if 8 <=? investmentScore report then STRONG_BUY
     else if 6 <=? investmentScore report then PROCEED_WITH_CAUTION
     else PASS).
Proof.
  cbv zeta. unfold synthesizeResults. cbn [recommendation investmentScore].
  unfold generateRecommendation.
  destruct (8 <=? calculateInvestmentScore agentResults); [reflexivity|].
  destruct (6 <=? calculateInvestmentScore agentResults); reflexivity.
Qed.

End SynthesisProperties.

(** ** Sorting and the key insights *)

Module InsightProperties.
Import MultiAgentOrchestrator.

Section SortDescending.
Context {A : Type} (key : A -> Z).


Lemma insert_desc_perm (x : A) (l : list A) :
  Permutation (insert_desc key x l) (x :: l).
Proof.
  induction l as [|y l IH]; simpl.
  - apply Permutation_refl.
  - destruct (key x <? key y)%Z.
    + apply perm_trans with (y :: x :: l).
      * now apply perm_skip.
      * apply perm_swap.
    + apply Permutation_refl.
Qed.

Lemma insert_desc_sorted (x : A) (l : list A) :
  descending key l -> descending key (insert_desc key x l).
Proof.
  unfold descending. induction l as [|y l IH]; simpl; intros Hs.
  - constructor; constructor.
  - inversion Hs as [|? ? Hl Hy]; subst.
    destruct (key x <? key y)%Z eqn:E.
    + constructor; [now apply IH|].
      apply Forall_forall. intros z Hz.
      apply (Permutation_in _ (insert_desc_perm x l)) in Hz.
      destruct Hz as [<-|Hz].
      * apply Z.ltb_lt in E. lia.
      * rewrite Forall_forall in Hy. now apply Hy.
    + apply Z.ltb_ge in E.
      constructor; [exact Hs|].
      constructor; [exact E|].
      apply Forall_forall. intros z Hz.
      rewrite Forall_forall in Hy. specialize (Hy z Hz). lia.
Qed.

Lemma sort_desc_perm (l : list A) : Permutation (sort_desc key l) l.
Proof.
  induction l as [|x l IH]; simpl.
  - constructor.
  - apply perm_trans with (x :: sort_desc key l).
    + apply insert_desc_perm.
    + now apply perm_skip.
Qed.

Lemma sort_desc_sorted (l : list A) : descending key (sort_desc key l).
Proof.
  induction l as [|x l IH]; simpl.
  - constructor.
  - now apply insert_desc_sorted.
Qed.

(** In a descending list, whatever lies beyond the first [n] elements has a
    key no larger than any of the first [n]. *)
Lemma descending_firstn_skipn (n : nat) (l : list A) :
  descending key l ->
  forall a b, In a (firstn n l) -> In b (skipn n l) -> (key b <= key a)%Z.
Proof.
  unfold descending. revert l. induction n as [|n IH]; intros l Hs a b Ha Hb.
  - destruct Ha.
  - destruct l as [|x l]; [destruct Ha|].
    inversion Hs as [|? ? Hl Hx]; subst. simpl in Ha, Hb.
    destruct Ha as [<-|Ha].
    + rewrite Forall_forall in Hx. apply Hx.
      rewrite <- (firstn_skipn n l). apply in_or_app. now right.
    + now apply (IH l).
Qed.

(** The sort keeps, among elements of equal key, the order they had. *)
Lemma insert_desc_filter (p : A -> bool) (x : A) (l : list A) :
  (forall y, In y l -> p y = true -> p x = true -> key y = key x) ->
  filter p (insert_desc key x l) = filter p (x :: l).
Proof.
  induction l as [|y l IH]; intros H; [reflexivity|].
  simpl. destruct (key x <? key y)%Z eqn:E; [|reflexivity].
  simpl. rewrite IH by (intros z Hz; apply H; now right). simpl.
  pose proof (H y (or_introl eq_refl)) as Hy.
  apply Z.ltb_lt in E.
  destruct (p x), (p y); try reflexivity.
  specialize (Hy eq_refl eq_refl). lia.
Qed.

Lemma sort_desc_stable (k : Z) (l : list A) :
  filter (fun a => (key a =? k)%Z) (sort_desc key l)
  = filter (fun a => (key a =? k)%Z) l.
Proof.
  induction l as [|x l IH]; [reflexivity|].
  simpl sort_desc. rewrite insert_desc_filter.
  - simpl. now rewrite IH.
  - intros y _ Hy Hx. apply Z.eqb_eq in Hy, Hx. lia.
Qed.

End SortDescending.

(** The first elements of a descending list are descending. *)
Lemma descending_take {A : Type} (key : A -> Z) (n : nat) (l : list A) :
  descending key l -> descending key (firstn n l).
Proof.
  unfold descending. revert l. induction n as [|n IH]; intros l Hs.
  - constructor.
  - destruct l as [|x l]; [constructor|].
    inversion Hs as [|? ? Hl Hx]; subst. cbn [firstn].
    constructor; [now apply IH|].
    apply Forall_forall. intros y Hy.
    rewrite Forall_forall in Hx. apply Hx.
    rewrite <- (firstn_skipn n l). apply in_or_app. now left.
Qed.

(** What [extractKeyInsights] returns, in terms of what it collects and of
    the key it sorts by. *)
Lemma extractKeyInsights_selects (results : AgentResults) :
  let collected : list Insight :=
    (pushed (market results) ++ pushed (risk results) ++
     pushed (competitive results) ++ pushed (portfolio results))%list in
  let key := extractKeyInsights results in
  (exists omitted,
      Permutation (key ++ omitted) collected /\
      forall kept dropped,
        In kept key -> In dropped omitted ->
        (impact_or_0 dropped <= impact_or_0 kept)%Z) /\
  descending impact_or_0 key /\
  (List.length key <= 5)%nat /\
  List.length key = Nat.min 5 (List.length collected).
Proof.
  cbv zeta. unfold extractKeyInsights.
  split; [|split; [|split]].
  - eexists (skipn 5 (sort_desc impact_or_0 _)). split.
    + rewrite firstn_skipn. apply sort_desc_perm.
    + apply descending_firstn_skipn, sort_desc_sorted.
  - apply descending_take, sort_desc_sorted.
  - apply firstn_le_length.
  - rewrite length_firstn. f_equal.
    apply Permutation_length, sort_desc_perm.
Qed.

(** C7.  The key insights are drawn from the union of the [insights] lists of
    the four outcomes (a missing list counting as empty): together with the
    insights left out they make up that union.  They stand in descending
    order of their [impact] (a missing impact ranking as 0), no insight left
    out has a larger impact than one that was kept, and they are the first
    five of the union, or all of it when it holds fewer. *)
Theorem C7_key_insights_top_five (results : AgentResults) :
  let list_of (o : Outcome) : list Insight :=
    match insights o with
    | Some l => l
    | None => []
    end in
  let rank (i : Insight) : Z :=
    match impact i with
    | Some z => z
    | None => 0%Z
    end in
  let union : list Insight :=
    (list_of (market results) ++ list_of (risk results) ++
     list_of (competitive results) ++ list_of (portfolio results))%list in
  let key := extractKeyInsights results in
  (exists omitted,
      Permutation (key ++ omitted) union /\
      forall kept dropped,
        In kept key -> In dropped omitted -> (rank dropped <= rank kept)%Z) /\
  StronglySorted (fun a b => (rank b <= rank a)%Z) key /\
  (List.length key <= 5)%nat /\
  List.length key = Nat.min 5 (List.length union).
Proof.
  exact (extractKeyInsights_selects results).
Qed.

End InsightProperties.

(** ** The numeric parser *)

Module ParserProperties.



Lemma filter_string_forallb (f : ascii -> bool) (s : string) :
  string_forallb f (filter_string f s) = true.
Proof.
  induction s as [|c s IH]; simpl; [reflexivity|].
  destruct (f c) eqn:E; simpl; [now rewrite E|exact IH].
Qed.

Lemma filter_string_id (f : ascii -> bool) (s : string) :
  string_forallb f s = true -> filter_string f s = s.
Proof.
  induction s as [|c s IH]; simpl; [reflexivity|].
  intros H. apply andb_true_iff in H as [-> H]. now rewrite IH.
Qed.

Lemma strip_only_dots (s : string) :
  has_digit s = false ->
  string_forallb (Ascii.eqb ".") (strip_non_numeric s) = true.
Proof.
  unfold has_digit, strip_non_numeric. rewrite negb_false_iff.
  induction s as [|c s IH]; cbn [string_forallb filter_string]; [reflexivity|].
  intros H. apply andb_true_iff in H as [Hc H].
  apply negb_true_iff in Hc. rewrite Hc. cbn [orb].
  destruct (Ascii.eqb c ".") eqn:E; [|now apply IH].
  cbn [string_forallb]. rewrite Ascii.eqb_sym, E. now apply IH.
Qed.

Lemma take_digits_dots (acc len : Z) (s : string) :
  string_forallb (Ascii.eqb ".") s = true -> take_digits acc len s = (acc, len, s).
Proof.
  destruct s as [|c s]; [reflexivity|]. cbn [string_forallb].
  intros H. apply andb_true_iff in H as [Hc _].
  apply Ascii.eqb_eq in Hc. subst c. reflexivity.
Qed.

Lemma parseFloat_dots (s : string) :
  string_forallb (Ascii.eqb ".") s = true -> parseFloat s = NaN.
Proof.
  destruct s as [|c s]; [reflexivity|].
  cbn [string_forallb]. intros H. apply andb_true_iff in H as [Hc H].
  apply Ascii.eqb_eq in Hc. subst c.
  unfold parseFloat.
  replace (skip_white_space (String.length (String "." s)) (String "." s))
    with (String "." s) by reflexivity.
  cbv iota beta. unfold parse_unsigned_decimal.
  replace (String.prefix "Infinity" (String "." s)) with false by reflexivity.
  replace (take_digits 0 0 (String "." s)) with (0%Z, 0%Z, String "." s) by reflexivity.
  cbv iota beta. rewrite (take_digits_dots 0 0 s H). reflexivity.
Qed.

(** A character that is not the first of [needle] everywhere in [s]. *)
Lemma includes_absent (c0 : ascii) (rest s : string) :
  string_forallb (fun c => negb (Ascii.eqb c c0)) s = true ->
  includes s (String c0 rest) = false.
Proof.
  induction s as [|c s IH]; [reflexivity|].
  cbn [string_forallb includes String.prefix]. intros H.
  apply andb_true_iff in H as [Hc H].
  apply negb_true_iff, Ascii.eqb_neq in Hc.
  destruct (ascii_dec c0 c) as [E|_]; [congruence|].
  now apply IH.
Qed.

Lemma string_forallb_impl (f g : ascii -> bool) (s : string) :
  (forall c, f c = true -> g c = true) ->
  string_forallb f s = true -> string_forallb g s = true.
Proof.
  intros Hfg. induction s as [|c s IH]; [reflexivity|].
  cbn [string_forallb]. intros H. apply andb_true_iff in H as [Hc H].
  now rewrite (Hfg c Hc), IH.
Qed.

(** The characters of a numeric string: the ten digits and the dot. *)
Lemma numeric_char_cases (c : ascii) :
  numeric_char c = true ->
  In c ["0"; "1"; "2"; "3"; "4"; "5"; "6"; "7"; "8"; "9"; "."]%char.
Proof.
  destruct c as [[] [] [] [] [] [] [] []]; intros H; try discriminate H; simpl; tauto.
Qed.

Lemma toLowerCase_numeric (s : string) : numeric s = true -> toLowerCase s = s.
Proof.
  unfold numeric. induction s as [|c s IH]; [reflexivity|].
  cbn [string_forallb]. intros H. apply andb_true_iff in H as [Hc H].
  apply numeric_char_cases in Hc. simpl in Hc.
  repeat destruct Hc as [<-|Hc]; try contradiction;
    cbn [toLowerCase]; rewrite (IH H); reflexivity.
Qed.

Lemma includes_numeric (c0 : ascii) (rest s : string) :
  numeric_char c0 = false -> numeric s = true -> includes s (String c0 rest) = false.
Proof.
  intros H0 H. apply includes_absent.
  revert H. apply string_forallb_impl. intros c Hc.
  apply negb_true_iff, Ascii.eqb_neq. intros ->. congruence.
Qed.

Local Open Scope float_scope.

Lemma parseNumeric_no_digit (s : string) :
  has_digit s = false -> RiskAssessmentAgent.parseNumeric (Some s) = 0.
Proof.
  intros H. unfold RiskAssessmentAgent.parseNumeric.
  destruct (negb (truthy_string s)); [reflexivity|].
  rewrite (parseFloat_dots _ (strip_only_dots s H)).
  change (or_number NaN 0) with 0.
  repeat match goal with
         | |- context [if ?c then _ else _] => destruct c
         end; reflexivity.
Qed.

Lemma parseNumeric_numeric (s : string) :
  numeric s = true ->
  RiskAssessmentAgent.parseNumeric (Some s) = or_number (parseFloat s) 0.
Proof.
  intros H. unfold RiskAssessmentAgent.parseNumeric.
  destruct s as [|c s]; [reflexivity|].
  cbn [truthy_string negb].
  unfold strip_non_numeric. fold numeric_char.
  rewrite (filter_string_id numeric_char _ H), (toLowerCase_numeric _ H).
  rewrite (includes_numeric "c" "r" _ eq_refl H).
  rewrite (includes_numeric "l" EmptyString _ eq_refl H).
  now rewrite (includes_numeric "k" EmptyString _ eq_refl H).
Qed.

(** What the risk agent's [parseNumeric] does on every input.  It returns 0
    for an absent value, for the empty string and for every string without a
    digit.  A string of digits and dots is mapped to the number it denotes
    (its leading decimal, or 0 when it has none), with no multiplier.  The
    multipliers are [10^7] for crore, [10^5] for lakh and [10^3] for [k],
    crore being looked for first: the rupee amount of 14 lakh is 1400000, and
    ["$100K MRR"] is 100000.  The market and portfolio agents hold the same
    function. *)
Lemma parseNumeric_total (s : string) :
  RiskAssessmentAgent.parseNumeric None = 0 /\
  RiskAssessmentAgent.parseNumeric (Some EmptyString) = 0 /\
  (has_digit s = false -> RiskAssessmentAgent.parseNumeric (Some s) = 0) /\
  (numeric s = true ->
   RiskAssessmentAgent.parseNumeric (Some s) = or_number (parseFloat s) 0) /\
  RiskAssessmentAgent.parseNumeric (Some "₹14L") = 1400000 /\
  RiskAssessmentAgent.parseNumeric (Some "$100K MRR") = 100000 /\
  RiskAssessmentAgent.parseNumeric (Some "2 Cr") = 20000000 /\
  RiskAssessmentAgent.parseNumeric (Some "5 lakh crore") = 50000000 /\
  RiskAssessmentAgent.parseNumeric (Some "1400000") = 1400000 /\
  MarketResearchAgent.parseFinancialValue = RiskAssessmentAgent.parseNumeric /\
  PortfolioImpactAgent.parseNumeric = RiskAssessmentAgent.parseNumeric.
Proof.
  split; [reflexivity|]. split; [reflexivity|].
  split; [apply parseNumeric_no_digit|].
  split; [apply parseNumeric_numeric|].
  repeat split; vm_compute; reflexivity.
Qed.

(** C5.  The parser that the risk, market and portfolio agents share has no
    multiplier for a million.  ["$2M"], which is the funding amount of the
    document agent's own default record, reads as 2 and not as 2000000 in
    each of the three; the competitive agent's copy of the same function has
    the line that the others miss, and reads 2000000.  The unit letters are
    looked for anywhere in the text, so that ["12 employees"], which holds an
    [l], reads as 1200000.  The document agent's [parseNumericValue] is a
    parser of its own, which counts in thousands. *)
Theorem C5_parseNumeric_misses_million :
  fundingAmount DocumentAgent.getDefaultStructuredData = Some "$2M" /\
  RiskAssessmentAgent.parseNumeric (Some "$2M") = 2 /\
  RiskAssessmentAgent.parseNumeric (Some "$2M") <> 2000000 /\
  MarketResearchAgent.parseFinancialValue (Some "$2M") = 2 /\
  PortfolioImpactAgent.parseNumeric (Some "$2M") = 2 /\
  CompetitiveIntelligenceAgent.parseNumeric (Some "$2M") = 2000000 /\
  RiskAssessmentAgent.parseNumeric (Some "12 employees") = 1200000 /\
  CompetitiveIntelligenceAgent.parseNumeric (Some "12 employees") = 1200000 /\
  DocumentAgent.parseNumericValue (Some "$2M") = 2000 /\
  DocumentAgent.parseNumericValue (Some "₹14L") = 14.
Proof.
  split; [reflexivity|]. split; [vm_compute; reflexivity|].
  split; [apply float_neq; vm_compute; reflexivity|].
  repeat split; vm_compute; reflexivity.
Qed.

End ParserProperties.

(** ** The scores and confidences of the four agents *)

Module AgentProperties.
Local Open Scope float_scope.


Lemma Math_max_1_in_range (y : number) :
  is_nan y = false -> (y <=? 10) = true -> in_range 1 10 (Math_max 1 y) = true.
Proof.
  intros Hn Hy. unfold Math_max, in_range.
  change (is_nan 1) with false. rewrite Hn. cbn [orb].
  destruct (1 <? y) eqn:E1.
  - now rewrite (FloatOrder.ltb_leb _ _ E1), Hy.
  - destruct (y <? 1); reflexivity.
Qed.

Lemma clamp_in_range (x : number) :
  is_nan x = false -> in_range 1 10 (Math_max 1 (Math_min 10 x)) = true.
Proof.
  intros Hn. unfold Math_min.
  change (is_nan 10) with false. rewrite Hn. cbn [orb].
  destruct (10 <? x) eqn:E1; [reflexivity|].
  destruct (x <? 10) eqn:E2.
  - apply Math_max_1_in_range; [exact Hn|]. now apply FloatOrder.ltb_leb.
  - change (is_neg_zero 10) with false. cbv iota.
    apply Math_max_1_in_range; [exact Hn|].
    apply FloatOrder.not_ltb_leb; [reflexivity|exact Hn|exact E1].
Qed.

Lemma clamp_nan (x : number) :
  is_nan x = true -> Math_max 1 (Math_min 10 x) = NaN.
Proof.
  intros Hn. unfold Math_min. rewrite Hn, orb_true_r. reflexivity.
Qed.


Ltac case_conditions :=
  repeat match goal with
         | |- context [if ?c then _ else _] => destruct c
         end.

(** *** The market agent *)

Lemma calculateMarketScore_in_range (ranks : MarketResearchAgent.Rankings)
    (credibility overallPosition : string) :
  In (MarketResearchAgent.r_revenue ranks) percentiles ->
  In (MarketResearchAgent.r_growthRate ranks) percentiles ->
  in_range 1 10
    (MarketResearchAgent.calculateMarketScore ranks credibility overallPosition) = true.
Proof.
  destruct ranks as [a t g e]. unfold MarketResearchAgent.calculateMarketScore.
  cbn [MarketResearchAgent.r_revenue MarketResearchAgent.r_growthRate].
  unfold percentiles. intros Ha Hg.
  destruct (String.eqb overallPosition "Leader"), (String.eqb overallPosition "Strong"),
    (String.eqb credibility "Credible");
    simpl in Ha, Hg;
    repeat destruct Ha as [<-|Ha]; try contradiction;
    repeat destruct Hg as [<-|Hg]; try contradiction;
    vm_compute; reflexivity.
Qed.

Lemma market_calculateConfidence_in_range (industryData : IndustryData.t)
    (benchmarkAnalysis : MarketResearchAgent.BenchmarkAnalysis) :
  let c := MarketResearchAgent.calculateConfidence industryData benchmarkAnalysis in
  in_range 0 100 c = true /\ (50 <? c) = true.
Proof.
  unfold MarketResearchAgent.calculateConfidence.
  destruct (IndustryData.confidence industryData) as [c|];
    [destruct (String.eqb c "high")|];
    destruct (0 <? MarketResearchAgent.peerComparisons benchmarkAnalysis)%nat;
    split; vm_compute; reflexivity.
Qed.

Lemma performBenchmarking_rankings (d : CompanyRecord) (i : IndustryData.t)
    (b : MarketResearchAgent.BenchmarkAnalysis) :
  MarketResearchAgent.performBenchmarking d i = Some b ->
  In (MarketResearchAgent.r_revenue (MarketResearchAgent.rankings b))
    percentiles /\
  In (MarketResearchAgent.r_growthRate (MarketResearchAgent.rankings b))
    percentiles.
Proof.
  unfold MarketResearchAgent.performBenchmarking.
  destruct (IndustryData.primaryIndustry i) as [primary|]; [|discriminate].
  match goal with
  | |- context [match ?x with pair _ _ => _ end] => destruct x as [benchmarks peers]
  end.
  intros H.
  match type of H with
  | Some ?x = _ => assert (Hb : b = x) by (now injection H)
  end.
  rewrite Hb.
  cbn [MarketResearchAgent.rankings MarketResearchAgent.r_revenue MarketResearchAgent.r_growthRate].
  split; apply MarketResearchAgentProperties.calculatePercentile_values.
Qed.

Lemma market_analysis_in_range (reply : option IndustryData.t) (d : CompanyRecord)
    (o : Outcome) :
  MarketResearchAgent.analysis reply d = Some o ->
  exists s c,
    score o = Some s /\ in_range 1 10 s = true /\
    confidence o = Some c /\ in_range 0 100 c = true /\ (50 <? c) = true.
Proof.
  unfold MarketResearchAgent.analysis.
  destruct (MarketResearchAgent.performBenchmarking d _) as [b|] eqn:Eb; [|discriminate].
  destruct (IndustryData.primaryIndustry _) as [primary|] eqn:Ep; [|discriminate].
  intros H.
  match type of H with
  | Some ?x = _ => assert (Ho : o = x) by (now injection H)
  end.
  rewrite Ho. cbn [score confidence].
  eexists _, _. split; [reflexivity|]. split.
  - apply calculateMarketScore_in_range;
      apply (performBenchmarking_rankings _ _ _ Eb).
  - split; [reflexivity|].
    apply market_calculateConfidence_in_range.
Qed.

(** *** The risk agent *)

Lemma calculateFinalRiskScore_in_range (probability : number)
    (redFlags : list RedFlag.t) :
  let r := RiskAssessmentAgent.calculateFinalRiskScore probability redFlags in
  r = NaN \/ in_range 1 10 r = true.
Proof.
  unfold RiskAssessmentAgent.calculateFinalRiskScore. cbv zeta.
  match goal with
  | |- Math_max 1 (Math_min 10 ?x) = _ \/ _ => destruct (is_nan x) eqn:E
  end.
  - left. now apply clamp_nan.
  - right. now apply clamp_in_range.
Qed.

(** *** The competitive agent *)

Lemma calculateCompetitiveScore_in_range (d : CompanyRecord) :
  in_range 1 10
    (CompetitiveIntelligenceAgent.calculateCompetitiveScore
       (CompetitiveIntelligenceAgent.analyzeDifferentiation d)
       (CompetitiveIntelligenceAgent.assessMarketPositioning d)) = true.
Proof.
  unfold CompetitiveIntelligenceAgent.analyzeDifferentiation,
    CompetitiveIntelligenceAgent.assessMarketPositioning.
  case_conditions; vm_compute; reflexivity.
Qed.

(** *** The portfolio agent *)

Lemma calculatePortfolioScore_in_range (expectedValue sharpeRatio : number) :
  in_range 1 10
    (PortfolioImpactAgent.calculatePortfolioScore expectedValue sharpeRatio) = true.
Proof.
  unfold PortfolioImpactAgent.calculatePortfolioScore.
  case_conditions; vm_compute; reflexivity.
Qed.


(** *** The four agents together *)


Lemma analysis_of_in_range (sv : Services) (d : CompanyRecord) (t : task) (o : Outcome) :
  analysis_of sv t d = Some o ->
  exists s c,
    score_of t o = Some s /\
    (s = NaN /\ t = Risk \/ in_range 1 10 s = true) /\
    confidence o = Some c /\ in_range 0 100 c = true /\
    (fallback_confidence t <? c)%float = true.
Proof.
  destruct t; cbn [analysis_of score_of fallback_confidence].
  - intros H. destruct (market_analysis_in_range _ _ _ H) as (s & c & Hs & Rs & Hc & Rc & Lc).
    exists s, c. auto.
  - unfold RiskAssessmentAgent.analysis. intros H.
    match type of H with
    | Some ?x = _ => assert (Ho : o = x) by (now injection H)
    end.
    rewrite Ho. cbn [riskScore confidence].
    eexists _, _. split; [reflexivity|]. split.
    + destruct (calculateFinalRiskScore_in_range
                  (RiskAssessmentAgent.predictSuccessProbability d)
                  (RiskAssessmentAgent.detectRedFlags d)) as [E|E]; auto.
    + repeat split; reflexivity.
  - unfold CompetitiveIntelligenceAgent.analysis.
    destruct (research_raises sv); [discriminate|]. intros H.
    match type of H with
    | Some ?x = _ => assert (Ho : o = x) by (now injection H)
    end.
    rewrite Ho. cbn [score confidence].
    eexists _, _. split; [reflexivity|]. split.
    + right. apply calculateCompetitiveScore_in_range.
    + repeat split; reflexivity.
  - unfold PortfolioImpactAgent.analysis.
    destruct (PortfolioImpactAgent.classifyIndustry d) as [exitData isFoodTech].
    intros H.
    match type of H with
    | Some ?x = _ => assert (Ho : o = x) by (now injection H)
    end.
    rewrite Ho. cbn [score confidence].
    eexists _, _. split; [reflexivity|]. split.
    + right. apply calculatePortfolioScore_in_range.
    + repeat split; reflexivity.
Qed.

Lemma agent_result_cases (sv : Services) (d : CompanyRecord) (t : task) :
  analysis_of sv t d = Some (agent_result sv t d) \/
  analysis_of sv t d = None /\ agent_result sv t d = fallback_of t d.
Proof.
  destruct t; cbn [analysis_of agent_result fallback_of];
    unfold MarketResearchAgent.analyze, RiskAssessmentAgent.analyze,
      CompetitiveIntelligenceAgent.analyze, PortfolioImpactAgent.analyze;
    match goal with
    | |- context [match ?x with Some _ => _ | None => _ end] => destruct x
    end; auto.
Qed.

Lemma fallback_of_fields (d : CompanyRecord) (t : task) :
  score_of t (fallback_of t d) = Some 5 /\
  confidence (fallback_of t d) = Some (fallback_confidence t).
Proof. destruct t; split; reflexivity. Qed.

(** Every agent returns an outcome with a confidence in [0, 100] and a score;
    the score lies in [1, 10], except that the risk agent's may be [NaN]. *)
Lemma agent_result_in_range (sv : Services) (d : CompanyRecord) (t : task) :
  exists s c,
    score_of t (agent_result sv t d) = Some s /\
    (s = NaN /\ t = Risk \/ in_range 1 10 s = true) /\
    confidence (agent_result sv t d) = Some c /\ in_range 0 100 c = true.
Proof.
  destruct (agent_result_cases sv d t) as [H|[_ ->]].
  - destruct (analysis_of_in_range _ _ _ _ H) as (s & c & Hs & Rs & Hc & Rc & _).
    exists s, c. auto.
  - destruct (fallback_of_fields d t) as [Hs Hc].
    exists 5, (fallback_confidence t). rewrite Hs, Hc.
    repeat split; auto. destruct t; reflexivity.
Qed.



(** C3, at the failing input.  On a record whose growth rate is a text that
    does not start with a number, the risk agent's analysis completes without
    raising and reports [NaN] as its risk score, which is not in [1, 10]; the
    confidence it reports is 85. *)
Theorem C3_risk_score_is_NaN_on_unreadable_growth :
  RiskAssessmentAgent.parseGrowthRate (Some "Not specified") = NaN /\
  RiskAssessmentAgent.analysis growth_not_specified <> None /\
  riskScore (RiskAssessmentAgent.analyze growth_not_specified) = Some NaN /\
  riskScore (RiskAssessmentAgent.analyze scenario_without_growth) = Some NaN /\
  confidence (RiskAssessmentAgent.analyze growth_not_specified) = Some 85 /\
  in_range 1 10 NaN = false.
Proof.
  repeat split; try (vm_compute; reflexivity).
  discriminate.
Qed.

(** C4, as stated, fails.  The outcome that the orchestrator substitutes when
    an agent's [analyze] rejects has a score but no confidence and no insight
    at all (and for the risk task its score is [riskScore], [score] being
    absent); the market agent's own fallback has the confidence 50 and an
    empty insight list. *)
Lemma C4_fallback_counterexample :
  confidence (snd (MultiAgentOrchestrator.run Market Rejected)) = None /\
  insights (snd (MultiAgentOrchestrator.run Market Rejected)) = Some [] /\
  confidence (snd (MultiAgentOrchestrator.run Risk Rejected)) = None /\
  score (snd (MultiAgentOrchestrator.run Risk Rejected)) = None /\
  confidence (MarketResearchAgent.getFallbackAnalysis emptyRecord) = Some 50 /\
  insights (MarketResearchAgent.getFallbackAnalysis emptyRecord) = Some [].
Proof. repeat split; reflexivity. Qed.

(** C4, amended.  Whatever happens to an agent, its wrapper delivers an
    outcome, and that outcome has a score ([riskScore] for the risk task).
    There are two fallbacks.  An agent that fails internally returns its own
    fallback: score 5 and a confidence lowered to a constant, 50 for the
    market agent and 60 for the other three, which is below the confidence
    of every completed analysis; the fallbacks of the risk, competitive and
    portfolio agents carry exactly one insight, of type ["fallback"] and
    impact 5.  With these agents every delivered outcome therefore has a
    confidence as well.  Only when an agent's [analyze] itself rejects does
    the orchestrator substitute its own fallback, which has score 5, no
    confidence and an empty insight list. *)
Theorem C4_delivered_outcomes (sv : Services) (d : CompanyRecord) (t : task) :
  (forall s : settled,
      s = Rejected \/ s = the_agents sv t d ->
      exists v, score_of t (snd (MultiAgentOrchestrator.run t s)) = Some v) /\
  MultiAgentOrchestrator.run t (the_agents sv t d)
  = (MultiAgentOrchestrator.completed, agent_result sv t d) /\
  (exists v c,
      score_of t (agent_result sv t d) = Some v /\
      confidence (agent_result sv t d) = Some c) /\
  score_of t (fallback_of t d) = Some 5 /\
  confidence (fallback_of t d) = Some (fallback_confidence t) /\
  (forall o, analysis_of sv t d = Some o ->
             exists c, confidence o = Some c /\ (fallback_confidence t <? c)%float = true) /\
  (t <> Market ->
   exists i, insights (fallback_of t d) = Some [i] /\
             type i = "fallback" /\ impact i = Some 5%Z) /\
  score_of t (snd (MultiAgentOrchestrator.run t Rejected)) = Some 5 /\
  confidence (snd (MultiAgentOrchestrator.run t Rejected)) = None /\
  insights (snd (MultiAgentOrchestrator.run t Rejected)) = Some [].
Proof.
  split.
  { intros s [->| ->].
    - exists 5. destruct t; reflexivity.
    - destruct (agent_result_in_range sv d t) as (v & c & Hv & _).
      now exists v. }
  split; [reflexivity|].
  split.
  { destruct (agent_result_in_range sv d t) as (v & c & Hv & _ & Hc & _).
    now exists v, c. }
  split; [apply fallback_of_fields|].
  split; [apply fallback_of_fields|].
  split.
  { intros o H.
    destruct (analysis_of_in_range _ _ _ _ H) as (v & c & _ & _ & Hc & _ & Lc).
    now exists c. }
  split.
  { intros Ht. destruct t; [congruence| | |]; eexists; repeat split; reflexivity. }
  destruct t; repeat split; reflexivity.
Qed.

(** C4 at the risk agent's fallback and at the market agent's analysis of an
    empty record. *)
Lemma C4_delivered_outcomes_witness :
  (exists i, insights (fallback_of Risk growth_not_specified) = Some [i] /\
             type i = "fallback" /\ impact i = Some 5%Z) /\
  (exists c, confidence (agent_result
                           {| industry_reply := None; research_raises := false;
                              parameters_json := false |} Market emptyRecord) = Some c /\
             (50 <? c)%float = true).
Proof.
  split.
  - apply (proj1 (proj2 (proj2 (proj2 (proj2 (proj2 (proj2
             (C4_delivered_outcomes
                {| industry_reply := None; research_raises := false;
                   parameters_json := false |} growth_not_specified Risk)))))))).
    discriminate.
  - apply (proj1 (proj2 (proj2 (proj2 (proj2 (proj2
             (C4_delivered_outcomes
                {| industry_reply := None; research_raises := false;
                   parameters_json := false |} emptyRecord Market))))))).
    reflexivity.
Defined.

End AgentProperties.

(** ** The runs of [analyzeStartup] *)

Module OrchestratorProperties.
Import MultiAgentOrchestrator AgentProperties.

Lemma task_eq_dec (a b : task) : {a = b} + {a <> b}.
Proof. decide equality. Qed.

Lemma get_set_slot_same (t : task) (o : Outcome) (s : Slots) :
  get_slot t (set_slot t o s) = Some o.
Proof. destruct t; reflexivity. Qed.

Lemma get_set_slot_other (t t' : task) (o : Outcome) (s : Slots) :
  t <> t' -> get_slot t (set_slot t' o s) = get_slot t s.
Proof. destruct t, t'; intros H; try reflexivity; congruence. Qed.

Lemma promise_all_some (s : Slots) (results : AgentResults) :
  promise_all s = Some results <->
  get_slot Market s = Some (market results) /\
  get_slot Risk s = Some (risk results) /\
  get_slot Competitive s = Some (competitive results) /\
  get_slot Portfolio s = Some (portfolio results).
Proof.
  destruct s as [m r c p], results as [m' r' c' p']; unfold promise_all; simpl.
  split.
  - destruct m, r, c, p; intros [= -> -> -> ->]; auto.
  - intros (-> & -> & -> & ->). reflexivity.
Qed.

Section AnalyzeStartup.
Context {DocumentInput DocumentData : Type}.
Context (document_analyze : DocumentInput -> DocumentData).
Context (agent_analyze : task -> DocumentData -> settled).

Local Abbreviation step := (step document_analyze agent_analyze).
Local Abbreviation exec := (exec document_analyze agent_analyze).
Local Abbreviation delivered := (delivered agent_analyze).
Local Abbreviation results_of := (results_of document_analyze agent_analyze).
Local Abbreviation bundle_of := (bundle_of document_analyze agent_analyze).
Local Abbreviation World := (World DocumentInput DocumentData).
Local Abbreviation Run := (Run DocumentInput DocumentData).
Local Abbreviation event := (event DocumentInput).
Local Abbreviation invariant := (run_invariant document_analyze agent_analyze).

Lemma set_run_same (i : nat) (r : Run) (f : nat -> Run) : set_run i r f i = r.
Proof. unfold set_run. now rewrite Nat.eqb_refl. Qed.

Lemma set_run_other (i j : nat) (r : Run) (f : nat -> Run) :
  j <> i -> set_run i r f j = f j.
Proof. unfold set_run. intros H. apply Nat.eqb_neq in H. now rewrite H. Qed.

Lemma exec_app (tr1 tr2 : list event) (w : World) :
  exec (tr1 ++ tr2) w =
  match exec tr1 w with
  | Some w' => exec tr2 w'
  | None => None
  end.
Proof.
  revert w. induction tr1 as [|e tr1 IH]; intros w; simpl; [reflexivity|].
  destruct (step e w); [apply IH|reflexivity].
Qed.


(** An event leaves the local variables of every other run as they are. *)
Lemma step_other_run (e : event) (w w' : World) (j : nat) :
  step e w = Some w' -> j <> run_of e -> runs w' j = runs w j.
Proof.
  destruct e as [i file|i|i t|i]; simpl; intros H Hj.
  - destruct (at_phase (runs w i)); try discriminate.
    injection H as <-. simpl. now apply set_run_other.
  - destruct (at_phase (runs w i)); try discriminate.
    destruct (documentFile (runs w i)); try discriminate.
    injection H as <-. simpl. now apply set_run_other.
  - destruct (at_phase (runs w i)); try discriminate.
    destruct (documentData (runs w i)); try discriminate.
    destruct (get_slot t (slots (runs w i))); try discriminate.
    injection H as <-. simpl. now apply set_run_other.
  - destruct (at_phase (runs w i)); try discriminate.
    destruct (promise_all (slots (runs w i))); try discriminate.
    injection H as <-. simpl. now apply set_run_other.
Qed.


Lemma step_invariant (e : event) (w w' : World) :
  step e w = Some w' ->
  (forall j, invariant (runs w j)) -> forall j, invariant (runs w' j).
Proof.
  intros H Inv j.
  destruct (Nat.eq_dec j (run_of e)) as [->|Hj];
    [|rewrite (step_other_run _ _ _ _ H Hj); apply Inv].
  specialize (Inv (run_of e)).
  destruct e as [i file|i|i t|i]; simpl in *.
  - destruct (at_phase (runs w i)); try discriminate.
    injection H as <-. simpl. rewrite set_run_same.
    unfold run_invariant. simpl. now exists file.
  - unfold run_invariant in Inv.
    destruct (at_phase (runs w i)); try discriminate.
    destruct Inv as (file & Hf & Hd & Hs & Hr). rewrite Hf in *.
    injection H as <-. simpl. rewrite set_run_same.
    unfold run_invariant. simpl. exists file. rewrite Hs.
    repeat split; auto.
    intros t. left. destruct t; reflexivity.
  - unfold run_invariant in Inv.
    destruct (at_phase (runs w i)); try discriminate.
    destruct Inv as (file & Hf & Hd & Hs & Hr). rewrite Hd in *.
    destruct (get_slot t (slots (runs w i))) eqn:Et; try discriminate.
    injection H as <-. simpl. rewrite set_run_same.
    unfold run_invariant. simpl. exists file.
    repeat split; auto.
    intros t'. destruct (task_eq_dec t' t) as [->|Ht].
    + right. now rewrite get_set_slot_same.
    + rewrite (get_set_slot_other _ _ _ _ Ht). apply Hs.
  - unfold run_invariant in Inv.
    destruct (at_phase (runs w i)); try discriminate.
    destruct Inv as (file & Hf & Hd & Hs & Hr).
    destruct (promise_all (slots (runs w i))) as [results|] eqn:Ep; try discriminate.
    injection H as <-. simpl. rewrite set_run_same.
    unfold run_invariant. simpl. exists file.
    assert (E : results = results_of file).
    { apply promise_all_some in Ep. destruct Ep as (Hm & Hr' & Hc & Hp).
      destruct (Hs Market) as [X|X]; rewrite X in Hm; [discriminate|].
      destruct (Hs Risk) as [Y|Y]; rewrite Y in Hr'; [discriminate|].
      destruct (Hs Competitive) as [Z|Z]; rewrite Z in Hc; [discriminate|].
      destruct (Hs Portfolio) as [V|V]; rewrite V in Hp; [discriminate|].
      destruct results as [m r c p]. cbn [market risk competitive portfolio] in *.
      unfold MultiAgentOrchestrator.results_of. congruence. }
    subst results. repeat split; auto.
Qed.

Lemma exec_invariant (trace : list event) (w w' : World) :
  exec trace w = Some w' ->
  (forall j, invariant (runs w j)) -> forall j, invariant (runs w' j).
Proof.
  revert w. induction trace as [|e trace IH]; simpl; intros w H Inv.
  - now injection H as <-.
  - destruct (step e w) as [w1|] eqn:E; [|discriminate].
    apply (IH w1 H). now apply (step_invariant e w).
Qed.

Lemma constructor_invariant (j : nat) :
  invariant (runs (@constructor DocumentInput DocumentData) j).
Proof. reflexivity. Qed.

(** A slot is filled by the settlement of its own agent in its own run and
    by nothing else. *)
Lemma step_slot_origin (e : event) (w w' : World) (i : nat) (t : task) :
  step e w = Some w' ->
  get_slot t (slots (runs w' i)) <> None ->
  get_slot t (slots (runs w i)) <> None \/ e = AgentSettled i t.
Proof.
  intros H Hs.
  destruct (Nat.eq_dec i (run_of e)) as [->|Hi];
    [|left; now rewrite <- (step_other_run _ _ _ _ H Hi)].
  destruct e as [j file|j|j t'|j]; simpl in *.
  - destruct (at_phase (runs w j)); try discriminate.
    injection H as <-. simpl in Hs. rewrite set_run_same in Hs. simpl in Hs.
    destruct t; now elim Hs.
  - destruct (at_phase (runs w j)); try discriminate.
    destruct (documentFile (runs w j)); try discriminate.
    injection H as <-. simpl in Hs. rewrite set_run_same in Hs. now left.
  - destruct (at_phase (runs w j)); try discriminate.
    destruct (documentData (runs w j)); try discriminate.
    destruct (get_slot t' (slots (runs w j))) eqn:Et; try discriminate.
    injection H as <-. simpl in Hs. rewrite set_run_same in Hs. simpl in Hs.
    destruct (task_eq_dec t t') as [->|Ht]; [now right|].
    left. now rewrite (get_set_slot_other _ _ _ _ Ht) in Hs.
  - destruct (at_phase (runs w j)); try discriminate.
    destruct (promise_all (slots (runs w j))); try discriminate.
    injection H as <-. simpl in Hs. rewrite set_run_same in Hs. now left.
Qed.

Lemma exec_slot_origin (trace : list event) (w w' : World) (i : nat) (t : task) :
  exec trace w = Some w' ->
  get_slot t (slots (runs w' i)) <> None ->
  get_slot t (slots (runs w i)) <> None \/ In (AgentSettled i t) trace.
Proof.
  revert w. induction trace as [|e trace IH]; simpl; intros w H Hs.
  - injection H as <-. now left.
  - destruct (step e w) as [w1|] eqn:E; [|discriminate].
    destruct (IH w1 H Hs) as [H1|H1]; [|now right; right].
    destruct (step_slot_origin _ _ _ _ _ E H1) as [H0|H0]; [now left|].
    right. left. now symmetry.
Qed.

(** A run's file is the one it was called with. *)
Lemma step_file_origin (e : event) (w w' : World) (i : nat) (file : DocumentInput) :
  step e w = Some w' ->
  documentFile (runs w' i) = Some file ->
  documentFile (runs w i) = Some file \/ e = Call i file.
Proof.
  intros H Hf.
  destruct (Nat.eq_dec i (run_of e)) as [->|Hi];
    [|left; now rewrite <- (step_other_run _ _ _ _ H Hi)].
  destruct e as [j file'|j|j t'|j]; simpl in *.
  - destruct (at_phase (runs w j)); try discriminate.
    injection H as <-. simpl in Hf. rewrite set_run_same in Hf. simpl in Hf.
    right. congruence.
  - destruct (at_phase (runs w j)); try discriminate.
    destruct (documentFile (runs w j)); try discriminate.
    injection H as <-. simpl in Hf. rewrite set_run_same in Hf. now left.
  - destruct (at_phase (runs w j)); try discriminate.
    destruct (documentData (runs w j)); try discriminate.
    destruct (get_slot t' (slots (runs w j))); try discriminate.
    injection H as <-. simpl in Hf. rewrite set_run_same in Hf. now left.
  - destruct (at_phase (runs w j)); try discriminate.
    destruct (promise_all (slots (runs w j))); try discriminate.
    injection H as <-. simpl in Hf. rewrite set_run_same in Hf. now left.
Qed.

Lemma exec_file_origin (trace : list event) (w w' : World) (i : nat)
    (file : DocumentInput) :
  exec trace w = Some w' ->
  documentFile (runs w' i) = Some file ->
  documentFile (runs w i) = Some file \/ In (Call i file) trace.
Proof.
  revert w. induction trace as [|e trace IH]; simpl; intros w H Hf.
  - injection H as <-. now left.
  - destruct (step e w) as [w1|] eqn:E; [|discriminate].
    destruct (IH w1 H Hf) as [H1|H1]; [|now right; right].
    destruct (step_file_origin _ _ _ _ _ E H1) as [H0|H0]; [now left|].
    right. left. now symmetry.
Qed.

(** The agents of one run settle one after the other, in any order without
    repetition, and each settlement fills its slot. *)
Lemma exec_settle (i : nat) (doc : DocumentData) (order : list task) (w : World) :
  at_phase (runs w i) = TasksInFlight ->
  documentData (runs w i) = Some doc ->
  NoDup order ->
  (forall t, In t order -> get_slot t (slots (runs w i)) = None) ->
  exists w',
    exec (map (AgentSettled i) order) w = Some w' /\
    at_phase (runs w' i) = TasksInFlight /\
    documentData (runs w' i) = Some doc /\
    documentFile (runs w' i) = documentFile (runs w i) /\
    (forall t, In t order -> get_slot t (slots (runs w' i)) = Some (delivered doc t)) /\
    (forall t, ~ In t order ->
               get_slot t (slots (runs w' i)) = get_slot t (slots (runs w i))).
Proof.
  revert w. induction order as [|t order IH]; intros w Hp Hd Hn Hs.
  - exists w. simpl. repeat split; auto. intros t [].
  - inversion Hn as [|? ? Ht Hn']; subst.
    cbn [map MultiAgentOrchestrator.exec MultiAgentOrchestrator.step].
    rewrite Hp, Hd, (Hs t (or_introl eq_refl)).
    set (w1' := {| analysisStatus := _; runs := _ |}).
    assert (Hr : runs w1' i =
                 {| at_phase := TasksInFlight;
                    documentFile := documentFile (runs w i);
                    documentData := Some doc;
                    slots := set_slot t (snd (run t (agent_analyze t doc)))
                               (slots (runs w i));
                    returned := None |}).
    { unfold w1'. cbn [runs]. apply set_run_same. }
    destruct (IH w1') as (w' & He & Hp' & Hd' & Hf' & Hin & Hout).
    + now rewrite Hr.
    + now rewrite Hr.
    + exact Hn'.
    + intros t' Ht'. rewrite Hr. cbn [slots].
      rewrite get_set_slot_other; [apply Hs; now right|].
      intros ->. contradiction.
    + exists w'. split; [exact He|]. split; [exact Hp'|]. split; [exact Hd'|].
      split; [now rewrite Hf', Hr|]. split.
      * intros t' [<-|Ht']; [|now apply Hin].
        rewrite (Hout t Ht), Hr. cbn [slots]. apply get_set_slot_same.
      * intros t' Ht'. rewrite Hout by (intros X; apply Ht'; now right).
        rewrite Hr. cbn [slots]. apply get_set_slot_other.
        intros ->. apply Ht'. now left.
Qed.

(** A call whose agents settle in any order runs to its end and returns the
    bundle of its file. *)
Lemma exec_run_trace (i : nat) (file : DocumentInput) (order : list task) (w : World) :
  at_phase (runs w i) = NotCalled ->
  Permutation order all_tasks ->
  exists w',
    exec (run_trace i file order) w = Some w' /\
    at_phase (runs w' i) = Returned /\
    returned (runs w' i) = Some (bundle_of file).
Proof.
  intros Hp Hperm. unfold run_trace.
  cbn [MultiAgentOrchestrator.exec MultiAgentOrchestrator.step]. rewrite Hp.
  set (w1 := {| analysisStatus := all_status processing; runs := _ |}).
  assert (H1 : runs w1 i =
               {| at_phase := DocumentInFlight; documentFile := Some file;
                  documentData := None; slots := no_slots; returned := None |})
    by apply set_run_same.
  rewrite H1. cbn [at_phase documentFile slots].
  set (w2 := {| analysisStatus := _; runs := _ |}).
  assert (H2 : runs w2 i =
               {| at_phase := TasksInFlight; documentFile := Some file;
                  documentData := Some (document_analyze file);
                  slots := no_slots; returned := None |})
    by apply set_run_same.
  destruct (exec_settle i (document_analyze file) order w2) as
    (w3 & He & Hp3 & Hd3 & Hf3 & Hin & _).
  - now rewrite H2.
  - now rewrite H2.
  - apply (Permutation_NoDup (Permutation_sym Hperm)).
    repeat constructor; simpl; intuition discriminate.
  - intros t _. rewrite H2. destruct t; reflexivity.
  - rewrite exec_app, He.
    cbn [MultiAgentOrchestrator.exec MultiAgentOrchestrator.step]. rewrite Hp3.
    assert (Hall : promise_all (slots (runs w3 i)) = Some (results_of file)).
    { apply promise_all_some. unfold MultiAgentOrchestrator.results_of.
      cbn [market risk competitive portfolio].
      repeat split; apply Hin; apply (Permutation_in _ (Permutation_sym Hperm));
        simpl; auto. }
    rewrite Hall. eexists. split; [reflexivity|].
    cbn [runs]. rewrite set_run_same. split; reflexivity.
Qed.

Lemma reachable_invariant (trace : list event) (w : World) :
  exec trace constructor = Some w -> forall j, invariant (runs w j).
Proof.
  intros H. apply (exec_invariant trace constructor w H).
  intros j. reflexivity.
Qed.

Lemma file_called (trace : list event) (w : World) (i : nat) (file : DocumentInput) :
  exec trace constructor = Some w ->
  documentFile (runs w i) = Some file -> In (Call i file) trace.
Proof.
  intros H Hf.
  destruct (exec_file_origin trace constructor w i file H Hf) as [H0|H0];
    [discriminate H0|exact H0].
Qed.

Lemma agents_settled (trace : list event) (w : World) (i : nat) (t : task) :
  exec trace constructor = Some w ->
  get_slot t (slots (runs w i)) <> None -> In (AgentSettled i t) trace.
Proof.
  intros H Hs.
  destruct (exec_slot_origin trace constructor w i t H Hs) as [H0|H0]; [|exact H0].
  now destruct t; elim H0.
Qed.

(** Once a call has returned, no event touches its local variables. *)
Lemma step_returned (e : event) (w w' : World) (i : nat) :
  step e w = Some w' -> at_phase (runs w i) = Returned -> runs w' i = runs w i.
Proof.
  intros H Ph.
  destruct (Nat.eq_dec i (run_of e)) as [->|Hi];
    [|now apply (step_other_run e w w')].
  destruct e; cbn [run_of MultiAgentOrchestrator.step] in *;
    rewrite Ph in H; discriminate.
Qed.

Lemma exec_returned (trace : list event) (w w' : World) (i : nat) :
  exec trace w = Some w' -> at_phase (runs w i) = Returned -> runs w' i = runs w i.
Proof.
  revert w. induction trace as [|e trace IH]; simpl; intros w H Ph.
  - now injection H as <-.
  - destruct (step e w) as [w1|] eqn:E; [|discriminate].
    pose proof (step_returned e w w1 i E Ph) as R.
    rewrite (IH w1 H); [exact R|]. now rewrite R.
Qed.

(** The step taken when [Promise.all] resolves. *)
Lemma step_all_settled (i : nat) (w w' : World) :
  step (AllSettled i) w = Some w' ->
  (forall t, get_slot t (slots (runs w i)) <> None) /\
  at_phase (runs w' i) = Returned /\
  documentFile (runs w' i) = documentFile (runs w i).
Proof.
  cbn [MultiAgentOrchestrator.step].
  destruct (at_phase (runs w i)); try discriminate.
  destruct (promise_all (slots (runs w i))) as [results|] eqn:Pa; [|discriminate].
  intros H. injection H as <-. cbn [runs]. rewrite set_run_same.
  repeat split.
  apply promise_all_some in Pa. destruct Pa as (Hm & Hr & Hc & Hp).
  intros t. destruct t; congruence.
Qed.

(** C6.  In every interleaving of the events of any number of calls, the
    synthesis of a run (the step taken when [Promise.all] resolves) comes
    after the settlement of each of that run's four agents; it cannot be taken
    while a slot is still empty; and it works on exactly the four outcomes
    delivered for the run's own document.  Whatever the order in which the
    four agents settle, the run reaches its synthesis and returns the same
    bundle. *)
Theorem C6_synthesis_after_all_four (i : nat) (file : DocumentInput)
    (order : list task) (before after : list event) (w : World) :
  (exec (before ++ AllSettled i :: after) constructor = Some w ->
   (forall t, In (AgentSettled i t) before) /\
   exists file', In (Call i file') before /\
                 returned (runs w i) = Some (bundle_of file')) /\
  (forall w0 t, get_slot t (slots (runs w0 i)) = None ->
                step (AllSettled i) w0 = None) /\
  (Permutation order all_tasks ->
   exists w', exec (run_trace i file order) constructor = Some w' /\
              returned (runs w' i) = Some (bundle_of file)).
Proof.
  split; [|split].
  - intros H. rewrite exec_app in H.
    destruct (exec before constructor) as [w1|] eqn:E1; [|discriminate].
    cbn [MultiAgentOrchestrator.exec] in H.
    destruct (step (AllSettled i) w1) as [w2|] eqn:E2; [|discriminate].
    destruct (step_all_settled i w1 w2 E2) as (Hslots & Ph2 & Hfile).
    split.
    + intros t. apply (agents_settled before w1 i t E1), Hslots.
    + pose proof (step_invariant _ _ _ E2 (reachable_invariant _ _ E1) i) as Inv.
      unfold run_invariant in Inv. rewrite Ph2 in Inv.
      destruct Inv as (file' & Hf & _ & Hr).
      exists file'. split.
      * apply (file_called before w1 i file' E1). now rewrite <- Hfile.
      * now rewrite (exec_returned after w2 w i H Ph2).
  - intros w0 t Ht.
    destruct (step (AllSettled i) w0) as [w'|] eqn:E; [|reflexivity].
    destruct (step_all_settled i w0 w' E) as (Hslots & _). now elim (Hslots t).
  - intros Hperm.
    destruct (exec_run_trace i file order constructor) as (w' & He & _ & Hr);
      [reflexivity|exact Hperm|].
    now exists w'.
Qed.

(** C9, amended.  However the events of several calls on one orchestrator
    interleave, the bundle a call returns is the bundle of the file it was
    called with: its four outcomes and its report are computed from its own
    document and from nothing of any other call.  (What the calls do share is
    the orchestrator's status record, which every bundle refers to.) *)
Theorem C9_runs_keep_their_own_outcomes (trace : list event) (w : World)
    (i : nat) (b : Bundle) :
  exec trace constructor = Some w ->
  returned (runs w i) = Some b ->
  exists file,
    In (Call i file) trace /\
    rawData b = results_of file /\
    synthesizedReport b = synthesizeResults (results_of file) /\
    forall w' : World, agentStatus w' b = analysisStatus w'.
Proof.
  intros H Hb.
  pose proof (reachable_invariant trace w H i) as Inv.
  unfold run_invariant in Inv.
  destruct (at_phase (runs w i)).
  - rewrite Inv in Hb. discriminate.
  - destruct Inv as (file & _ & _ & _ & Hr). congruence.
  - destruct Inv as (file & _ & _ & _ & Hr). congruence.
  - destruct Inv as (file & Hf & _ & Hr).
    exists file. split; [now apply (file_called trace w)|].
    assert (b = bundle_of file) as -> by congruence.
    repeat split.
Qed.

End AnalyzeStartup.

(** *** The orchestrator over the agents of this repository *)





(** C9, as stated, fails: the per-task status record is mutable state shared
    by all calls on an orchestrator, and each returned bundle refers to it.
    A call that runs alone returns with every status [completed].  When a
    second call starts while the first is in flight, the first returns with
    the status of its document and market agents reading [processing],
    although both had completed for it: they were reset by the second call. *)
Lemma C9_shared_status_counterexample :
  match exec document_agent (orchestrated_agents no_service)
          (run_trace 0 first_file all_tasks) constructor with
  | Some w =>
      match returned (runs w 0) with
      | Some b => agentStatus w b = all_status completed
      | None => False
      end
  | None => False
  end /\
  match exec document_agent (orchestrated_agents no_service)
          overlapping_calls constructor with
  | Some w =>
      match returned (runs w 0) with
      | Some b =>
          agentStatus w b =
          {| st_document := processing; st_market := processing;
             st_risk := completed; st_competitive := completed;
             st_portfolio := completed |}
      | None => False
      end
  | None => False
  end.
Proof. split; vm_compute; reflexivity. Qed.

(** C6 at a run whose agents settle in the order portfolio, market,
    competitive, risk. *)
Lemma C6_synthesis_witness :
  (forall t,
      In (AgentSettled 0 t)
         [Call 0 first_file; DocumentSettled 0; AgentSettled 0 Portfolio;
          AgentSettled 0 Market; AgentSettled 0 Competitive; AgentSettled 0 Risk]) /\
  (exists w',
      exec document_agent (orchestrated_agents no_service)
        (run_trace 0 first_file [Portfolio; Market; Competitive; Risk]) constructor
      = Some w' /\
      returned (runs w' 0)
      = Some (bundle_of document_agent (orchestrated_agents no_service) first_file)).
Proof.
  split.
  - destruct (exec document_agent (orchestrated_agents no_service)
                (run_trace 0 first_file [Portfolio; Market; Competitive; Risk])
                constructor) as [w|] eqn:E; [|vm_compute in E; discriminate E].
    apply (proj1 (proj1 (C6_synthesis_after_all_four document_agent
                           (orchestrated_agents no_service) 0 first_file []
                           [Call 0 first_file; DocumentSettled 0;
                            AgentSettled 0 Portfolio; AgentSettled 0 Market;
                            AgentSettled 0 Competitive; AgentSettled 0 Risk]
                           [] w) E)).
  - apply (proj2 (proj2 (C6_synthesis_after_all_four document_agent
                           (orchestrated_agents no_service) 0 first_file
                           [Portfolio; Market; Competitive; Risk] [] []
                           constructor))).
    apply perm_trans with [Market; Portfolio; Competitive; Risk];
      [apply perm_swap|].
    apply perm_skip.
    apply perm_trans with [Competitive; Portfolio; Risk];
      [apply perm_swap|].
    apply perm_trans with [Competitive; Risk; Portfolio];
      [apply perm_skip, perm_swap|].
    apply perm_trans with [Risk; Competitive; Portfolio]; [apply perm_swap|].
    apply Permutation_refl.
Defined.

(** C9 at the first of two overlapping calls. *)
Lemma C9_own_outcomes_witness :
  exists file,
    In (Call 0 file) overlapping_calls /\
    rawData (bundle_of document_agent (orchestrated_agents no_service) first_file)
    = results_of document_agent (orchestrated_agents no_service) file /\
    synthesizedReport
      (bundle_of document_agent (orchestrated_agents no_service) first_file)
    = synthesizeResults
        (results_of document_agent (orchestrated_agents no_service) file) /\
    forall w' : World CompanyRecord DocumentResult,
      agentStatus w'
        (bundle_of document_agent (orchestrated_agents no_service) first_file)
      = analysisStatus w'.
Proof.
  destruct (exec document_agent (orchestrated_agents no_service)
              overlapping_calls constructor) as [w|] eqn:E;
    [|vm_compute in E; discriminate E].
  apply (C9_runs_keep_their_own_outcomes document_agent
           (orchestrated_agents no_service) overlapping_calls w 0 _ E).
  revert E. unfold overlapping_calls.
  cbn [MultiAgentOrchestrator.exec MultiAgentOrchestrator.step
       constructor runs at_phase documentFile documentData slots set_run
       Nat.eqb not_called get_slot set_slot no_slots promise_all
       s_market s_risk s_competitive s_portfolio].
  intros E. injection E as <-. reflexivity.
Defined.

End OrchestratorProperties.

(** ** The synthesis of a whole run *)

Module RunProperties.
Import MultiAgentOrchestrator OrchestratorProperties InsightProperties.




(** C7 at the eleven insights of a run: five are kept, of impacts 9, 7, 7, 7
    and 6, in descending order. *)
Lemma C7_key_insights_witness :
  List.length (extractKeyInsights run_results) = 5%nat /\
  map impact (extractKeyInsights run_results)
  = [Some 9; Some 7; Some 7; Some 7; Some 6]%Z /\
  StronglySorted
    (fun a b =>
       (match impact b with Some z => z | None => 0 end
        <= match impact a with Some z => z | None => 0 end)%Z)
    (extractKeyInsights run_results).
Proof.
  split; [|split].
  - rewrite (proj2 (proj2 (proj2 (C7_key_insights_top_five run_results)))).
    reflexivity.
  - vm_compute. reflexivity.
  - exact (proj1 (proj2 (C7_key_insights_top_five run_results))).
Defined.

End RunProperties.

(** * Further properties of the code *)

(** ** Comparisons with [NaN] *)

Module NaNProperties.
Local Open Scope float_scope.

Lemma ltb_nan_l (x : number) : (NaN <? x) = false.
Proof. rewrite FloatOrder.ltb_cmp. reflexivity. Qed.

Lemma ltb_nan_r (x : number) : (x <? NaN) = false.
Proof.
  rewrite FloatOrder.ltb_cmp. unfold cmp.
  replace (Prim2SF NaN) with S754_nan by reflexivity.
  destruct (Prim2SF x); reflexivity.
Qed.

Lemma leb_nan_l (x : number) : (NaN <=? x) = false.
Proof. rewrite FloatOrder.leb_cmp. reflexivity. Qed.

Lemma leb_nan_r (x : number) : (x <=? NaN) = false.
Proof.
  rewrite FloatOrder.leb_cmp. unfold cmp.
  replace (Prim2SF NaN) with S754_nan by reflexivity.
  destruct (Prim2SF x); reflexivity.
Qed.

End NaNProperties.

(** ** Case analysis on the conditions of a function *)

Module CaseAnalysis.

(** Membership in a list of numbers, decided by evaluation. *)
Ltac one_of :=
  cbn [In]; repeat first [left; vm_compute; reflexivity | right].

(** One case for each outcome of each condition that is not yet decided. *)
Ltac split_conditions :=
  repeat match goal with
         | |- context [if ?c then _ else _] =>
             lazymatch c with
             | true => fail
             | false => fail
             | _ => destruct c
             end
         end.

(** The comparisons between two constants, evaluated. *)
Ltac eval_closed_tests :=
  repeat match goal with
         | |- context [PrimFloat.ltb ?a ?b] =>
             let v := eval vm_compute in (PrimFloat.ltb a b) in
             lazymatch v with
             | true => change (PrimFloat.ltb a b) with true
             | false => change (PrimFloat.ltb a b) with false
             end
         end.

End CaseAnalysis.

(** ** Head counts and months *)

Module CountProperties.
Import CaseAnalysis.
Local Open Scope float_scope.

Lemma filter_string_app (f : ascii -> bool) (a b : string) :
  filter_string f (a ++ b) = (filter_string f a ++ filter_string f b)%string.
Proof.
  induction a as [|c a IH]; [reflexivity|].
  cbn [String.append filter_string]. destruct (f c); cbn [String.append]; now rewrite IH.
Qed.

Lemma strip_non_digits_none (s : string) :
  has_digit s = false -> strip_non_digits s = EmptyString.
Proof.
  unfold has_digit, strip_non_digits. rewrite negb_false_iff.
  induction s as [|c s IH]; [reflexivity|].
  cbn [string_forallb filter_string]. intros H.
  apply andb_true_iff in H as [Hc H]. apply negb_true_iff in Hc.
  rewrite Hc. now apply IH.
Qed.

(** Whatever stands between two groups of digits is lost. *)
Lemma parseCount_app (a between b : string) :
  has_digit between = false ->
  parseCount (Some (a ++ between ++ b)) = parseCount (Some (a ++ b)).
Proof.
  intros H. unfold parseCount, strip_non_digits.
  rewrite !filter_string_app.
  fold (strip_non_digits between). now rewrite (strip_non_digits_none between H).
Qed.

(** X1.  The market agent and the risk agent read a runway and a team size
    by dropping every character that is not a digit and reading what is left
    as one number.  Whatever stands between two groups of digits is lost: a
    text that gives a range counts, in the market agent's company metrics, in
    the risk agent's red flags and in its assessments, as the digits of its
    two ends put together.  A runway of "3-5 months" is 35 months, and raises
    no red flag. *)
Theorem parseCount_joins_digits (a between b : string) (d : CompanyRecord)
    (industryData : IndustryData.t) :
  has_digit between = false ->
  let joined := parseCount (Some (a ++ b)) in
  (runway d = Some (a ++ between ++ b) ->
   (forall analysis,
       MarketResearchAgent.performBenchmarking d industryData = Some analysis ->
       MarketResearchAgent.m_runway (MarketResearchAgent.companyMetrics analysis)
       = joined) /\
   flagged "Runway under 6 months" (RiskAssessmentAgent.detectRedFlags d)
   = (joined <? 6) /\
   listed "Critical runway shortage"
     (RiskArea.risks
        (RiskAssessmentAgent.financial_area (RiskAssessmentAgent.assessFinancialRisks d)))
   = (joined <? 6)) /\
  (teamSize d = Some (a ++ between ++ b) ->
   (forall analysis,
       MarketResearchAgent.performBenchmarking d industryData = Some analysis ->
       MarketResearchAgent.m_teamSize (MarketResearchAgent.companyMetrics analysis)
       = joined) /\
   flagged "Very small team" (RiskAssessmentAgent.detectRedFlags d) = (joined <? 3) /\
   listed "Very small team"
     (RiskArea.risks
        (RiskAssessmentAgent.team_area (RiskAssessmentAgent.assessTeamRisks d)))
   = (joined <? 3)).
Proof.
  intros H. cbv zeta.
  rewrite <- (parseCount_app a between b H).
  split; intros <-.
  - split; [|split].
    + intros analysis. unfold MarketResearchAgent.performBenchmarking.
      destruct (IndustryData.primaryIndustry industryData); [|discriminate].
      cbv zeta. split_conditions; intros [= <-]; reflexivity.
    + unfold RiskAssessmentAgent.detectRedFlags. cbv zeta.
      destruct (marketSize d); split_conditions; reflexivity.
    + unfold RiskAssessmentAgent.assessFinancialRisks. cbv zeta.
      split_conditions; reflexivity.
  - split; [|split].
    + intros analysis. unfold MarketResearchAgent.performBenchmarking.
      destruct (IndustryData.primaryIndustry industryData); [|discriminate].
      cbv zeta. split_conditions; intros [= <-]; reflexivity.
    + unfold RiskAssessmentAgent.detectRedFlags. cbv zeta.
      destruct (marketSize d); split_conditions; reflexivity.
    + unfold RiskAssessmentAgent.assessTeamRisks. cbv zeta.
      split_conditions; reflexivity.
Qed.

(** X1 at a runway given as a range of three to five months, which is
    shorter than six months but reads as 35. *)
Lemma parseCount_range_witness :
  flagged "Runway under 6 months" (RiskAssessmentAgent.detectRedFlags runway_as_range)
  = false /\
  listed "Critical runway shortage"
    (RiskArea.risks
       (RiskAssessmentAgent.financial_area
          (RiskAssessmentAgent.assessFinancialRisks runway_as_range)))
  = false /\
  parseCount (Some "35 months") = 35%float.
Proof.
  pose proof (proj1 (parseCount_joins_digits "3" "-" "5 months" runway_as_range
                       (MarketResearchAgent.classifyIndustry None) eq_refl) eq_refl)
    as [_ [Hflag Hrisk]].
  split; [|split].
  - rewrite Hflag. vm_compute. reflexivity.
  - rewrite Hrisk. vm_compute. reflexivity.
  - vm_compute. reflexivity.
Defined.

End CountProperties.

(** ** The market agent's benchmarking *)

Module MarketBenchmarkProperties.
Import MarketResearchAgent CaseAnalysis.
Local Open Scope float_scope.

(** X2.  The efficiency score is 40, 60, 80 or 95 for every set of company
    metrics, also when the revenue, the team size or the runway is not a
    number.  It is at least 80 when the runway exceeds twelve months and at
    most 80 otherwise. *)
Theorem calculateEfficiencyScore_values (metrics : CompanyMetrics) :
  In (calculateEfficiencyScore metrics) [40; 60; 80; 95] /\
  (if 12 <? m_runway metrics
   then 80 <=? calculateEfficiencyScore metrics
   else calculateEfficiencyScore metrics <=? 80) = true.
Proof.
  unfold calculateEfficiencyScore.
  destruct (12 <? m_runway metrics), (6 <? m_runway metrics),
    (100000 <? m_revenue metrics / Math_max (m_teamSize metrics) 1);
    split; try (vm_compute; reflexivity); one_of.
Qed.

(** X3.  The market score gives nine points for the position to a
    ["Leader"] and five to every other position: [determineMarketPosition]
    calls the second rank ["Strong Performer"], which the score's test for
    ["Strong"] never matches, so the seven points are never given. *)
Theorem strong_performer_scores_as_average (ranks : Rankings) (credibility : string) :
  let position := determineMarketPosition ranks in
  In position ["Leader"; "Strong Performer"; "Average"; "Below Average"] /\
  (position = "Leader" \/
   calculateMarketScore ranks credibility position =
   calculateMarketScore ranks credibility "Below Average").
Proof.
  unfold determineMarketPosition. cbv zeta.
  repeat match goal with
         | |- context [if ?c then _ else _] => destruct c
         end; split; cbn [In]; auto.
Qed.

(** X4.  The market agent returns between one and four
    insights, in descending order of impact.  The last one is always the
    market-opportunity insight, of impact 6; the others have a larger
    impact. *)
Theorem generateMarketInsights_shape (d : CompanyRecord) (b : BenchmarkAnalysis) :
  let l := generateMarketInsights d b in
  descending impact_or_0 l /\
  (1 <= List.length l <= 4)%nat /\
  exists front i,
    l = (front ++ [i])%list /\
    type i = "opportunity" /\ impact i = Some 6%Z /\
    Forall (fun j => (6 < impact_or_0 j)%Z) front.
Proof.
  cbv zeta. split; [apply InsightProperties.sort_desc_sorted|].
  unfold generateMarketInsights.
  destruct (75 <? r_revenue (rankings b)),
    (0.20 <? m_growthRate (companyMetrics b)),
    (60 <? r_efficiency (rankings b));
    cbn [app sort_desc fold_right insert_desc impact_or_0 impact Z.ltb Z.compare
         Pos.compare Pos.compare_cont List.length];
    (split; [lia|]);
    match goal with
    | |- exists front i, ?l = _ /\ _ => exists (removelast l), (last l no_insight)
    end;
    cbn [removelast last app type impact];
    repeat split; repeat constructor.
Qed.

(** X5.  For an industry that is neither food nor data, as
    is the classification used when the generative service fails, the
    benchmarks are the general seed-stage figures, which hold no growth rate:
    whatever growth the company reports, its growth percentile is 50 and its
    trajectory is rated conservative. *)
Theorem general_industry_ignores_growth (d : CompanyRecord) (industryData : IndustryData.t)
    (primary : string) :
  IndustryData.primaryIndustry industryData = Some primary ->
  general_industry primary = true ->
  general_industry "Technology" = true /\
  exists b,
    performBenchmarking d industryData = Some b /\
    relevantBenchmarks b = seedStage_benchmarks /\
    peerComparisons b = 0%nat /\
    r_growthRate (rankings b) = 50 /\
    currentTrajectory (analyzeGrowthTrajectory b) = "Conservative growth".
Proof.
  intros Hp Hg. split; [reflexivity|].
  unfold general_industry in Hg. cbv zeta in Hg.
  apply negb_true_iff in Hg.
  repeat (apply orb_false_iff in Hg; destruct Hg as [Hg ?]).
  unfold performBenchmarking. rewrite Hp.
  repeat match goal with
         | H : includes _ _ = false |- _ => rewrite H; clear H
         end.
  cbn [orb]. cbv iota beta zeta.
  eexists. split; [reflexivity|].
  cbn [relevantBenchmarks peerComparisons rankings r_growthRate].
  repeat split.
  unfold analyzeGrowthTrajectory.
  cbn [relevantBenchmarks avgGrowthRate seedStage_benchmarks to_number].
  change (NaN * 1.5) with NaN.
  now rewrite !NaNProperties.ltb_nan_l.
Qed.

(** X5 at a company that reports 80% growth in fintech. *)
Lemma general_industry_witness :
  exists b,
    performBenchmarking growing_fintech fintech = Some b /\
    r_growthRate (rankings b) = 50 /\
    currentTrajectory (analyzeGrowthTrajectory b) = "Conservative growth".
Proof.
  destruct (general_industry_ignores_growth growing_fintech fintech "Fintech"
              eq_refl eq_refl) as [_ (b & Hb & _ & _ & Hr & Ht)].
  exists b. auto.
Defined.

Lemma ltb_trans_false (a x b : number) :
  (a <? x) = true -> (x <? b) = true -> (a <? b) = false -> False.
Proof.
  intros H1 H2 H3.
  rewrite (FloatOrder.ltb_leb_trans a x b H1 (FloatOrder.ltb_leb x b H2)) in H3.
  discriminate.
Qed.

(** X6.  In the competitive position that the market agent
    derives, no metric is both a strength and a weakness: a strong revenue
    performance is never listed with a below-average revenue, nor an
    exceptional growth rate with slow growth.  The weakness of a short runway
    is listed exactly when the growth analysis names the limited runway as a
    scaling challenge. *)
Theorem competitive_position_is_coherent (b : BenchmarkAnalysis) :
  let strengths := fst (analyzeCompetitivePosition b) in
  let weaknesses := snd (analyzeCompetitivePosition b) in
  listed "Strong revenue performance" strengths
  && listed "Below-average revenue" weaknesses = false /\
  listed "Exceptional growth rate" strengths && listed "Slow growth" weaknesses = false /\
  listed "Short runway" weaknesses
  = listed "Limited runway for scaling" (scalingChallenges (analyzeGrowthTrajectory b)).
Proof.
  cbv zeta. unfold analyzeCompetitivePosition. cbv zeta. cbn [fst snd].
  split; [|split].
  - destruct (70 <? r_revenue (rankings b)) eqn:E1,
      (r_revenue (rankings b) <? 30) eqn:E2;
      try (exfalso; now apply (ltb_trans_false _ _ _ E1 E2));
      split_conditions; reflexivity.
  - destruct (75 <? r_growthRate (rankings b)) eqn:E1,
      (r_growthRate (rankings b) <? 25) eqn:E2;
      try (exfalso; now apply (ltb_trans_false _ _ _ E1 E2));
      split_conditions; reflexivity.
  - unfold analyzeGrowthTrajectory, identifyScalingChallenges. cbv zeta.
    split_conditions; reflexivity.
Qed.

End MarketBenchmarkProperties.

(** ** The risk agent's assessments *)

Module RiskAssessmentProperties.
Import RiskAssessmentAgent CaseAnalysis.
Local Open Scope float_scope.

Lemma financial_score_values (d : CompanyRecord) :
  In (RiskArea.score (financial_area (assessFinancialRisks d))) [3; 4; 5; 6; 7; 8; 9; 10].
Proof.
  unfold assessFinancialRisks. cbv zeta.
  split_conditions; one_of.
Qed.

Lemma team_score_values (d : CompanyRecord) :
  In (RiskArea.score (team_area (assessTeamRisks d))) [3; 4; 5; 6; 7].
Proof.
  unfold assessTeamRisks. cbv zeta.
  split_conditions; one_of.
Qed.

Lemma market_score_values (d : CompanyRecord) :
  In (RiskArea.score (market_area (assessMarketRisks d))) [5; 6; 7].
Proof.
  unfold assessMarketRisks. cbv zeta.
  destruct (marketSize d); split_conditions; one_of.
Qed.

Lemma execution_score_values (d : CompanyRecord) :
  In (calculateExecutionRisk d) [5; 6; 7].
Proof.
  unfold calculateExecutionRisk. cbv zeta.
  split_conditions; one_of.
Qed.

(** X7.  Each of the four sub-scores of the risk breakdown is a whole
    number in a range of its own, for every record: 3 to 10 for the financial
    risk, 3 to 7 for the team risk, 5 to 7 for the market risk and for the
    execution risk.  None of them is ever [NaN], and none reaches the lower
    bound 1 of the clamp. *)
Theorem risk_breakdown_values (d : CompanyRecord) :
  In (RiskArea.score (financial_area (assessFinancialRisks d))) [3; 4; 5; 6; 7; 8; 9; 10] /\
  In (RiskArea.score (team_area (assessTeamRisks d))) [3; 4; 5; 6; 7] /\
  In (RiskArea.score (market_area (assessMarketRisks d))) [5; 6; 7] /\
  In (calculateExecutionRisk d) [5; 6; 7].
Proof.
  repeat split.
  - apply financial_score_values.
  - apply team_score_values.
  - apply market_score_values.
  - apply execution_score_values.
Qed.

(** X8.  The overall risk score, the weighted mean of the
    financial, team and market sub-scores rounded to one decimal, lies between
    3.6 and 8.2 for every record. *)
Theorem overallRiskScore_in_range (d : CompanyRecord) :
  in_range 3.6 8.2 (overallRiskScore d) = true.
Proof.
  unfold overallRiskScore, calculateOverallRisk.
  pose proof (financial_score_values d) as Hf.
  pose proof (team_score_values d) as Ht.
  pose proof (market_score_values d) as Hm.
  cbn [In] in Hf, Ht, Hm.
  repeat destruct Hf as [<-|Hf]; try contradiction;
    repeat destruct Ht as [<-|Ht]; try contradiction;
    repeat destruct Hm as [<-|Hm]; try contradiction;
    vm_compute; reflexivity.
Qed.

(** X9.  In the financial and in the team assessment the score moves
    off its baseline of 5 only together with an entry in one of the two
    lists: an assessment that lists no risk scores at most 5, and one that
    lists no mitigator scores at least 5. *)
Theorem score_follows_lists (d : CompanyRecord) :
  let f := financial_area (assessFinancialRisks d) in
  let t := team_area (assessTeamRisks d) in
  (RiskArea.risks f = [] -> (RiskArea.score f <=? 5) = true) /\
  (RiskArea.mitigators f = [] -> (5 <=? RiskArea.score f) = true) /\
  (RiskArea.risks t = [] -> (RiskArea.score t <=? 5) = true) /\
  (RiskArea.mitigators t = [] -> (5 <=? RiskArea.score t) = true).
Proof.
  cbv zeta. unfold assessFinancialRisks, assessTeamRisks. cbv zeta.
  repeat split; split_conditions;
    cbn [financial_area team_area clamped push_risk push_mitigator raise lower baseline
         RiskArea.risks RiskArea.mitigators RiskArea.score app];
    intros H; try discriminate H; vm_compute; reflexivity.
Qed.

(** X9 at the record without any field: its team assessment lists
    no mitigator, and scores above the baseline. *)
Lemma score_follows_lists_witness :
  (5 <=? RiskArea.score (team_area (assessTeamRisks emptyRecord))) = true.
Proof.
  apply (proj2 (proj2 (proj2 (score_follows_lists emptyRecord)))).
  reflexivity.
Defined.

(** X10.  The two assessments and the red-flag detection agree on
    the runway and on the team: the red flag for a runway under six months
    and the financial risk of a critical runway shortage are raised together,
    exactly when the months read from the runway are fewer than six, and
    likewise the red flag and the team risk of a very small team when the
    head count is below three.  A runway or a team size that is absent reads
    as zero and raises both. *)
Theorem runway_and_team_flags_agree (d : CompanyRecord) :
  flagged "Runway under 6 months" (detectRedFlags d) = (parseCount (runway d) <? 6) /\
  listed "Critical runway shortage"
    (RiskArea.risks (financial_area (assessFinancialRisks d)))
  = (parseCount (runway d) <? 6) /\
  flagged "Very small team" (detectRedFlags d) = (parseCount (teamSize d) <? 3) /\
  listed "Very small team" (RiskArea.risks (team_area (assessTeamRisks d)))
  = (parseCount (teamSize d) <? 3) /\
  parseCount None = 0.
Proof.
  unfold detectRedFlags, assessFinancialRisks, assessTeamRisks. cbv zeta.
  repeat split.
  - destruct (marketSize d); split_conditions; reflexivity.
  - split_conditions; reflexivity.
  - destruct (marketSize d); split_conditions; reflexivity.
  - split_conditions; reflexivity.
Qed.

Lemma strategy_for_type (redFlags : list RedFlag.t) (f : RedFlag.t) :
  In f redFlags ->
  In (RedFlag.type f) ["Financial"; "Growth"; "Team"; "Market"] ->
  exists s,
    In s (generateMitigationStrategies redFlags) /\
    Strategy.category s = RedFlag.type f.
Proof.
  intros Hf Ht. unfold generateMitigationStrategies. cbv zeta.
  assert (Hex : existsb (fun g => String.eqb (RedFlag.type g) (RedFlag.type f)) redFlags
                = true).
  { apply existsb_exists. exists f. split; [exact Hf|apply String.eqb_refl]. }
  cbn [In] in Ht.
  destruct Ht as [E|[E|[E|[E|[]]]]]; rewrite <- E in Hex |- *; try rewrite Hex;
    eexists;
    (split;
     [repeat (apply in_or_app; first [left; now left | right]); now left
     |reflexivity]).
Qed.

Lemma detectRedFlags_types (d : CompanyRecord) (f : RedFlag.t) :
  In f (detectRedFlags d) ->
  In (RedFlag.type f) ["Financial"; "Growth"; "Team"; "Market"].
Proof.
  unfold detectRedFlags. cbv zeta. intros H.
  repeat (apply in_app_or in H; destruct H as [H|H]);
    match type of H with
    | In _ (if ?c then _ else _) => destruct c
    end;
    cbn [In] in H; try contradiction;
    destruct H as [<-|[]]; cbn [RedFlag.type In]; auto.
Qed.

(** X11.  Whatever red flags it is given, [generateMitigationStrategies]
    returns between one and four strategies, the last of which is always the
    market strategy; for an empty list of flags it is the only one.
    Every red flag that the detection raises on a record is answered by a
    strategy of the flag's own category. *)
Theorem mitigation_covers_red_flags (redFlags : list RedFlag.t) (d : CompanyRecord) :
  let nothing := {| Strategy.category := EmptyString;
                    Strategy.priority := EmptyString;
                    Strategy.strategy := EmptyString |} in
  (1 <= List.length (generateMitigationStrategies redFlags) <= 4)%nat /\
  Strategy.category (last (generateMitigationStrategies redFlags) nothing) = "Market" /\
  map Strategy.category (generateMitigationStrategies []) = ["Market"] /\
  (forall f, In f (detectRedFlags d) ->
             exists s,
               In s (generateMitigationStrategies (detectRedFlags d)) /\
               Strategy.category s = RedFlag.type f).
Proof.
  cbv zeta. split; [|split; [|split]].
  - unfold generateMitigationStrategies. cbv zeta.
    split_conditions; cbn [app List.length]; lia.
  - unfold generateMitigationStrategies. cbv zeta.
    split_conditions; reflexivity.
  - reflexivity.
  - intros f Hf.
    apply strategy_for_type; [exact Hf|]. now apply (detectRedFlags_types d).
Qed.

(** X11 at the record without any field, whose missing runway
    raises the critical financial flag. *)
Lemma mitigation_witness :
  exists s,
    In s (generateMitigationStrategies (detectRedFlags emptyRecord)) /\
    Strategy.category s = "Financial".
Proof.
  apply (proj2 (proj2 (proj2 (mitigation_covers_red_flags [] emptyRecord)))
           {| RedFlag.type := "Financial"; RedFlag.severity := "Critical";
              RedFlag.flag := "Runway under 6 months" |}).
  vm_compute. left. reflexivity.
Defined.

(** X12.  The confidence of the success prediction is
    the share of the seven features that are positive.  Market timing, unit
    economics and customer traction are positive for every record, so the
    confidence is never below 43: it is 43, 57, 71, 86 or 100. *)
Theorem prediction_confidence_values (d : CompanyRecord) (riskFactors : RiskFactors.t) :
  In (SuccessPrediction.confidence (successPrediction d riskFactors))
    [43; 57; 71; 86; 100].
Proof.
  unfold successPrediction. cbv zeta. cbn [SuccessPrediction.confidence].
  unfold calculatePredictionConfidence, engineerFeatures, calculateUnitEconomicsScore.
  cbv zeta.
  generalize (parseNumeric (revenue d)) (parseNumeric (burnRate d))
    (parseNumeric (customers d)) (parseGrowthRate (growthRate d))
    (parseCount (teamSize d)) (parseCount (runway d)).
  intros revenue burn customers growth teamSize runway.
  split_conditions; cbn [filter fst List.length]; eval_closed_tests; cbv iota;
    split_conditions; one_of.
Qed.

Lemma Math_min_above (x : number) :
  is_nan x = false -> (0.9 <? x) = false -> Math_min 0.9 x = x.
Proof.
  intros En E. unfold Math_min.
  change (is_nan 0.9) with false. change (is_neg_zero 0.9) with false.
  rewrite En, E. cbn [orb]. now destruct (x <? 0.9).
Qed.

Lemma Math_max_below (x : number) :
  is_nan x = false -> (0.1 <? x) = true -> Math_max 0.1 x = x.
Proof.
  intros En E. unfold Math_max.
  change (is_nan 0.1) with false. now rewrite En, E.
Qed.

Lemma clamp_cases (x : number) :
  let r := Math_max 0.1 (Math_min 0.9 x) in
  r = NaN \/ r = 0.1 \/ r = 0.9 \/
  (r = x /\ is_nan x = false /\ (0.9 <? x) = false /\ (0.1 <? x) = true).
Proof.
  cbv zeta. destruct (is_nan x) eqn:En.
  - left. unfold Math_min. rewrite En, orb_true_r. reflexivity.
  - destruct (0.9 <? x) eqn:E9.
    + right. right. left. unfold Math_min.
      change (is_nan 0.9) with false. rewrite En, E9. reflexivity.
    + rewrite (Math_min_above x En E9).
      destruct (0.1 <? x) eqn:E1.
      * right. right. right. now rewrite (Math_max_below x En E1).
      * right. left. unfold Math_max.
        change (is_nan 0.1) with false. change (is_neg_zero 0.1) with false.
        rewrite En, E1. cbn [orb]. now destruct (x <? 0.1).
Qed.

Lemma clamp_idempotent (x : number) :
  let clamp y := Math_max 0.1 (Math_min 0.9 y) in
  clamp (clamp x) = clamp x.
Proof.
  cbv zeta.
  destruct (clamp_cases x) as [E|[E|[E|(E & En & E9 & E1)]]]; cbv zeta in E.
  - rewrite E. reflexivity.
  - rewrite E. vm_compute. reflexivity.
  - rewrite E. vm_compute. reflexivity.
  - rewrite E at 2. rewrite E.
    now rewrite (Math_min_above x En E9), (Math_max_below x En E1).
Qed.

(** X13.  When the risk factors rate neither the financial
    stress nor the market risk nor the team risk as high, as is the case for
    the factors used when the generative service fails, the risk-adjusted
    probability is the success probability itself, and the percentage that
    the prediction reports is that probability times 100, rounded. *)
Theorem no_high_factor_no_adjustment (d : CompanyRecord) (riskFactors : RiskFactors.t) :
  none_high riskFactors = true ->
  none_high (extractRiskFactors None) = true /\
  let p := successPrediction d riskFactors in
  SuccessPrediction.probability p
  = Math_round (SuccessPrediction.riskAdjustedProbability p * 100).
Proof.
  intros H. split; [reflexivity|]. cbv zeta.
  unfold successPrediction. cbv zeta.
  cbn [SuccessPrediction.probability SuccessPrediction.riskAdjustedProbability].
  unfold none_high in H. cbv zeta in H. apply negb_true_iff in H.
  apply orb_false_iff in H. destruct H as [H H3].
  apply orb_false_iff in H. destruct H as [H1 H2].
  unfold adjustForRiskFactors. cbv zeta. rewrite H1, H2, H3.
  now rewrite (clamp_idempotent _).
Qed.

(** X13 at the record without any field and the fixed risk
    factors. *)
Lemma no_adjustment_witness :
  let p := successPrediction emptyRecord (extractRiskFactors None) in
  SuccessPrediction.probability p
  = Math_round (SuccessPrediction.riskAdjustedProbability p * 100).
Proof.
  apply (no_high_factor_no_adjustment emptyRecord (extractRiskFactors None)).
  reflexivity.
Defined.

End RiskAssessmentProperties.

(** ** The competitive agent *)

Module CompetitiveProperties.
Import CompetitiveIntelligenceAgent CaseAnalysis.
Local Open Scope float_scope.

(** X14.  The competitive score of every record is one of
    ten values from 5 to 10: the base score is never lowered, and the clamp to
    [1, 10] never changes it.  No position that [assessMarketPositioning]
    assigns contains ["Leader"], so the two points for a leader are never
    given; the only position that earns a point is the growth-stage
    challenger. *)
Theorem competitive_score_values (d : CompanyRecord) :
  In (calculateCompetitiveScore (analyzeDifferentiation d) (assessMarketPositioning d))
    [5; 6; 6.5; 7; 7.5; 8; 8.5; 9; 9.5; 10] /\
  includes (assessMarketPositioning d) "Leader" = false /\
  includes (assessMarketPositioning d) "Challenger"
  = String.eqb (assessMarketPositioning d) "Growth Stage Challenger".
Proof.
  unfold analyzeDifferentiation, assessMarketPositioning. cbv zeta.
  generalize (parseNumeric (revenue d)) (parseGrowthRate (growthRate d)).
  intros revenue growth.
  split_conditions; repeat split; one_of.
Qed.

(** X15.  No threat that [analyzeThreatOpportunities] lists has the
    severity ["High"]: the immediate threats are empty and the medium-term
    threats are one or two, the last of them the market threat.  The
    recommendations therefore never include the defensive one: they are the
    growth recommendation, followed by the differentiation recommendation
    unless the differentiation is strong. *)
Theorem no_defensive_recommendation (averageFunding : number) (d : CompanyRecord) :
  let analysis := analyzeThreatOpportunities averageFunding d in
  immediateThreats analysis = [] /\
  (1 <= List.length (mediumTermThreats analysis) <= 2)%nat /\
  List.length (shortTermOpportunities analysis) = 1%nat /\
  List.length (longTermOpportunities analysis) = 1%nat /\
  map StrategicRecommendation.category (recommendations averageFunding d)
  = if (3 <=? List.length (analyzeDifferentiation d))%nat
    then ["Growth"] else ["Growth"; "Differentiation"].
Proof.
  cbv zeta. unfold recommendations, analyzeThreatOpportunities. cbv zeta.
  assert (Hrec : forall a,
            immediateThreats a = [] ->
            map StrategicRecommendation.category
              (generateStrategicRecommendations a
                 (calculateDifferentiationStrength (analyzeDifferentiation d)))
            = if (3 <=? List.length (analyzeDifferentiation d))%nat
              then ["Growth"] else ["Growth"; "Differentiation"]).
  { intros a Ha.
    unfold generateStrategicRecommendations, calculateDifferentiationStrength.
    rewrite Ha.
    generalize (List.length (analyzeDifferentiation d)). intros n.
    destruct n as [|[|[|n]]]; reflexivity. }
  destruct (parseNumeric (fundingAmount d) <? averageFunding);
    cbn [app filter Threat.severity String.eqb Ascii.eqb Bool.eqb
         immediateThreats mediumTermThreats List.length];
    (split; [reflexivity|]); (split; [lia|]);
    (split; [reflexivity|]); (split; [reflexivity|]);
    apply Hrec; reflexivity.
Qed.

End CompetitiveProperties.

(** ** The portfolio agent *)

Module PortfolioProperties.
Import PortfolioImpactAgent.
Local Open Scope float_scope.

(** X16.  The upside that the portfolio agent reports is the
    largest exit multiplier of its four scenarios, which is 1.6 for every
    company.  The return-potential insight therefore always reads "Moderate
    return expectations" and has impact 7; no insight of the portfolio agent
    has an impact above 8. *)
Theorem return_potential_is_moderate (portfolioWeight : number) (exitData : ExitData)
    (isFoodTech : bool) :
  let l := generatePortfolioInsights portfolioWeight exitData isFoodTech in
  (exists i,
     In i l /\ type i = "return-potential" /\
     insight i = [Str "Upside scenario projects "; Num 1.6; Str "x return multiple"] /\
     implication i = "Moderate return expectations" /\
     impact i = Some 7%Z) /\
  List.length l = 4%nat /\
  Forall (fun i => (6 <= impact_or_0 i <= 8)%Z) l.
Proof.
  cbv zeta. unfold generatePortfolioInsights. cbv zeta.
  change (fold_left (fun m s => Math_max m (snd s)) scenarios neg_infinity) with 1.6.
  change (5 <? 1.6) with false. cbv iota.
  destruct (5 <? portfolioWeight);
    cbn [sort_desc fold_right insert_desc impact_or_0 impact Z.ltb Z.compare
         Pos.compare Pos.compare_cont];
    (split;
     [exists {| type := "return-potential";
                insight := [Str "Upside scenario projects "; Num 1.6;
                            Str "x return multiple"];
                implication := "Moderate return expectations";
                impact := Some 7%Z |};
      split; [cbn [In]; auto|repeat split]|]);
    (split; [reflexivity|]);
    repeat constructor; cbn [impact_or_0 impact]; lia.
Qed.

(** X17.  On a record whose fields are texts or absent, when the generative
    service returns no investment parameters, the agent models an investment
    of 20000000 whatever the texts say: the portfolio score is 7 for a food
    company and 9 for any other, and depends on no financial field of the
    record. *)
Theorem portfolio_score_without_parameters (d : CompanyRecord) :
  extractInvestmentParameters false d = 20000000 /\
  score (analyze false d)
  = Some (if lower_includes (companyName d) "naario"
             || lower_includes (industry d) "food"
          then 7 else 9).
Proof.
  split; [reflexivity|].
  unfold analyze, analysis, classifyIndustry.
  destruct (lower_includes (companyName d) "naario" || lower_includes (industry d) "food");
    cbn [score extractInvestmentParameters]; vm_compute; reflexivity.
Qed.

End PortfolioProperties.

(** ** The document agent *)

Module DocumentProperties.
Import DocumentAgent CaseAnalysis.
Local Open Scope float_scope.

Lemma specified_counts (field : option string) :
  given field && negb (match field with
                       | Some v => String.eqb v "Not specified"
                       | None => false
                       end) = specified field.
Proof.
  destruct field as [v|]; [|reflexivity].
  cbn [given specified]. now destruct v.
Qed.

(** X18.  The document agent's confidence is twenty times
    the number of the five key fields (company name, revenue, customers, team
    size, funding stage) that are present, not empty and not the text
    ["Not specified"]; the cap at 100 never changes it.  The record that the
    agent falls back to has all five. *)
Theorem document_confidence_counts_key_fields (extractedData : CompanyRecord) :
  calculateConfidence extractedData
  = of_Z (20 * Z.of_nat (List.length (filter specified (keyFields extractedData)))) /\
  calculateConfidence getDefaultStructuredData = 100.
Proof.
  split; [|vm_compute; reflexivity].
  unfold calculateConfidence, keyFields. cbv zeta.
  cbn [fold_left filter]. rewrite !specified_counts.
  destruct (specified (companyName extractedData)),
    (specified (revenue extractedData)), (specified (customers extractedData)),
    (specified (teamSize extractedData)), (specified (fundingStage extractedData));
    vm_compute; reflexivity.
Qed.

(** X19.  The document agent derives at most three insights,
    of three different types and with impacts between 4 and 9, and returns
    them in descending order of impact.  Without a revenue neither the
    financial nor the efficiency insight is derived, so at most the growth
    insight is left. *)
Theorem document_insights_shape (extractedData : CompanyRecord) :
  let l := generateDocumentInsights extractedData in
  descending impact_or_0 l /\
  (List.length l <= 3)%nat /\
  Forall (fun i => (4 <= impact_or_0 i <= 9)%Z) l /\
  NoDup (map type l) /\
  (given (revenue extractedData) = false ->
   (List.length l <= 1)%nat /\ Forall (fun i => type i = "growth") l).
Proof.
  cbv zeta. split; [apply InsightProperties.sort_desc_sorted|].
  unfold generateDocumentInsights. cbv zeta.
  generalize (parseNumericValue (revenue extractedData))
    (parseNumericValue (customers extractedData))
    (parseNumericValue (teamSize extractedData)).
  intros rev cust team.
  destruct (growthRate extractedData) as [rate|];
    [generalize (parseFloat (remove_first "%" rate)); intros growth|];
    destruct (given (revenue extractedData)), (given (customers extractedData)),
      (given (teamSize extractedData));
    cbn [andb]; split_conditions;
    cbn [sort_desc fold_right insert_desc app impact_or_0 impact Z.ltb Z.compare
         Pos.compare Pos.compare_cont List.length map type];
    (split; [lia|]);
    (split; [repeat constructor; cbn [impact_or_0 impact]; lia|]);
    (split; [repeat constructor; cbn [In]; intuition discriminate|]);
    intros H; try discriminate H;
    (split; [lia|repeat constructor]).
Qed.

(** X19 at a record that gives a growth rate and no
    revenue. *)
Lemma document_insights_witness :
  Forall (fun i => type i = "growth") (generateDocumentInsights growth_only).
Proof.
  apply (proj2 (proj2 (proj2 (proj2 (document_insights_shape growth_only))))).
  reflexivity.
Defined.

(** *** The mock document chosen for a file name *)

Ltac by_bits c :=
  destruct c as [[] [] [] [] [] [] [] []]; try reflexivity; congruence.

Lemma toLowerCase_regular (c : ascii) (s : string) :
  c <> "226"%char -> c <> "196"%char ->
  toLowerCase (String c s) = String (lower_ascii c) (toLowerCase s).
Proof. intros H1 H2. by_bits c. Qed.

Lemma toLowerCase_226 (c : ascii) (s : string) :
  c <> "132"%char ->
  toLowerCase (String "226" (String c s)) = String "226" (toLowerCase (String c s)).
Proof. intros H. by_bits c. Qed.

Lemma toLowerCase_226_132 (c : ascii) (s : string) :
  c <> "170"%char ->
  toLowerCase (String "226" (String "132" (String c s)))
  = String "226" (toLowerCase (String "132" (String c s))).
Proof. intros H. by_bits c. Qed.

Lemma toLowerCase_196 (c : ascii) (s : string) :
  c <> "176"%char ->
  toLowerCase (String "196" (String c s)) = String "196" (toLowerCase (String c s)).
Proof. intros H. by_bits c. Qed.

(** Lower-casing goes through a suffix that starts with an ASCII
    character. *)
Lemma toLowerCase_demo (n : nat) (s : string) :
  (String.length s <= n)%nat ->
  toLowerCase (s ++ "-demo.pdf") = (toLowerCase s ++ "-demo.pdf")%string.
Proof.
  revert s. induction n as [|n IH]; intros s Hs.
  - destruct s; [reflexivity|cbn [String.length] in Hs; lia].
  - destruct s as [|c s1]; [reflexivity|].
    cbn [String.length] in Hs.
    destruct (ascii_dec c "226") as [->|N226].
    + destruct s1 as [|c2 s2]; [reflexivity|].
      cbn [String.length] in Hs.
      destruct (ascii_dec c2 "132") as [->|N132].
      * destruct s2 as [|c3 s3]; [reflexivity|].
        cbn [String.length] in Hs.
        destruct (ascii_dec c3 "170") as [->|N170].
        -- cbn [String.append toLowerCase]. rewrite (IH s3) by lia. reflexivity.
        -- cbn [String.append].
           rewrite !(toLowerCase_226_132 c3) by exact N170.
           change (String "132" (String c3 (s3 ++ "-demo.pdf")))
             with (String "132" (String c3 s3) ++ "-demo.pdf")%string.
           rewrite (IH (String "132" (String c3 s3)))
             by (cbn [String.length]; lia).
           reflexivity.
      * cbn [String.append]. rewrite !(toLowerCase_226 c2) by exact N132.
        change (String c2 (s2 ++ "-demo.pdf")) with (String c2 s2 ++ "-demo.pdf")%string.
        rewrite (IH (String c2 s2)) by (cbn [String.length]; lia).
        reflexivity.
    + destruct (ascii_dec c "196") as [->|N196].
      * destruct s1 as [|c2 s2]; [reflexivity|].
        cbn [String.length] in Hs.
        destruct (ascii_dec c2 "176") as [->|N176].
        -- cbn [String.append toLowerCase]. rewrite (IH s2) by lia. reflexivity.
        -- cbn [String.append]. rewrite !(toLowerCase_196 c2) by exact N176.
           change (String c2 (s2 ++ "-demo.pdf"))
             with (String c2 s2 ++ "-demo.pdf")%string.
           rewrite (IH (String c2 s2)) by (cbn [String.length]; lia).
           reflexivity.
      * cbn [String.append]. rewrite !toLowerCase_regular by assumption.
        rewrite (IH s1) by lia. reflexivity.
Qed.

Lemma last_char_app (a : string) (c : ascii) (b : string) :
  last_char (a ++ String c b) = last_char (String c b).
Proof.
  induction a as [|x a IH]; [reflexivity|].
  cbn [String.append]. rewrite <- IH.
  destruct a; reflexivity.
Qed.

Lemma mock_key_demo (demoType : string) :
  mock_key (DocumentUpload.demo_file_name demoType)
  = (mock_key demoType ++ "demopdf")%string.
Proof.
  unfold mock_key, DocumentUpload.demo_file_name.
  rewrite (toLowerCase_demo (String.length demoType)) by lia.
  now rewrite CountProperties.filter_string_app.
Qed.

Lemma not_a_demo_key (k key : string) :
  last_char key <> Some "f"%char -> String.eqb (k ++ "demopdf") key = false.
Proof.
  intros H. apply String.eqb_neq. intros E. apply H.
  rewrite <- E. now rewrite last_char_app.
Qed.

(** X20.  The demo file that the upload page builds from a demo
    type is named after the type, followed by ["-demo.pdf"].  Whatever the
    type, the letters of that name spell no key of the mock documents, so the
    document agent reads the FoodieAI text for every demo.  The extension
    counts among the letters: ["mediconnect.pdf"] gets the FoodieAI text too,
    and ["MediConnect"] the MediConnect text. *)
Theorem every_demo_reads_foodieai (demoType : string) :
  getMockDocumentText (DocumentUpload.demo_file_name demoType) = foodieai /\
  getMockDocumentText "mediconnect.pdf" = foodieai /\
  getMockDocumentText "MediConnect" = mediconnect.
Proof.
  split; [|split; reflexivity].
  unfold getMockDocumentText. cbv zeta. rewrite mock_key_demo.
  now rewrite !not_a_demo_key by (cbn; congruence).
Qed.

End DocumentProperties.

(** ** The insights of the agents and the key insights of a report *)

Module AgentInsightProperties.
Import MultiAgentOrchestrator CaseAnalysis.

Section SortDescending.
Context {A : Type} (key : A -> Z).

Lemma insert_desc_map (x : A) (l : list A) :
  map key (insert_desc key x l) = insert_desc (fun z => z) (key x) (map key l).
Proof.
  induction l as [|y l IH]; [reflexivity|].
  cbn [insert_desc map]. destruct (key x <? key y)%Z; [|reflexivity].
  cbn [map]. now rewrite IH.
Qed.

Lemma sort_desc_map (l : list A) :
  map key (sort_desc key l) = sort_desc (fun z => z) (map key l).
Proof.
  induction l as [|x l IH]; [reflexivity|].
  cbn [sort_desc fold_right map]. fold (sort_desc key l).
  rewrite insert_desc_map. now rewrite IH.
Qed.

Lemma descending_firstn (n : nat) (l : list A) :
  descending key l -> descending key (firstn n l).
Proof.
  unfold descending. revert l. induction n as [|n IH]; intros l Hs.
  - constructor.
  - destruct l as [|x l]; [constructor|].
    inversion Hs as [|? ? Hl Hx]; subst. cbn [firstn].
    constructor; [now apply IH|].
    apply Forall_forall. intros y Hy. rewrite Forall_forall in Hx.
    apply Hx. rewrite <- (firstn_skipn n l). apply in_or_app. now left.
Qed.
End SortDescending.

Ltac one_of_lists :=
  cbn [In]; repeat first [left; reflexivity | right].

(** The impacts of a sorted list of insights, computed on the impacts
    alone. *)
Ltac sorted_impacts :=
  unfold impacts; rewrite sort_desc_map;
  cbn [map app impact_or_0 impact].

Lemma market_impacts (reply : option IndustryData.t) (d : CompanyRecord) :
  In (impacts (pushed (MarketResearchAgent.analyze reply d))) (possible_impacts Market).
Proof.
  unfold MarketResearchAgent.analyze, MarketResearchAgent.analysis.
  destruct (MarketResearchAgent.performBenchmarking d _) as [b|];
    [destruct (IndustryData.primaryIndustry _)|];
    cbn [pushed insights MarketResearchAgent.getFallbackAnalysis];
    try (cbn; now auto 10).
  unfold MarketResearchAgent.generateMarketInsights. cbv zeta.
  split_conditions; sorted_impacts; vm_compute; auto 10.
Qed.

Lemma risk_impacts (d : CompanyRecord) :
  In (impacts (pushed (RiskAssessmentAgent.analyze d))) (possible_impacts Risk).
Proof.
  unfold RiskAssessmentAgent.analyze, RiskAssessmentAgent.analysis.
  cbn [pushed insights].
  unfold RiskAssessmentAgent.generateRiskInsights.
  generalize (RiskAssessmentAgent.predictSuccessProbability d).
  generalize (RiskAssessmentAgent.detectRedFlags d).
  intros redFlags probability.
  destruct redFlags as [|f redFlags]; cbv zeta;
    split_conditions; sorted_impacts; vm_compute; auto 10.
Qed.

Lemma competitive_impacts (research_raises : bool) (d : CompanyRecord) :
  In (impacts (pushed (CompetitiveIntelligenceAgent.analyze research_raises d)))
    (possible_impacts Competitive).
Proof.
  unfold CompetitiveIntelligenceAgent.analyze, CompetitiveIntelligenceAgent.analysis.
  destruct research_raises; cbn [pushed insights]; [cbn; auto|].
  unfold CompetitiveIntelligenceAgent.generateCompetitiveInsights. cbv zeta.
  generalize (CompetitiveIntelligenceAgent.calculateDifferentiationStrength
                (CompetitiveIntelligenceAgent.analyzeDifferentiation d)).
  intros strength.
  split_conditions; sorted_impacts; vm_compute; auto 10.
Qed.

Lemma portfolio_impacts (service_json : bool) (d : CompanyRecord) :
  In (impacts (pushed (PortfolioImpactAgent.analyze service_json d)))
    (possible_impacts Portfolio).
Proof.
  unfold PortfolioImpactAgent.analyze, PortfolioImpactAgent.analysis.
  destruct (PortfolioImpactAgent.classifyIndustry d) as [exitData isFoodTech].
  cbn [pushed insights].
  unfold PortfolioImpactAgent.generatePortfolioInsights. cbv zeta.
  generalize (PortfolioImpactAgent.simulatePortfolioImpact d). intros weight.
  destruct (5 <? weight)%float; sorted_impacts; vm_compute; auto 10.
Qed.

Lemma top_five_of_possible_impacts (m r c p : list Z) :
  In m (possible_impacts Market) -> In r (possible_impacts Risk) ->
  In c (possible_impacts Competitive) -> In p (possible_impacts Portfolio) ->
  five_from_6_to_9 (top_five m r c p) = true.
Proof.
  assert (H : forallb (fun m =>
               forallb (fun r =>
                 forallb (fun c =>
                   forallb (fun p => five_from_6_to_9 (top_five m r c p))
                     (possible_impacts Portfolio))
                   (possible_impacts Competitive))
                 (possible_impacts Risk))
               (possible_impacts Market) = true) by (vm_compute; reflexivity).
  intros Hm Hr Hc Hp.
  rewrite forallb_forall in H. specialize (H m Hm).
  rewrite forallb_forall in H. specialize (H r Hr).
  rewrite forallb_forall in H. specialize (H c Hc).
  rewrite forallb_forall in H. exact (H p Hp).
Qed.

Lemma key_insight_impacts (results : AgentResults) :
  impacts (extractKeyInsights results)
  = top_five (impacts (pushed (market results))) (impacts (pushed (risk results)))
      (impacts (pushed (competitive results))) (impacts (pushed (portfolio results))).
Proof.
  unfold extractKeyInsights, top_five, impacts. cbv zeta.
  now rewrite <- firstn_map, sort_desc_map, !map_app.
Qed.

(** X21.  For every record whose fields are texts or absent, and whatever
    the generative service replies, a report synthesized from what the four
    agents return has exactly five key insights, in descending order of
    impact, and each of them has an impact between 6 and 9. *)
Theorem five_key_insights (sv : Services) (d : CompanyRecord) :
  let key := extractKeyInsights (agent_results sv d) in
  List.length key = 5%nat /\
  descending impact_or_0 key /\
  Forall (fun i => (6 <= impact_or_0 i <= 9)%Z) key.
Proof.
  cbv zeta.
  pose proof (top_five_of_possible_impacts _ _ _ _
                (market_impacts (industry_reply sv) d) (risk_impacts d)
                (competitive_impacts (research_raises sv) d)
                (portfolio_impacts (parameters_json sv) d)) as H.
  change (five_from_6_to_9 (top_five
            (impacts (pushed (market (agent_results sv d))))
            (impacts (pushed (risk (agent_results sv d))))
            (impacts (pushed (competitive (agent_results sv d))))
            (impacts (pushed (portfolio (agent_results sv d))))) = true) in H.
  rewrite <- key_insight_impacts in H.
  unfold five_from_6_to_9 in H. apply andb_true_iff in H as [Hl Hf].
  apply Nat.eqb_eq in Hl. unfold impacts in Hl. rewrite length_map in Hl.
  split; [exact Hl|]. split.
  - unfold extractKeyInsights. apply descending_firstn.
    apply InsightProperties.sort_desc_sorted.
  - rewrite forallb_forall in Hf. apply Forall_forall. intros i Hi.
    specialize (Hf (impact_or_0 i) (in_map impact_or_0 _ _ Hi)).
    apply andb_true_iff in Hf as [H6 H9].
    apply Z.leb_le in H6, H9. lia.
Qed.

End AgentInsightProperties.

(** ** A run of the orchestrator on its own agents *)

Module OrchestratedRunProperties.
Import MultiAgentOrchestrator CaseAnalysis.
Local Open Scope float_scope.

(** The market score of the record without any field depends on the
    classification of the industry alone. *)
Lemma market_score_of_emptyRecord (reply : option IndustryData.t) :
  In (score (MarketResearchAgent.analyze reply emptyRecord))
    [Some 5.8; Some 5.3; Some 5].
Proof.
  unfold MarketResearchAgent.analyze, MarketResearchAgent.analysis,
    MarketResearchAgent.classifyIndustry.
  destruct reply as [[[primary|] confidence]|];
    cbn [IndustryData.primaryIndustry];
    unfold MarketResearchAgent.performBenchmarking;
    cbn [IndustryData.primaryIndustry];
    try (cbn [score MarketResearchAgent.getFallbackAnalysis In]; now auto).
  unfold MarketResearchAgent.validateMarketSize_credibility.
  generalize (toLowerCase primary). intros industry.
  split_conditions; cbn [score]; vm_compute; auto.
Qed.

Lemma report_of_scores (results : AgentResults) (m : number) :
  score (market results) = Some m -> In m [5.8; 5.3; 5] ->
  riskScore (risk results) = Some 8.7 ->
  score (competitive results) = Some 5 ->
  score (portfolio results) = Some 9 ->
  In (calculateInvestmentScore results) [5.1; 5; 4.9] /\
  Recommendation.decision (generateRecommendation results) = PASS.
Proof.
  intros Hm Im Hr Hc Hp.
  unfold generateRecommendation, calculateInvestmentScore. cbv zeta.
  cbn [fold_left weights scores fst snd]. rewrite Hm, Hr, Hc, Hp.
  cbn [In] in Im. destruct Im as [<-|[<-|[<-|[]]]]; vm_compute; auto.
Qed.

(** X22.  The orchestrator hands the document agent's result itself
    to the four analysis agents, which find none of the fields they read in
    it.  Whatever the document and whatever the generative service replies,
    the risk score is therefore 8.7, the competitive score 5 and the
    portfolio score 9; the market score is 5.8, 5.3 or 5 with the
    classification of the industry; the investment score is 5.1, 5 or 4.9, and
    the recommendation is to pass. *)
Theorem every_orchestrated_report_passes (sv : Services) (file : CompanyRecord) :
  let b := bundle_of document_agent (orchestrated_agents sv) file in
  rawData b = agent_results sv emptyRecord /\
  In (score (market (rawData b))) [Some 5.8; Some 5.3; Some 5] /\
  riskScore (risk (rawData b)) = Some 8.7 /\
  score (competitive (rawData b)) = Some 5 /\
  score (portfolio (rawData b)) = Some 9 /\
  In (investmentScore (synthesizedReport b)) [5.1; 5; 4.9] /\
  Recommendation.decision (recommendation (synthesizedReport b)) = PASS.
Proof.
  cbv zeta.
  assert (Hraw : rawData (bundle_of document_agent (orchestrated_agents sv) file)
                 = agent_results sv emptyRecord) by reflexivity.
  assert (Hrep : synthesizedReport (bundle_of document_agent (orchestrated_agents sv) file)
                 = synthesizeResults (agent_results sv emptyRecord)) by reflexivity.
  rewrite Hraw, Hrep. clear Hraw Hrep.
  pose proof (market_score_of_emptyRecord (industry_reply sv)) as Hm.
  assert (Hr : riskScore (risk (agent_results sv emptyRecord)) = Some 8.7)
    by (vm_compute; reflexivity).
  assert (Hc : score (competitive (agent_results sv emptyRecord)) = Some 5)
    by (cbn [agent_results competitive agent_result];
        destruct (research_raises sv); vm_compute; reflexivity).
  assert (Hp : score (portfolio (agent_results sv emptyRecord)) = Some 9)
    by (cbn [agent_results portfolio agent_result];
        destruct (parameters_json sv); vm_compute; reflexivity).
  split; [reflexivity|]. split; [exact Hm|].
  split; [exact Hr|]. split; [exact Hc|]. split; [exact Hp|].
  cbn [synthesizeResults investmentScore recommendation].
  cbn [agent_results market agent_result] in Hm.
  destruct (score (MarketResearchAgent.analyze (industry_reply sv) emptyRecord))
    as [m|] eqn:Em.
  - apply (report_of_scores _ m); auto.
    cbn [In] in Hm |- *.
    destruct Hm as [E|[E|[E|[]]]]; injection E as <-; auto.
  - cbn [In] in Hm. destruct Hm as [E|[E|[E|[]]]]; discriminate E.
Qed.

End OrchestratedRunProperties.

(** ** What the synthesis and the application read from the results *)

Module ResultObjectProperties.
Import ResultObject Produced.
Local Open Scope float_scope.

Ltac every_delivery sv d :=
  unfold delivered, outcome;
  cbn [analysis_of agent_result];
  unfold MarketResearchAgent.analyze, RiskAssessmentAgent.analyze,
    RiskAssessmentAgent.analysis, CompetitiveIntelligenceAgent.analyze,
    CompetitiveIntelligenceAgent.analysis;
  repeat match goal with
         | |- context [match ?x with Some _ => _ | None => _ end] =>
             lazymatch x with
             | MarketResearchAgent.analysis _ _ => destruct x
             end
         | |- context [if research_raises ?s then _ else _] =>
             destruct (research_raises s)
         end;
  cbn [members Synthesis.suggestNextSteps Synthesis.consolidateRisks
       Synthesis.pushed_risks App.breakdown compared length_compared
       or_else member String.eqb Ascii.eqb Bool.eqb num riskScore
       MultiAgentOrchestrator.fallback MultiAgentOrchestrator.getRiskFallback
       fallback_of RiskAssessmentAgent.getFallbackAnalysis to_number].

(** X23.  Whatever the record, the replies of the generative service
    and the wrappers that fall back, the objects that the wrappers deliver
    hold no [marketShare], and no [threats] but the empty list of the
    orchestrator's fallback.  The next steps therefore never include the
    competitive deep dive nor the validation of the market size: they are the
    financial audit when the risk score exceeds 7, and nothing otherwise. *)
Theorem next_steps_are_the_audit_or_nothing (sv : Services) (d : CompanyRecord)
    (market_raised risk_raised competitive_raised : bool) :
  Synthesis.suggestNextSteps (delivered sv Risk d risk_raised)
    (delivered sv Competitive d competitive_raised)
    (delivered sv Market d market_raised)
  = Some (if 7 <? to_number (riskScore (outcome sv Risk d risk_raised))
          then ["Conduct detailed financial audit"] else []).
Proof.
  destruct market_raised, risk_raised, competitive_raised;
    every_delivery sv d;
    try reflexivity;
    try (generalize (RiskAssessmentAgent.calculateFinalRiskScore
                       (RiskAssessmentAgent.predictSuccessProbability d)
                       (RiskAssessmentAgent.detectRedFlags d));
         intros r; destruct (7 <? r));
    vm_compute; reflexivity.
Qed.

(** X24.  None of the objects that the wrappers deliver holds a
    [risks] list with an entry, so the report never names a risk factor; and
    none holds a [financialRisk], [marketRisk], [teamRisk] or
    [competitiveRisk], so every entry of the risk breakdown that the
    application derives for display is the default 5. *)
Theorem no_risk_factor_is_reported (sv : Services) (d : CompanyRecord)
    (market_raised risk_raised competitive_raised : bool) :
  let market := delivered sv Market d market_raised in
  let risk := delivered sv Risk d risk_raised in
  let competitive := delivered sv Competitive d competitive_raised in
  Synthesis.consolidateRisks risk competitive market = Some 0%nat /\
  App.breakdown risk market competitive = Some (5, 5, 5, 5).
Proof.
  cbv zeta.
  destruct market_raised, risk_raised, competitive_raised;
    every_delivery sv d; split; reflexivity.
Qed.

End ResultObjectProperties.

(** ** The status record of the orchestrator *)

Module StatusProperties.
Import MultiAgentOrchestrator.




Lemma run_status (t : task) (s : settled) : fst (run t s) = status_written s.
Proof. destruct s; reflexivity. Qed.

Lemma no_pending_set_status (t : task) (x : settled) (s : AnalysisStatus) :
  no_pending s = true -> no_pending (set_status t (fst (run t x)) s) = true.
Proof.
  rewrite run_status. unfold no_pending.
  destruct s as [d m r c p], t, x; cbn; intros H;
    destruct d, m, r, c, p; try discriminate H; reflexivity.
Qed.

Section AnalyzeStartup.
Context {DocumentInput DocumentData : Type}.
Variable document_analyze : DocumentInput -> DocumentData.
Variable agent_analyze : task -> DocumentData -> settled.

Local Abbreviation step := (step document_analyze agent_analyze).
Local Abbreviation exec := (exec document_analyze agent_analyze).
Local Abbreviation World := (World DocumentInput DocumentData).
Local Abbreviation event := (event DocumentInput).

Lemma step_no_pending (e : event) (w w' : World) :
  fresh_or_started w -> step e w = Some w' -> no_pending (analysisStatus w') = true.
Proof.
  intros H. destruct e as [i file|i|i t|i]; cbn [MultiAgentOrchestrator.step].
  - destruct (at_phase (runs w i)); try discriminate.
    intros E. injection E as <-. reflexivity.
  - destruct (at_phase (runs w i)) eqn:Ep; try discriminate.
    destruct (documentFile (runs w i)); try discriminate.
    intros E. injection E as <-. cbn [analysisStatus].
    destruct H as [H|H]; [rewrite H in Ep; discriminate|].
    unfold no_pending in *. cbn.
    destruct (st_document (analysisStatus w)), (st_market (analysisStatus w)),
      (st_risk (analysisStatus w)), (st_competitive (analysisStatus w)),
      (st_portfolio (analysisStatus w)); try discriminate H; reflexivity.
  - destruct (at_phase (runs w i)) eqn:Ep; try discriminate.
    destruct (documentData (runs w i)); try discriminate.
    destruct (get_slot t (slots (runs w i))); try discriminate.
    intros E. injection E as <-. cbn [analysisStatus].
    destruct H as [H|H]; [rewrite H in Ep; discriminate|].
    now apply no_pending_set_status.
  - destruct (at_phase (runs w i)) eqn:Ep; try discriminate.
    destruct (promise_all (slots (runs w i))); try discriminate.
    intros E. injection E as <-. cbn [analysisStatus].
    destruct H as [H|H]; [rewrite H in Ep; discriminate|exact H].
Qed.

Lemma exec_no_pending (trace : list event) (w w' : World) :
  no_pending (analysisStatus w) = true -> exec trace w = Some w' ->
  no_pending (analysisStatus w') = true.
Proof.
  revert w. induction trace as [|e trace IH]; intros w H.
  - intros E. injection E as <-. exact H.
  - cbn [MultiAgentOrchestrator.exec].
    destruct (step e w) as [w1|] eqn:Es; [|discriminate].
    apply IH. apply (step_no_pending e w); [now right|exact Es].
Qed.

(** X25.  [pending] is the status of an orchestrator on which nothing
    has been called.  After the first event of any sequence of calls, however
    they interleave and however their agents settle, none of the five statuses
    reads [pending] again. *)
Theorem pending_only_before_first_call (e : event) (trace : list event) (w : World) :
  exec (e :: trace) constructor = Some w ->
  analysisStatus (@constructor DocumentInput DocumentData) = all_status pending /\
  no_pending (analysisStatus w) = true.
Proof.
  cbn [MultiAgentOrchestrator.exec].
  destruct (step e constructor) as [w1|] eqn:Es; [|discriminate].
  intros E. split; [reflexivity|].
  apply (exec_no_pending trace w1); [|exact E].
  apply (step_no_pending e constructor); [now left|exact Es].
Qed.




End AnalyzeStartup.


(** X25 at two overlapping calls on the agents of this repository. *)
Lemma pending_witness :
  exists w,
    exec document_agent (orchestrated_agents no_service) overlapping_calls constructor
    = Some w /\
    no_pending (analysisStatus w) = true.
Proof.
  eexists. split; [reflexivity|].
  eapply (pending_only_before_first_call document_agent (orchestrated_agents no_service)
            (Call 0 first_file) (tl overlapping_calls)).
  reflexivity.
Defined.

End StatusProperties.

(** ** The results page *)

Module AnalysisResultsProperties.
Import MultiAgentOrchestrator AnalysisResults.
Local Open Scope float_scope.

(** X27.  On the overview of a synthesized report the colour of the
    investment score follows the recommendation: green for a strong buy,
    orange for proceeding with caution, red for a pass.  The recommendation
    badge is green for a strong buy and red for both other decisions: the
    text of the cautious decision mentions neither a buy nor a hold. *)
Theorem score_color_follows_decision (agentResults : AgentResults) :
  let report := synthesizeResults agentResults in
  score_color report
  = match Recommendation.decision (recommendation report) with
    | STRONG_BUY => green
    | PROCEED_WITH_CAUTION => orange
    | PASS => red
    end /\
  badge_color report
  = match Recommendation.decision (recommendation report) with
    | STRONG_BUY => green
    | _ => red
    end.
Proof.
  cbv zeta. unfold score_color, badge_color, synthesizeResults, generateRecommendation,
    getScoreColor.
  cbn [investmentScore recommendation]. cbv zeta.
  destruct (8 <=? calculateInvestmentScore agentResults);
    [|destruct (6 <=? calculateInvestmentScore agentResults)];
    split; reflexivity.
Qed.

End AnalysisResultsProperties.
